(** * hass-issues-collect: GitHub issue events to Feishu Bitable and MySQL

    A shallow embedding of [script/issue_to_feishu.py] and
    [script/issue_to_mysql.py].  Python values are a small inductive type,
    a script is a state-and-exception computation over an explicit world
    (environment variables, event files, the remote service and the log of
    the external calls that were made), and the interpreter's builtins that
    the scripts call but do not define (datetime parsing, [repr],
    [json.dumps], [int]) are an interface with one reference instance. *)

From Stdlib Require Import ZArith Lia Ascii Sorted.
From stdpp Require Import base option strings list gmap pretty.

#[local] Set Warnings "-register-all".

Local Open Scope Z_scope.

(** ** Python values, exceptions and builtins *)

Module Py.

(** What [json.load] returns and what the scripts build from it.
    Numbers are the integers; a character of a [str] is one [ascii]. *)
Inductive pyval : Type :=
| PNone
| PBool (b : bool)
| PInt (n : Z)
| PStr (s : string)
| PList (items : list pyval)
| PDict (members : list (string * pyval)).

Inductive exn : Type :=
| TypeError
| AttributeError
| ValueError
| KeyError
| IndexError
| OSError
| JSONDecodeError
| URLError
| DatabaseError
| OverflowError.

(** A file as [json.load] sees it. *)
Inductive file : Type :=
| NotJson
| Json (v : pyval).

(** How a piece of Python ends: a value, [raise SystemExit(msg)], or any
    other exception, which nothing in the scripts catches. *)
Inductive res (A : Type) : Type :=
| Ok (a : A)
| SystemExit (msg : string)
| Raise (e : exn).
Arguments Ok {A} a.
Arguments SystemExit {A} msg.
Arguments Raise {A} e.

Definition rbind {A B} (r : res A) (k : A -> res B) : res B :=
  match r with
  | Ok a => k a
  | SystemExit msg => SystemExit msg
  | Raise e => Raise e
  end.

Definition is_ok {A} (r : res A) : bool :=
  match r with Ok _ => true | _ => false end.

(** The status the process ends with: [SystemExit] with a string argument
    prints it and exits 1, an uncaught exception exits 1 as well. *)
Definition exit_status {A} (r : res A) : Z :=
  match r with Ok _ => 0 | SystemExit _ => 1 | Raise _ => 1 end.

(** A computation over a world [W]. *)
Definition M (W A : Type) : Type := W -> res A * W.

Definition ret {W A} (a : A) : M W A := fun w => (Ok a, w).

Definition bind {W A B} (m : M W A) (k : A -> M W B) : M W B :=
  fun w =>
    match m w with
    | (Ok a, w') => k a w'
    | (SystemExit msg, w') => (SystemExit msg, w')
    | (Raise e, w') => (Raise e, w')
    end.

Definition lift {W A} (r : res A) : M W A := fun w => (r, w).

(** [try: body finally: cleanup]: the cleanup always runs; the outcome is
    the body's unless the cleanup itself fails. *)
Definition try_finally {W A} (body : M W A) (cleanup : M W unit) : M W A :=
  fun w =>
    let (r, w1) := body w in
    match cleanup w1 with
    | (Ok _, w2) => (r, w2)
    | (SystemExit msg, w2) => (SystemExit msg, w2)
    | (Raise e, w2) => (Raise e, w2)
    end.

(** *** dict *)

Fixpoint dict_get (k : string) (d : list (string * pyval)) : option pyval :=
  match d with
  | [] => None
  | (k', v) :: d' => if decide (k' = k) then Some v else dict_get k d'
  end.

(** [d[k] = v]: an existing key keeps its position. *)
Fixpoint dict_set (k : string) (v : pyval) (d : list (string * pyval))
  : list (string * pyval) :=
  match d with
  | [] => [(k, v)]
  | (k', v') :: d' =>
      if decide (k' = k) then (k, v) :: d' else (k', v') :: dict_set k v d'
  end.

(** A dict display [{k1: v1, ..., kn: vn}], evaluated left to right. *)
Definition dict_of (items : list (string * pyval)) : list (string * pyval) :=
  fold_left (fun d kv => dict_set kv.1 kv.2 d) items [].

(** *** truth value, comparison with an int, [len] *)

Definition truthy (v : pyval) : bool :=
  match v with
  | PNone => false
  | PBool b => b
  | PInt n => negb (Z.eqb n 0)
  | PStr s => negb (bool_decide (s = ""))
  | PList l => match l with [] => false | _ => true end
  | PDict d => match d with [] => false | _ => true end
  end.

(** [v == n] for an int literal [n] ([False == 0] and [True == 1]). *)
Definition eq_int (v : pyval) (n : Z) : bool :=
  match v with
  | PInt m => Z.eqb m n
  | PBool b => Z.eqb (if b then 1 else 0) n
  | _ => false
  end.

Definition len (s : string) : Z := Z.of_nat (String.length s).

(** *** str methods *)

Fixpoint str_take (n : nat) (s : string) : string :=
  match n, s with
  | O, _ => ""
  | S n', EmptyString => ""
  | S n', String c s' => String c (str_take n' s')
  end.

Fixpoint str_drop (n : nat) (s : string) : string :=
  match n, s with
  | O, _ => s
  | S n', EmptyString => ""
  | S n', String c s' => str_drop n' s'
  end.

(** [s[:k]]: a negative [k] counts from the end. *)
Definition slice_to (s : string) (k : Z) : string :=
  if Z.ltb k 0 then str_take (Z.to_nat (len s + k)) s
  else str_take (Z.to_nat k) s.

(** [s[k:]] for a [k] that is not negative *)
Definition slice_from (s : string) (k : Z) : string := str_drop (Z.to_nat k) s.

(** [s.replace(old, new)] for a one-character [old]. *)
Fixpoint str_replace (old : ascii) (new : string) (s : string) : string :=
  match s with
  | EmptyString => ""
  | String c s' =>
      if decide (c = old) then new +:+ str_replace old new s'
      else String c (str_replace old new s')
  end.

(** [sep.join(parts)] *)
Fixpoint str_join (sep : string) (parts : list string) : string :=
  match parts with
  | [] => ""
  | [p] => p
  | p :: rest => p +:+ sep +:+ str_join sep rest
  end.

Fixpoint str_prefix (p s : string) : bool :=
  match p, s with
  | EmptyString, _ => true
  | String a p', String b s' => bool_decide (a = b) && str_prefix p' s'
  | String _ _, EmptyString => false
  end.

(** [p in s] on two strs *)
Fixpoint str_contains (p s : string) : bool :=
  str_prefix p s ||
  match s with
  | EmptyString => false
  | String _ s' => str_contains p s'
  end.

(** *** operations that depend on the type of the receiver *)

(** [k in v] *)
Definition contains (k : string) (v : pyval) : res bool :=
  match v with
  | PDict d => Ok (bool_decide (is_Some (dict_get k d)))
  | PList l =>
      Ok (existsb (fun x => match x with
                            | PStr s => bool_decide (s = k)
                            | _ => false
                            end) l)
  | PStr s => Ok (str_contains k s)
  | _ => Raise TypeError
  end.

(** [v[k]] for a str key [k] *)
Definition subscript (v : pyval) (k : string) : res pyval :=
  match v with
  | PDict d => match dict_get k d with
               | Some x => Ok x
               | None => Raise KeyError
               end
  | _ => Raise TypeError
  end.

(** [v.get(k, default)]: only a dict has the method. *)
Definition get (v : pyval) (k : string) (dflt : pyval) : res pyval :=
  match v with
  | PDict d => Ok (default dflt (dict_get k d))
  | _ => Raise AttributeError
  end.

(** What [for x in v] visits. *)
Definition iterate (v : pyval) : res (list pyval) :=
  match v with
  | PList l => Ok l
  | PDict d => Ok (map (fun kv => PStr kv.1) d)
  | PStr s =>
      Ok (map (fun c => PStr (String c "")) (String.list_ascii_of_string s))
  | _ => Raise TypeError
  end.

(** [[x.get(key) for x in xs if x.get(key)]] *)
Fixpoint pluck (key : string) (xs : list pyval) : res (list pyval) :=
  match xs with
  | [] => Ok []
  | x :: xs' =>
      rbind (get x key PNone) (fun n =>
        if truthy n
        then rbind (pluck key xs') (fun rest => Ok (n :: rest))
        else pluck key xs')
  end.

(** [[x.get(sub) for x in issue.get(key, []) if x.get(sub)]] *)
Definition names_of (issue : pyval) (key sub : string) : res (list pyval) :=
  rbind (get issue key (PList [])) (fun raw =>
    rbind (iterate raw) (fun xs => pluck sub xs)).

(** *** the builtins the scripts import *)

Class Builtins : Type := {
  datetime : Type;
  (** [datetime.fromisoformat]; [None] is its [ValueError] *)
  fromisoformat : string -> option datetime;
  (** [d.astimezone(timezone.utc)]; [None] is its [OverflowError], when
      the instant leaves the years 1 to 9999 *)
  astimezone_utc : datetime -> option datetime;
  (** [d.isoformat()] *)
  isoformat : datetime -> string;
  (** [repr] of a list or dict, which is also its [str] *)
  repr : pyval -> string;
  (** [json.dumps(v, ensure_ascii=True)] *)
  json_dumps : pyval -> string;
  (** [int(s)]; [None] is its [ValueError] *)
  int_of_str : string -> option Z;
}.

(** [str(v)], as an f-string or [str()] renders a value. *)
Definition str `{Builtins} (v : pyval) : string :=
  match v with
  | PNone => "None"
  | PBool true => "True"
  | PBool false => "False"
  | PInt n => pretty n
  | PStr s => s
  | PList _ | PDict _ => repr v
  end.

End Py.

Notation "'let*' x ':=' c 'in' k" := (Py.bind c (fun x => k))
  (at level 10, x name, c at level 100, k at level 200, only parsing).
Notation "'let?' x ':=' c 'in' k" := (Py.rbind c (fun x => k))
  (at level 10, x name, c at level 100, k at level 200, only parsing).

(** ** script/issue_to_feishu.py *)

Module Feishu.
Import Py.

(** What the script hands to [urlopen]; the body on the wire is
    [json.dumps(payload)]. *)
Record Request : Type := {
  method : string;
  url : string;
  headers : list (string * string);
  payload : pyval;
}.

(** What [urlopen] and [response.read()] come back with: the body of a
    response with a success status ([None] when it is not JSON), the
    [HTTPError] of another status, or no response at all ([URLError],
    timeout). *)
Inductive Reply : Type :=
| Body (parsed : option pyval)
| HTTPError (code : Z) (reason detail : string)
| Unreachable.

Record World (Srv : Type) : Type := {
  environ : gmap string string;
  files : gmap string file;
  remote : Srv;
  (** the HTTP exchanges made so far, oldest first *)
  wire : list (Request * Reply);
}.
Arguments environ {Srv} w.
Arguments files {Srv} w.
Arguments remote {Srv} w.
Arguments wire {Srv} w.

(** [os.getenv(name, default)] *)
Definition getenv (env : gmap string string) (name : string)
    (dflt : option string) : option string :=
  match env !! name with
  | Some v => Some v
  | None => dflt
  end.

Definition _env (env : gmap string string) (name : string)
    (dflt : option string) : res string :=
  match getenv env name dflt with
  | None => SystemExit ("Missing required env var: " +:+ name)
  | Some value =>
      if decide (value = "")
      then SystemExit ("Missing required env var: " +:+ name)
      else Ok value
  end.

(** The variables [main] reads through [_env]. *)
Definition required_env : list string :=
  ["GITHUB_EVENT_PATH"; "FEISHU_APP_ID"; "FEISHU_APP_SECRET";
   "FEISHU_APP_TOKEN"; "FEISHU_TABLE_ID"].

(** The character budget [main] gives the issue body. *)
Definition body_limit : Z := 5000.

Definition _truncate (value : pyval) (limit : Z) : res pyval :=
  match value with
  | PNone => Ok PNone
  | PStr s =>
      if len s <=? limit then Ok value
      else Ok (PStr (slice_to s (limit - 3) +:+ "..."))
  | PList l =>
      if Z.of_nat (length l) <=? limit then Ok value else Raise TypeError
  | PDict d =>
      if Z.of_nat (length d) <=? limit then Ok value else Raise TypeError
  | PBool _ | PInt _ => Raise TypeError
  end.

Fixpoint strs_of (xs : list pyval) : option (list string) :=
  match xs with
  | [] => Some []
  | PStr s :: xs' => cons s <$> strs_of xs'
  | _ :: _ => None
  end.

(** [", ".join(names) if names else None] *)
Definition joined (names : list pyval) : res pyval :=
  match names with
  | [] => Ok PNone
  | _ :: _ =>
      match strs_of names with
      | Some l => Ok (PStr (str_join ", " l))
      | None => Raise TypeError
      end
  end.

(** [items[0]] *)
Definition first_item (items : pyval) : res pyval :=
  match items with
  | PList (x :: _) => Ok x
  | PList [] => Raise IndexError
  | PStr s => match s with
              | String c _ => Ok (PStr (String c ""))
              | EmptyString => Raise IndexError
              end
  | PDict _ => Raise KeyError
  | _ => Raise TypeError
  end.

Definition records_url (base_url app_token table_id : string) : string :=
  base_url +:+ "/open-apis/bitable/v1/apps/" +:+ app_token +:+ "/tables/"
    +:+ table_id +:+ "/records".

Definition token_url (base_url : string) : string :=
  base_url +:+ "/open-apis/auth/v3/tenant_access_token/internal".

Definition json_headers : list (string * string) :=
  [("Content-Type", "application/json; charset=utf-8")].

Section Script.
Context `{Builtins}.
Context {Srv : Type} (serve : Request -> Srv -> Reply * Srv).

Definition _parse_github_timestamp (value : pyval) : res pyval :=
  if negb (truthy value) then Ok PNone
  else
    match value with
    | PStr s =>
        match fromisoformat (str_replace "Z" "+00:00" s) with
        | None => Raise ValueError
        | Some parsed =>
            match astimezone_utc parsed with
            | None => Raise OverflowError
            | Some utc => Ok (PStr (isoformat utc))
            end
        end
    | _ => Raise AttributeError
    end.

Definition _load_event (event_path : string) : M (World Srv) pyval :=
  fun w =>
    match files w !! event_path with
    | None => (Raise OSError, w)
    | Some NotJson => (Raise JSONDecodeError, w)
    | Some (Json v) => (Ok v, w)
    end.

Definition _request_json (method url : string)
    (headers : list (string * string)) (payload : pyval)
  : M (World Srv) pyval :=
  fun w =>
    let request := {| method := method; url := url; headers := headers;
                      payload := payload |} in
    let (reply, srv) := serve request (remote w) in
    let w' := {| environ := environ w; files := files w; remote := srv;
                 wire := wire w ++ [(request, reply)] |} in
    match reply with
    | HTTPError code reason detail =>
        (SystemExit ("HTTP " +:+ pretty code +:+ " " +:+ reason +:+ ": "
                       +:+ detail), w')
    | Unreachable => (Raise URLError, w')
    | Body None => (Raise JSONDecodeError, w')
    | Body (Some v) => (Ok v, w')
    end.

(** [if response.get("code") != 0: raise SystemExit(f"{what}: {response}")] *)
Definition check_code (what : string) (response : pyval) : res unit :=
  let? code := get response "code" PNone in
  if negb (eq_int code 0)
  then SystemExit (what +:+ ": " +:+ str response)
  else Ok tt.

Definition bearer_headers (token : pyval) : list (string * string) :=
  json_headers ++ [("Authorization", "Bearer " +:+ str token)].

Definition _get_tenant_token (base_url app_id app_secret : string)
  : M (World Srv) pyval :=
  let* response :=
    _request_json "POST" (token_url base_url) json_headers
      (PDict [("app_id", PStr app_id); ("app_secret", PStr app_secret)]) in
  let* _ := lift (check_code "Failed to get tenant token" response) in
  lift (subscript response "tenant_access_token").

Definition search_payload (issue_id : pyval) (field_name : string) : pyval :=
  PDict
    [("filter",
      PDict [("conjunction", PStr "and");
             ("conditions",
              PList [PDict [("field_name", PStr field_name);
                            ("operator", PStr "is");
                            ("value", PList [PStr (str issue_id)])]])]);
     ("page_size", PInt 1)].

Definition _bitable_search (base_url : string) (token : pyval)
    (app_token table_id : string) (issue_id : pyval) (field_name : string)
  : M (World Srv) pyval :=
  let* response :=
    _request_json "POST"
      (records_url base_url app_token table_id +:+ "/search")
      (bearer_headers token) (search_payload issue_id field_name) in
  let* _ := lift (check_code "Failed to search bitable records" response) in
  let* data := lift (get response "data" (PDict [])) in
  let* items := lift (get data "items" (PList [])) in
  if negb (truthy items) then ret PNone
  else
    let* item := lift (first_item items) in
    lift (get item "record_id" PNone).

Definition _bitable_upsert (base_url : string) (token : pyval)
    (app_token table_id : string) (issue_id : pyval) (field_name : string)
    (fields : list (string * pyval)) : M (World Srv) unit :=
  let* record_id :=
    _bitable_search base_url token app_token table_id issue_id field_name in
  let target :=
    if truthy record_id
    then (records_url base_url app_token table_id +:+ "/" +:+ str record_id,
          "PUT")
    else (records_url base_url app_token table_id, "POST") in
  let* response :=
    _request_json target.2 target.1 (bearer_headers token)
      (PDict [("fields", PDict fields)]) in
  lift (check_code "Failed to upsert bitable record" response).

Definition _bitable_create (base_url : string) (token : pyval)
    (app_token table_id : string) (fields : list (string * pyval))
  : M (World Srv) unit :=
  let* response :=
    _request_json "POST" (records_url base_url app_token table_id)
      (bearer_headers token) (PDict [("fields", PDict fields)]) in
  lift (check_code "Failed to create bitable record" response).

(** The configuration [main] reads before it touches the event. *)
Record Config : Type := {
  event_path : string;
  base_url : string;
  app_id : string;
  app_secret : string;
  app_token : string;
  table_id : string;
  upsert : bool;
  issue_id_field : string;
}.

Definition read_config (env : gmap string string) : res Config :=
  let? event_path := _env env "GITHUB_EVENT_PATH" None in
  let base_url :=
    match getenv env "FEISHU_BASE_URL" None with
    | Some v => if decide (v = "") then "https://open.feishu.cn" else v
    | None => "https://open.feishu.cn"
    end in
  let? app_id := _env env "FEISHU_APP_ID" None in
  let? app_secret := _env env "FEISHU_APP_SECRET" None in
  let? app_token := _env env "FEISHU_APP_TOKEN" None in
  let? table_id := _env env "FEISHU_TABLE_ID" None in
  let upsert :=
    bool_decide (getenv env "FEISHU_UPSERT" (Some "1") = Some "1") in
  let issue_id_field :=
    default "Issue ID" (getenv env "FEISHU_FIELD_ISSUE_ID" (Some "Issue ID")) in
  Ok {| event_path := event_path; base_url := base_url; app_id := app_id;
        app_secret := app_secret; app_token := app_token;
        table_id := table_id; upsert := upsert;
        issue_id_field := issue_id_field |}.

(** The [fields] dict display of [main], with [labels] and [assignees]
    the two comprehensions before it. *)
Definition build_fields (issue_id_field : string) (issue action : pyval)
  : res (list (string * pyval)) :=
  let? labels := names_of issue "labels" "name" in
  let? assignees := names_of issue "assignees" "login" in
  let? id := get issue "id" PNone in
  let? number := get issue "number" PNone in
  let? title := get issue "title" PNone in
  let? state := get issue "state" PNone in
  let? html_url := get issue "html_url" PNone in
  let? user := get issue "user" (PDict []) in
  let? login := get user "login" PNone in
  let? labels_field := joined labels in
  let? assignees_field := joined assignees in
  let? created_raw := get issue "created_at" PNone in
  let? created_at := _parse_github_timestamp created_raw in
  let? updated_raw := get issue "updated_at" PNone in
  let? updated_at := _parse_github_timestamp updated_raw in
  let? closed_raw := get issue "closed_at" PNone in
  let? closed_at := _parse_github_timestamp closed_raw in
  let? raw_body := get issue "body" PNone in
  let? body := _truncate raw_body body_limit in
  Ok (dict_of
        [(issue_id_field, PStr (str id));
         ("Issue Number", number);
         ("Title", title);
         ("State", state);
         ("URL", html_url);
         ("User", login);
         ("Labels", labels_field);
         ("Assignees", assignees_field);
         ("Action", action);
         ("Created At", created_at);
         ("Updated At", updated_at);
         ("Closed At", closed_at);
         ("Body", body)]).

Definition main : M (World Srv) unit :=
  let* cfg := (fun w => (read_config (environ w), w)) in
  let* event := _load_event (event_path cfg) in
  let* has_issue := lift (contains "issue" event) in
  if negb has_issue then lift (SystemExit "Event payload missing 'issue'")
  else
    let* issue := lift (subscript event "issue") in
    let* action := lift (get event "action" (PStr "unknown")) in
    let* fields := lift (build_fields (issue_id_field cfg) issue action) in
    let* token :=
      _get_tenant_token (base_url cfg) (app_id cfg) (app_secret cfg) in
    if upsert cfg then
      let* issue_id := lift (get issue "id" PNone) in
      _bitable_upsert (base_url cfg) token (app_token cfg) (table_id cfg)
        issue_id (issue_id_field cfg) fields
    else
      _bitable_create (base_url cfg) token (app_token cfg) (table_id cfg)
        fields.

End Script.

End Feishu.

(** ** The Bitable service the Feishu script talks to

    The service is outside the repository.  This is a sequential model of
    the three endpoints the script uses, for one table: token acquisition,
    record search by exact match on a named field, record creation and
    record update with a "fields" mapping.  A record's id is fixed by its
    position, so ids are distinct and never empty; the service never drops
    a record. *)

Module Bitable.
Import Py Feishu.

Record Service : Type := {
  base : string;
  app : string;
  table : string;
  (** the fields of each record, in creation order *)
  rows : list (list (string * pyval));
}.

Definition record_id (i : nat) : string := "rec" +:+ pretty i.

Definition record_url (s : Service) (i : nat) : string :=
  records_url (base s) (app s) (table s) +:+ "/" +:+ record_id i.

Definition member (k : string) (v : pyval) : option pyval :=
  match v with
  | PDict d => dict_get k d
  | _ => None
  end.

(** The field name and the value of the first condition of a search body. *)
Definition condition_of (body : pyval) : option (string * string) :=
  match member "filter" body ≫= member "conditions" with
  | Some (PList (c :: _)) =>
      match member "field_name" c, member "value" c with
      | Some (PStr f), Some (PList (PStr v :: _)) => Some (f, v)
      | _, _ => None
      end
  | _ => None
  end.

Definition page_size_of (body : pyval) : nat :=
  match member "page_size" body with
  | Some (PInt n) => Z.to_nat n
  | _ => 20%nat
  end.

(** The condition [field is value] on one record. *)
Definition matches (field value : string) (row : list (string * pyval))
  : bool :=
  match dict_get field row with
  | Some (PStr s) => bool_decide (s = value)
  | _ => false
  end.

Definition item (ir : nat * list (string * pyval)) : pyval :=
  PDict [("record_id", PStr (record_id ir.1)); ("fields", PDict ir.2)].

(** The records that meet the condition, each with its position. *)
Fixpoint search_from (i : nat) (field value : string)
    (rows : list (list (string * pyval)))
  : list (nat * list (string * pyval)) :=
  match rows with
  | [] => []
  | r :: rows' =>
      if matches field value r
      then (i, r) :: search_from (S i) field value rows'
      else search_from (S i) field value rows'
  end.

Definition search (field value : string) (rows : list (list (string * pyval)))
  : list (nat * list (string * pyval)) :=
  search_from 0 field value rows.

(** A record update writes the given fields and keeps the others. *)
Definition merge (new old : list (string * pyval)) : list (string * pyval) :=
  fold_right (fun kv d => dict_set kv.1 kv.2 d) old new.

Definition index_of (s : Service) (url : string) : option nat :=
  List.find (fun i => bool_decide (record_url s i = url))
    (seq 0 (length (rows s))).

Definition success (data : pyval) : Reply :=
  Body (Some (PDict [("code", PInt 0); ("msg", PStr "success");
                     ("data", data)])).

Definition failure (code : Z) (msg : string) : Reply :=
  Body (Some (PDict [("code", PInt code); ("msg", PStr msg)])).

Definition with_rows (s : Service) (rows' : list (list (string * pyval)))
  : Service :=
  {| base := base s; app := app s; table := table s; rows := rows' |}.

Definition serve (rq : Request) (s : Service) : Reply * Service :=
  let records := records_url (base s) (app s) (table s) in
  if bool_decide (url rq = token_url (base s)) then
    if bool_decide (method rq = "POST")
    then (Body (Some (PDict [("code", PInt 0); ("msg", PStr "ok");
                             ("tenant_access_token", PStr "t-tenant");
                             ("expire", PInt 7200)])), s)
    else (HTTPError 405 "Method Not Allowed" "", s)
  else if bool_decide (url rq = records +:+ "/search") then
    match condition_of (payload rq) with
    | Some (field, value) =>
        let found := search field value (rows s) in
        (success
           (PDict [("items",
                    PList (map item (take (page_size_of (payload rq)) found)));
                   ("total", PInt (Z.of_nat (length found)))]), s)
    | None => (failure 1254001 "WrongRequestBody", s)
    end
  else if bool_decide (url rq = records) then
    match member "fields" (payload rq) with
    | Some (PDict fields) =>
        if bool_decide (method rq = "POST")
        then (success (PDict [("record", item (length (rows s), fields))]),
              with_rows s (rows s ++ [fields]))
        else (HTTPError 405 "Method Not Allowed" "", s)
    | _ => (failure 1254001 "WrongRequestBody", s)
    end
  else
    match index_of s (url rq) with
    | Some i =>
        match member "fields" (payload rq) with
        | Some (PDict fields) =>
            if bool_decide (method rq = "PUT")
            then (success (PDict [("record",
                                   item (i, merge fields
                                              (default [] (rows s !! i))))]),
                  with_rows s (alter (merge fields) i (rows s)))
            else (HTTPError 405 "Method Not Allowed" "", s)
        | _ => (failure 1254001 "WrongRequestBody", s)
        end
    | None => (HTTPError 404 "Not Found" "404 page not found", s)
    end.

(** How many records the table holds for an issue id. *)
Definition count_for (field value : string) (s : Service) : nat :=
  length (search field value (rows s)).

End Bitable.

(** ** script/issue_to_mysql.py *)

Module MySQL.
Import Py.

(** [os.getenv(name, default)] *)
Definition getenv (env : gmap string string) (name : string)
    (dflt : option string) : option string :=
  match env !! name with
  | Some v => Some v
  | None => dflt
  end.

Definition _env (env : gmap string string) (name : string)
    (dflt : option string) : res string :=
  match getenv env name dflt with
  | None => SystemExit ("Missing required env var: " +:+ name)
  | Some value =>
      if decide (value = "")
      then SystemExit ("Missing required env var: " +:+ name)
      else Ok value
  end.

(** The variables [main] and [_connect_mysql] read through [_env]. *)
Definition required_env : list string :=
  ["GITHUB_EVENT_PATH"; "MYSQL_HOST"; "MYSQL_USER"; "MYSQL_PASSWORD";
   "MYSQL_DATABASE"].

(** The database side, for any representation [T] of a DATETIME value.
    The server is outside the repository: the table is a map from the
    primary key to the row, a connection works on its own copy of the
    committed rows, and the server may refuse any call. *)
Section Data.
Context {T : Type}.

Inductive sqlval : Type :=
| SqlNull
| SqlInt (n : Z)
| SqlStr (s : string)
| SqlTime (t : T).

(** How the connector renders a Python parameter; a list or a dict has
    no rendering and the statement fails. *)
Definition to_mysql (v : pyval) : option sqlval :=
  match v with
  | PNone => Some SqlNull
  | PBool b => Some (SqlInt (if b then 1 else 0))
  | PInt n => Some (SqlInt n)
  | PStr s => Some (SqlStr s)
  | PList _ | PDict _ => None
  end.

Definition time_to_mysql (t : option T) : sqlval :=
  match t with
  | Some d => SqlTime d
  | None => SqlNull
  end.

(** A row of [github_issues] without its primary key [id]. *)
Record Row : Type := {
  number : sqlval;
  title : sqlval;
  body : sqlval;
  state : sqlval;
  created_at : sqlval;
  updated_at : sqlval;
  closed_at : sqlval;
  url : sqlval;
  user_login : sqlval;
  labels : sqlval;
  assignees : sqlval;
  event_action : sqlval;
  event_received_at : Z;
  payload : sqlval;
}.

(** The parameter dict of the INSERT. *)
Record Params : Type := {
  p_id : pyval;
  p_number : pyval;
  p_title : pyval;
  p_body : pyval;
  p_state : pyval;
  p_created_at : option T;
  p_updated_at : option T;
  p_closed_at : option T;
  p_url : pyval;
  p_user_login : pyval;
  p_labels : string;
  p_assignees : string;
  p_event_action : pyval;
  p_payload : string;
}.

Inductive Call : Type :=
| Connect (host : string) (port : Z) (user password database : string)
| Cursor
| CreateTable
| Upsert (p : Params)
| Commit
| Close.

(** What the database server decides on its side. *)
Record Server : Type := {
  admits : string -> Z -> string -> string -> string -> bool;
  cursor_ok : bool;
  ddl_ok : bool;
  (** column types, widths and the like *)
  accepts : Z -> Row -> bool;
  commit_ok : bool;
}.

Record World : Type := {
  environ : gmap string string;
  files : gmap string file;
  server : Server;
  (** the server's CURRENT_TIMESTAMP *)
  now : Z;
  (** the committed rows of the table, by primary key; a table that
      does not exist yet has none *)
  github_issues : gmap Z Row;
  (** the rows as the open connection's transaction sees them *)
  session : option (gmap Z Row);
  (** the database calls made so far with their success, oldest first *)
  calls : list (Call * bool);
}.

Definition called (c : Call) (ok : bool) (s : option (gmap Z Row))
    (w : World) : World :=
  {| environ := environ w; files := files w; server := server w;
     now := now w; github_issues := github_issues w; session := s;
     calls := calls w ++ [(c, ok)] |}.

End Data.

Arguments sqlval : clear implicits.
Arguments Row : clear implicits.
Arguments Params : clear implicits.
Arguments Call : clear implicits.
Arguments Server : clear implicits.
Arguments World : clear implicits.

Section Script.
Context `{Builtins}.

Local Abbreviation sqlval := (sqlval datetime).
Local Abbreviation Row := (Row datetime).
Local Abbreviation Params := (Params datetime).
Local Abbreviation Call := (Call datetime).
Local Abbreviation Server := (Server datetime).
Local Abbreviation World := (World datetime).

Definition _parse_github_timestamp (value : pyval) : res (option datetime) :=
  if negb (truthy value) then Ok None
  else
    match value with
    | PStr s =>
        match fromisoformat (str_replace "Z" "+00:00" s) with
        | None => Raise ValueError
        | Some parsed =>
            match astimezone_utc parsed with
            | None => Raise OverflowError
            | Some utc => Ok (Some utc)
            end
        end
    | _ => Raise AttributeError
    end.

Definition _load_event (event_path : string) : M World pyval :=
  fun w =>
    match files w !! event_path with
    | None => (Raise OSError, w)
    | Some NotJson => (Raise JSONDecodeError, w)
    | Some (Json v) => (Ok v, w)
    end.

(** [mysql.connector.connect(...)]: a fresh transaction on the
    committed rows. *)
Definition connect (host : string) (port : Z) (user password database : string)
  : M World unit :=
  fun w =>
    let c := Connect host port user password database in
    if admits (server w) host port user password database
    then (Ok tt, called c true (Some (github_issues w)) w)
    else (Raise DatabaseError, called c false (session w) w).

Definition _connect_mysql : M World unit :=
  let* host := (fun w => (_env (environ w) "MYSQL_HOST" None, w)) in
  let* port :=
    (fun w =>
       (match int_of_str
                (default "3306" (getenv (environ w) "MYSQL_PORT" (Some "3306")))
        with
        | Some n => Ok n
        | None => Raise ValueError
        end, w)) in
  let* user := (fun w => (_env (environ w) "MYSQL_USER" None, w)) in
  let* password := (fun w => (_env (environ w) "MYSQL_PASSWORD" None, w)) in
  let* database := (fun w => (_env (environ w) "MYSQL_DATABASE" None, w)) in
  connect host port user password database.

(** [connection.cursor()] *)
Definition cursor : M World unit :=
  fun w =>
    if cursor_ok (server w)
    then (Ok tt, called Cursor true (session w) w)
    else (Raise DatabaseError, called Cursor false (session w) w).

(** CREATE TABLE IF NOT EXISTS github_issues (...) *)
Definition _ensure_schema : M World unit :=
  fun w =>
    if ddl_ok (server w)
    then (Ok tt, called CreateTable true (session w) w)
    else (Raise DatabaseError, called CreateTable false (session w) w).

(** The primary key and the row that VALUES(...) denotes; the column
    [event_received_at] is not listed and takes its default. *)
Definition values (p : Params) (current_timestamp : Z) : option (Z * Row) :=
  match @to_mysql datetime (p_id p), to_mysql (p_number p),
        to_mysql (p_title p),
        to_mysql (p_body p), to_mysql (p_state p), to_mysql (p_url p),
        to_mysql (p_user_login p), to_mysql (p_event_action p) with
  | Some (SqlInt id), Some number, Some title, Some body, Some state,
    Some url, Some user_login, Some event_action =>
      Some (id,
            {| number := number; title := title; body := body;
               state := state;
               created_at := time_to_mysql (p_created_at p);
               updated_at := time_to_mysql (p_updated_at p);
               closed_at := time_to_mysql (p_closed_at p);
               url := url; user_login := user_login;
               labels := SqlStr (p_labels p);
               assignees := SqlStr (p_assignees p);
               event_action := event_action;
               event_received_at := current_timestamp;
               payload := SqlStr (p_payload p) |})
  | _, _, _, _, _, _, _, _ => None
  end.

(** ON DUPLICATE KEY UPDATE col = VALUES(col), ...,
    event_received_at = CURRENT_TIMESTAMP *)
Definition on_duplicate_key_update (old new : Row) (current_timestamp : Z)
  : Row :=
  {| number := number new; title := title new; body := body new;
     state := state new; created_at := created_at new;
     updated_at := updated_at new; closed_at := closed_at new;
     url := url new; user_login := user_login new; labels := labels new;
     assignees := assignees new; event_action := event_action new;
     event_received_at := current_timestamp; payload := payload new |}.

Definition insert_on_duplicate (p : Params) (srv : Server)
    (current_timestamp : Z) (t : gmap Z Row) : option (gmap Z Row) :=
  match values p current_timestamp with
  | Some (id, new) =>
      if accepts srv id new then
        match t !! id with
        | None => Some (<[id := new]> t)
        | Some old =>
            Some (<[id := on_duplicate_key_update old new current_timestamp]> t)
        end
      else None
  | None => None
  end.

(** [cursor.execute(INSERT ... ON DUPLICATE KEY UPDATE ..., params)] *)
Definition execute_upsert (p : Params) : M World unit :=
  fun w =>
    match session w ≫= insert_on_duplicate p (server w) (now w) with
    | Some t' => (Ok tt, called (Upsert p) true (Some t') w)
    | None => (Raise DatabaseError, called (Upsert p) false (session w) w)
    end.

(** [connection.commit()] *)
Definition commit : M World unit :=
  fun w =>
    match session w with
    | Some t =>
        if commit_ok (server w)
        then (Ok tt,
              {| environ := environ w; files := files w; server := server w;
                 now := now w; github_issues := t; session := Some t;
                 calls := calls w ++ [(Commit, true)] |})
        else (Raise DatabaseError, called Commit false (session w) w)
    | None => (Raise DatabaseError, called Commit false (session w) w)
    end.

(** [connection.close()]: what was not committed is gone. *)
Definition close : M World unit :=
  fun w => (Ok tt, called Close true None w).

(** What [main] computes from the event before it connects. *)
Record Extract : Type := {
  issue : pyval;
  action : pyval;
  payload_json : string;
  labels_json : string;
  assignees_json : string;
  created : option datetime;
  updated : option datetime;
  closed : option datetime;
}.

Definition extract (event : pyval) : res Extract :=
  let? has_issue := contains "issue" event in
  if negb has_issue then SystemExit "Event payload missing 'issue'"
  else
    let? issue := subscript event "issue" in
    let? action := get event "action" (PStr "unknown") in
    let? labels := names_of issue "labels" "name" in
    let? assignees := names_of issue "assignees" "login" in
    let payload_json := json_dumps event in
    let labels_json := json_dumps (PList labels) in
    let assignees_json := json_dumps (PList assignees) in
    let? created_raw := get issue "created_at" PNone in
    let? created_at := _parse_github_timestamp created_raw in
    let? updated_raw := get issue "updated_at" PNone in
    let? updated_at := _parse_github_timestamp updated_raw in
    let? closed_raw := get issue "closed_at" PNone in
    let? closed_at := _parse_github_timestamp closed_raw in
    Ok {| issue := issue; action := action; payload_json := payload_json;
          labels_json := labels_json; assignees_json := assignees_json;
          created := created_at; updated := updated_at;
          closed := closed_at |}.

(** The parameter dict display of the INSERT. *)
Definition insert_params (x : Extract) : res Params :=
  let? id := get (issue x) "id" PNone in
  let? number := get (issue x) "number" PNone in
  let? title := get (issue x) "title" PNone in
  let? body := get (issue x) "body" PNone in
  let? state := get (issue x) "state" PNone in
  let? html_url := get (issue x) "html_url" PNone in
  let? user := get (issue x) "user" (PDict []) in
  let? login := get user "login" PNone in
  Ok {| p_id := id; p_number := number; p_title := title; p_body := body;
        p_state := state; p_created_at := created x;
        p_updated_at := updated x; p_closed_at := closed x;
        p_url := html_url; p_user_login := login;
        p_labels := labels_json x; p_assignees := assignees_json x;
        p_event_action := action x; p_payload := payload_json x |}.

Definition main : M World unit :=
  let* event_path :=
    (fun w => (_env (environ w) "GITHUB_EVENT_PATH" None, w)) in
  let* event := _load_event event_path in
  let* x := lift (extract event) in
  let* _ := _connect_mysql in
  try_finally
    (let* _ := cursor in
     let* _ := _ensure_schema in
     let* p := lift (insert_params x) in
     let* _ := execute_upsert p in
     commit)
    close.

End Script.

End MySQL.

(** ** A reference instance of the builtins

    Enough of CPython to run the scripts on GitHub's payloads.  It is one
    instance of the interface, used for the sample runs and to show that
    the laws assumed of [datetime] can be met; the theorems are stated for
    every instance.  [fromisoformat] reads [YYYY-MM-DD?HH:MM:SS] with an
    optional [+HH:MM] or [-HH:MM] offset and nothing else: CPython reads
    more forms (a date alone, fractions of a second, and from 3.11 most of
    ISO 8601), which this instance rejects.  The host's local zone is UTC,
    [astimezone] fails when the instant leaves the years 1 to 9999, and
    strings are rendered by the rules of [repr] and of [json.dumps] with
    [ensure_ascii=True]. *)

Module Reference.
Import Py.

Record datetime : Type := {
  year : Z; month : Z; day : Z;
  hour : Z; minute : Z; second : Z;
  (** minutes east of UTC; [None]: a naive datetime *)
  utcoffset : option Z;
}.

Definition digit (c : ascii) : option Z :=
  let n := Z.of_N (N_of_ascii c) in
  if (48 <=? n) && (n <=? 57) then Some (n - 48) else None.

Fixpoint digits_from (acc : Z) (s : string) : option Z :=
  match s with
  | EmptyString => Some acc
  | String c s' =>
      match digit c with
      | Some d => digits_from (10 * acc + d) s'
      | None => None
      end
  end.

(** A run of [n] decimal digits exactly. *)
Definition number (n : nat) (s : string) : option Z :=
  if bool_decide (String.length s = n) && negb (bool_decide (s = ""))
  then digits_from 0 s else None.

Definition is_leap (y : Z) : bool :=
  (y mod 4 =? 0) && (negb (y mod 100 =? 0) || (y mod 400 =? 0)).

Definition days_in_month (y m : Z) : Z :=
  if m =? 2 then (if is_leap y then 29 else 28)
  else if (m =? 4) || (m =? 6) || (m =? 9) || (m =? 11) then 30 else 31.

Definition field (from n : nat) (s : string) : option Z :=
  number n (str_take n (str_drop from s)).

Definition char_at (i : nat) (s : string) : option ascii :=
  String.get i s.

Definition offset_of (s : string) : option (option Z) :=
  match s with
  | EmptyString => Some None
  | String sign rest =>
      if bool_decide (String.length rest = 5%nat)
         && bool_decide (char_at 2 rest = Some ":"%char)
      then
        match field 0 2 rest, field 3 2 rest with
        | Some h, Some m =>
            if (h <? 24) && (m <? 60) then
              if bool_decide (sign = "+"%char) then Some (Some (60 * h + m))
              else if bool_decide (sign = "-"%char)
                   then Some (Some (- (60 * h + m)))
                   else None
            else None
        | _, _ => None
        end
      else None
  end.

Definition fromisoformat (s : string) : option datetime :=
  match field 0 4 s, field 5 2 s, field 8 2 s,
        field 11 2 s, field 14 2 s, field 17 2 s,
        offset_of (str_drop 19 s) with
  | Some y, Some mo, Some d, Some h, Some mi, Some sec, Some off =>
      if bool_decide (char_at 4 s = Some "-"%char)
         && bool_decide (char_at 7 s = Some "-"%char)
         && bool_decide (char_at 13 s = Some ":"%char)
         && bool_decide (char_at 16 s = Some ":"%char)
         && (1 <=? y) && (1 <=? mo) && (mo <=? 12)
         && (1 <=? d) && (d <=? days_in_month y mo)
         && (h <? 24) && (mi <? 60) && (sec <? 60)
      then Some {| year := y; month := mo; day := d; hour := h;
                   minute := mi; second := sec; utcoffset := off |}
      else None
  | _, _, _, _, _, _, _ => None
  end.

(** Days since 1970-01-01 of a civil date, and back. *)
Definition days_from_civil (y m d : Z) : Z :=
  let y' := if m <=? 2 then y - 1 else y in
  let era := y' / 400 in
  let yoe := y' - era * 400 in
  let doy := (153 * (if m >? 2 then m - 3 else m + 9) + 2) / 5 + d - 1 in
  let doe := yoe * 365 + yoe / 4 - yoe / 100 + doy in
  era * 146097 + doe - 719468.

Definition civil_from_days (z : Z) : Z * Z * Z :=
  let z' := z + 719468 in
  let era := z' / 146097 in
  let doe := z' - era * 146097 in
  let yoe := (doe - doe / 1460 + doe / 36524 - doe / 146096) / 365 in
  let doy := doe - (365 * yoe + yoe / 4 - yoe / 100) in
  let mp := (5 * doy + 2) / 153 in
  let d := doy - (153 * mp + 2) / 5 + 1 in
  let m := if mp <? 10 then mp + 3 else mp - 9 in
  (if m <=? 2 then yoe + era * 400 + 1 else yoe + era * 400, m, d).

Definition astimezone_utc (t : datetime) : option datetime :=
  match utcoffset t with
  | None => Some {| year := year t; month := month t; day := day t;
                    hour := hour t; minute := minute t; second := second t;
                    utcoffset := Some 0 |}
  | Some 0 => Some t
  | Some off =>
      let minutes :=
        (days_from_civil (year t) (month t) (day t) * 24 + hour t) * 60
          + minute t - off in
      let '(y, m, d) := civil_from_days (minutes / 1440) in
      if (1 <=? y) && (y <=? 9999)
      then Some {| year := y; month := m; day := d;
                   hour := (minutes mod 1440) / 60; minute := minutes mod 60;
                   second := second t; utcoffset := Some 0 |}
      else None
  end.

Definition pad (width : nat) (n : Z) : string :=
  let s := pretty n in
  String.concat "" (replicate (width - String.length s) "0") +:+ s.

Definition isoformat (t : datetime) : string :=
  pad 4 (year t) +:+ "-" +:+ pad 2 (month t) +:+ "-" +:+ pad 2 (day t)
    +:+ "T" +:+ pad 2 (hour t) +:+ ":" +:+ pad 2 (minute t) +:+ ":"
    +:+ pad 2 (second t)
    +:+ match utcoffset t with
        | None => ""
        | Some off =>
            (if off <? 0 then "-" else "+") +:+ pad 2 (Z.abs off / 60)
              +:+ ":" +:+ pad 2 (Z.abs off mod 60)
        end.

Definition hex_digit (n : Z) : string :=
  String (ascii_of_N (Z.to_N (if n <? 10 then 48 + n else 87 + n))) "".

Definition hex2 (n : Z) : string := hex_digit (n / 16) +:+ hex_digit (n mod 16).

Definition code (c : ascii) : Z := Z.of_N (N_of_ascii c).

Definition dquote : ascii := ascii_of_N 34.
Definition backslash : ascii := ascii_of_N 92.

Fixpoint has_char (c : ascii) (s : string) : bool :=
  match s with
  | EmptyString => false
  | String c' s' => bool_decide (c = c') || has_char c s'
  end.

(** [repr] of a str *)
Definition repr_char (quote : ascii) (c : ascii) : string :=
  let n := code c in
  if bool_decide (c = quote) || (n =? 92) then String backslash (String c "")
  else if n =? 9 then "\t"
  else if n =? 10 then "\n"
  else if n =? 13 then "\r"
  else if (n <? 32) || (n =? 127) || ((128 <=? n) && (n <=? 160)) || (n =? 173)
       then "\x" +:+ hex2 n
       else String c "".

Definition repr_str (s : string) : string :=
  let quote :=
    if has_char "'"%char s && negb (has_char dquote s)
    then dquote else "'"%char in
  String quote
    (String.concat "" (map (repr_char quote) (String.list_ascii_of_string s))
       +:+ String quote "").

Fixpoint repr (v : pyval) : string :=
  match v with
  | PNone => "None"
  | PBool true => "True"
  | PBool false => "False"
  | PInt n => pretty n
  | PStr s => repr_str s
  | PList l => "[" +:+ str_join ", " (map repr l) +:+ "]"
  | PDict d =>
      "{" +:+ str_join ", "
                (map (fun kv => let '(k, x) := kv in
                                repr_str k +:+ ": " +:+ repr x) d)
          +:+ "}"
  end.

(** a str as [json.dumps(..., ensure_ascii=True)] writes it *)
Definition json_char (c : ascii) : string :=
  let n := code c in
  if (n =? 34) || (n =? 92) then String backslash (String c "")
  else if n =? 8 then "\b"
  else if n =? 9 then "\t"
  else if n =? 10 then "\n"
  else if n =? 12 then "\f"
  else if n =? 13 then "\r"
  else if (n <? 32) || (126 <? n) then "\u00" +:+ hex2 n
       else String c "".

Definition json_str (s : string) : string :=
  String dquote
    (String.concat "" (map json_char (String.list_ascii_of_string s))
       +:+ String dquote "").

Fixpoint json_dumps (v : pyval) : string :=
  match v with
  | PNone => "null"
  | PBool true => "true"
  | PBool false => "false"
  | PInt n => pretty n
  | PStr s => json_str s
  | PList l => "[" +:+ str_join ", " (map json_dumps l) +:+ "]"
  | PDict d =>
      "{" +:+ str_join ", "
                (map (fun kv => let '(k, x) := kv in
                                json_str k +:+ ": " +:+ json_dumps x) d)
          +:+ "}"
  end.

Definition is_space (c : ascii) : bool :=
  let n := code c in (n =? 32) || ((9 <=? n) && (n <=? 13)).

Fixpoint lstrip (s : string) : string :=
  match s with
  | String c s' => if is_space c then lstrip s' else s
  | EmptyString => ""
  end.

Definition strip (s : string) : string :=
  String.rev (lstrip (String.rev (lstrip s))).

(** Decimal digits with single underscores between them. *)
Fixpoint int_digits (acc : Z) (after_digit : bool) (s : string) : option Z :=
  match s with
  | EmptyString => if after_digit then Some acc else None
  | String c s' =>
      if bool_decide (c = "_"%char) then
        if after_digit then int_digits acc false s' else None
      else
        match digit c with
        | Some d => int_digits (10 * acc + d) true s'
        | None => None
        end
  end.

(** [int(s)] for a str of ASCII characters: surrounding whitespace, an
    optional sign, and decimal digits with single underscores between
    them. *)
Definition int_of_str (s : string) : option Z :=
  match strip s with
  | EmptyString => None
  | String c rest =>
      if bool_decide (c = "-"%char) then Z.opp <$> int_digits 0 false rest
      else if bool_decide (c = "+"%char) then int_digits 0 false rest
      else int_digits 0 false (String c rest)
  end.

#[export] Instance builtins : Builtins := {|
  Py.datetime := datetime;
  Py.fromisoformat := fromisoformat;
  Py.astimezone_utc := astimezone_utc;
  Py.isoformat := isoformat;
  Py.repr := repr;
  Py.json_dumps := json_dumps;
  Py.int_of_str := int_of_str;
|}.

End Reference.

(** ** GitHub's timestamps, and what the scripts rely on in [datetime]

    The payloads carry timestamps of the form [YYYY-MM-DDTHH:MM:SSZ].  The
    two laws are properties of CPython's [datetime] on which the scripts
    depend; the reference instance has them. *)

Module Iso.
Import Py.

(** A date and a time of day. *)
Record civil : Type := {
  year : Z; month : Z; day : Z;
  hour : Z; minute : Z; second : Z;
}.


Definition digit_char (d : Z) : ascii := ascii_of_N (Z.to_N (48 + d)).

Definition two (n : Z) : string :=
  String (digit_char (n / 10)) (String (digit_char (n mod 10)) "").

Definition four (n : Z) : string :=
  String (digit_char (n / 1000))
    (String (digit_char (n / 100 mod 10))
       (String (digit_char (n / 10 mod 10))
          (String (digit_char (n mod 10)) ""))).

(** [YYYY-MM-DDTHH:MM:SS]: a timestamp of a payload without its final
    "Z". *)
Definition render (c : civil) : string :=
  four (year c) +:+ "-" +:+ two (month c) +:+ "-" +:+ two (day c) +:+ "T"
    +:+ two (hour c) +:+ ":" +:+ two (minute c) +:+ ":" +:+ two (second c).



Section Laws.
Context `{Builtins}.



End Laws.

End Iso.

(** ** Vocabulary for the properties of the Feishu script *)

Module Wire.
Import Py Feishu.

(** A reply the script must not survive: an HTTP error status, or a JSON
    object whose "code" is not 0 (a missing "code" counts: [None != 0]). *)
Definition failed (reply : Reply) : Prop :=
  match reply with
  | HTTPError _ _ _ => True
  | Body (Some (PDict d)) =>
      eq_int (default PNone (dict_get "code" d)) 0 = false
  | _ => False
  end.

(** The message of the exit carries the detail of the reply: the body of
    the error response, or the whole JSON response. *)
Definition reported `{Builtins} (reply : Reply) (msg : string) : Prop :=
  match reply with
  | HTTPError code reason detail =>
      msg = "HTTP " +:+ pretty code +:+ " " +:+ reason +:+ ": " +:+ detail
  | Body (Some response) => exists what, msg = what +:+ ": " +:+ str response
  | _ => False
  end.

(** A computation that stops at the first failed reply: the failed exchange
    is the last one it makes and it ends in a [SystemExit] that reports it. *)
Definition fail_stop `{Builtins} {Srv A : Type} (m : M (World Srv) A) : Prop :=
  forall w,
  exists new,
    wire (m w).2 = wire w ++ new
    /\ forall i request reply,
         new !! i = Some (request, reply) ->
         failed reply ->
         length new = S i
         /\ exists msg, (m w).1 = SystemExit msg /\ reported reply msg.

End Wire.

(** ** Vocabulary for the fields of the Feishu script *)

Module Fields.
Import Py.

(** The keys of the [fields] display of the Feishu [main] after the
    configured name of the id field. *)
Definition fixed_columns : list string :=
  ["Issue Number"; "Title"; "State"; "URL"; "User"; "Labels"; "Assignees";
   "Action"; "Created At"; "Updated At"; "Closed At"; "Body"].

Definition is_dict (v : pyval) : bool :=
  match v with PDict _ => true | _ => false end.

(** [x.get(sub)] on a dict [x] *)
Definition name_of (sub : string) (x : pyval) : pyval :=
  match x with
  | PDict d => default PNone (dict_get sub d)
  | _ => PNone
  end.

(** A timestamp of the MySQL script as the Feishu script writes it. *)
Definition shown `{Builtins} (t : option datetime) : pyval :=
  match t with
  | Some d => PStr (isoformat d)
  | None => PNone
  end.

End Fields.

(** ** Vocabulary for the properties of the MySQL script *)

Module Columns.
Import Py MySQL.

(** The column value the connector makes of [issue.get(key)]. *)
Definition column {T : Type} (issue : pyval) (key : string) (c : sqlval T)
  : Prop :=
  exists v, get issue key PNone = Ok v /\ to_mysql v = Some c.

(** The DATETIME column made of the timestamp [issue.get(key)]: NULL when
    the payload has none (absent, null, the empty string), and otherwise
    the payload's text, with "Z" for "+00:00", as [datetime] reads it and
    moves it to UTC. *)
Definition time_column `{Builtins} (issue : pyval) (key : string)
    (c : sqlval datetime) : Prop :=
  exists raw,
    get issue key PNone = Ok raw
    /\ match raw with
       | PStr s =>
           if decide (s = "") then c = SqlNull
           else exists d utc,
                  fromisoformat (str_replace "Z" "+00:00" s) = Some d
                  /\ astimezone_utc d = Some utc
                  /\ c = SqlTime utc
       | _ => truthy raw = false /\ c = SqlNull
       end.

(** The JSON column made of the names under [issue.get(key)]: the JSON
    text of the list of the entries' [sub] values, in their order, without
    the falsy ones; no entries when the key is absent. *)
Definition names_column `{Builtins} (issue : pyval) (key sub : string)
    (c : sqlval datetime) : Prop :=
  exists raw items,
    get issue key (PList []) = Ok raw
    /\ iterate raw = Ok items
    /\ forallb Fields.is_dict items = true
    /\ c = SqlStr (json_dumps
                     (PList (List.filter truthy
                               (map (Fields.name_of sub) items)))).

(** Every column of the row but [event_received_at] is what the event
    says. *)
Definition reflects `{Builtins} (event : pyval) (row : Row datetime) : Prop :=
  exists issue,
    subscript event "issue" = Ok issue
    /\ column issue "number" (number row)
    /\ column issue "title" (title row)
    /\ column issue "body" (body row)
    /\ column issue "state" (state row)
    /\ time_column issue "created_at" (created_at row)
    /\ time_column issue "updated_at" (updated_at row)
    /\ time_column issue "closed_at" (closed_at row)
    /\ column issue "html_url" (url row)
    /\ (exists user, get issue "user" (PDict []) = Ok user
                     /\ column user "login" (user_login row))
    /\ names_column issue "labels" "name" (labels row)
    /\ names_column issue "assignees" "login" (assignees row)
    /\ (exists action, get event "action" (PStr "unknown") = Ok action
                       /\ to_mysql action = Some (event_action row))
    /\ payload row = SqlStr (json_dumps event).

(** The event the script loads in a world. *)
Definition event_of {T : Type} (w : World T) : res pyval :=
  rbind (_env (environ w) "GITHUB_EVENT_PATH" None) (fun path =>
    match files w !! path with
    | Some (Json event) => Ok event
    | Some NotJson => Raise JSONDecodeError
    | None => Raise OSError
    end).

(** What the script has computed when it calls [mysql.connector.connect]:
    the extracted event and the connection arguments, as a function of the
    environment and the files. *)
Definition before_connect `{Builtins} (env : gmap string string)
    (files : gmap string file)
  : res (Extract * (string * Z * string * string * string)) :=
  rbind (_env env "GITHUB_EVENT_PATH" None) (fun path =>
  rbind (match files !! path with
         | Some (Json event) => Ok event
         | Some NotJson => Raise JSONDecodeError
         | None => Raise OSError
         end) (fun event =>
  rbind (extract event) (fun x =>
  rbind (_env env "MYSQL_HOST" None) (fun host =>
  rbind (match int_of_str
                 (default "3306" (getenv env "MYSQL_PORT" (Some "3306"))) with
         | Some n => Ok n
         | None => Raise ValueError
         end) (fun port =>
  rbind (_env env "MYSQL_USER" None) (fun user =>
  rbind (_env env "MYSQL_PASSWORD" None) (fun password =>
  rbind (_env env "MYSQL_DATABASE" None) (fun database =>
  Ok (x, (host, port, user, password, database)))))))))).

End Columns.

(** ** Vocabulary for the requests of the Feishu script *)

Module Trace.
Import Py Feishu.

Section Shape.
Context `{Builtins}.

(** How [_request_json] ends on a reply. *)
Definition answer (reply : Reply) : res pyval :=
  match reply with
  | HTTPError code reason detail =>
      SystemExit ("HTTP " +:+ pretty code +:+ " " +:+ reason +:+ ": "
                    +:+ detail)
  | Unreachable => Raise URLError
  | Body None => Raise JSONDecodeError
  | Body (Some v) => Ok v
  end.

(** The request of [_get_tenant_token] and what it makes of the reply. *)
Definition token_request (cfg : Config) : Request :=
  {| method := "POST"; url := token_url (base_url cfg);
     headers := json_headers;
     payload := PDict [("app_id", PStr (app_id cfg));
                       ("app_secret", PStr (app_secret cfg))] |}.

Definition token_of (reply : Reply) : res pyval :=
  let? response := answer reply in
  let? _ := check_code "Failed to get tenant token" response in
  subscript response "tenant_access_token".

(** The request of [_bitable_search] and what it makes of the reply. *)
Definition search_request (cfg : Config) (token issue_id : pyval) : Request :=
  {| method := "POST";
     url := records_url (base_url cfg) (app_token cfg) (table_id cfg)
              +:+ "/search";
     headers := bearer_headers token;
     payload := search_payload issue_id (issue_id_field cfg) |}.

Definition record_of (reply : Reply) : res pyval :=
  let? response := answer reply in
  let? _ := check_code "Failed to search bitable records" response in
  let? data := get response "data" (PDict []) in
  let? items := get data "items" (PList []) in
  if negb (truthy items) then Ok PNone
  else
    let? item := first_item items in
    get item "record_id" PNone.

(** The second request of [_bitable_upsert] and the request of
    [_bitable_create]. *)
Definition write_request (cfg : Config) (token record_id : pyval)
    (fields : list (string * pyval)) : Request :=
  {| method := if truthy record_id then "PUT" else "POST";
     url := if truthy record_id
            then records_url (base_url cfg) (app_token cfg) (table_id cfg)
                   +:+ "/" +:+ str record_id
            else records_url (base_url cfg) (app_token cfg) (table_id cfg);
     headers := bearer_headers token;
     payload := PDict [("fields", PDict fields)] |}.

Definition create_request (cfg : Config) (token : pyval)
    (fields : list (string * pyval)) : Request :=
  {| method := "POST";
     url := records_url (base_url cfg) (app_token cfg) (table_id cfg);
     headers := bearer_headers token;
     payload := PDict [("fields", PDict fields)] |}.

(** How a write ends on its reply. *)
Definition written (what : string) (reply : Reply) : res unit :=
  let? response := answer reply in
  check_code what response.

(** The failure of a step, as the failure of the run. *)
Definition propagate {A : Type} (r : res A) : res unit :=
  rbind r (fun _ => Ok tt).

(** The exchanges of a run that has reached the network, with how the run
    ends. *)
Inductive shape (cfg : Config) (issue_id : pyval)
    (fields : list (string * pyval))
  : list (Request * Reply) -> res unit -> Prop :=
| No_token (reply : Reply) :
    is_ok (token_of reply) = false ->
    shape cfg issue_id fields [(token_request cfg, reply)]
      (propagate (token_of reply))
| Created (reply0 reply1 : Reply) (token : pyval) :
    upsert cfg = false ->
    token_of reply0 = Ok token ->
    shape cfg issue_id fields
      [(token_request cfg, reply0);
       (create_request cfg token fields, reply1)]
      (written "Failed to create bitable record" reply1)
| No_search (reply0 reply1 : Reply) (token : pyval) :
    upsert cfg = true ->
    token_of reply0 = Ok token ->
    is_ok (record_of reply1) = false ->
    shape cfg issue_id fields
      [(token_request cfg, reply0);
       (search_request cfg token issue_id, reply1)]
      (propagate (record_of reply1))
| Upserted (reply0 reply1 reply2 : Reply) (token record_id : pyval) :
    upsert cfg = true ->
    token_of reply0 = Ok token ->
    record_of reply1 = Ok record_id ->
    shape cfg issue_id fields
      [(token_request cfg, reply0);
       (search_request cfg token issue_id, reply1);
       (write_request cfg token record_id fields, reply2)]
      (written "Failed to upsert bitable record" reply2).

End Shape.

(** The world after an exchange. *)
Definition sent {Srv : Type} (request : Request) (reply : Reply) (srv : Srv)
    (w : World Srv) : World Srv :=
  {| environ := environ w; files := files w; remote := srv;
     wire := wire w ++ [(request, reply)] |}.

End Trace.

(** ** Vocabulary for the database calls of the MySQL script *)

Module CallOrder.
Import Py MySQL.

(** The place of a database call in [main]. *)
Definition rank {T : Type} (c : Call T) : nat :=
  match c with
  | Connect _ _ _ _ _ => 0
  | Cursor => 1
  | CreateTable => 2
  | Upsert _ => 3
  | Commit => 4
  | Close => 5
  end.

End CallOrder.

(** ** Sample inputs *)

Module Sample.
Import Py.

Definition long_body : string :=
  String.concat "" (replicate (Z.to_nat 5003) "x") +:+ "tail".

Definition issue (id : pyval) (title : string) (labels assignees : list string)
  : pyval :=
  PDict [("id", id);
         ("number", PInt 7);
         ("title", PStr title);
         ("body", PStr "It stops right after the splash screen.");
         ("state", PStr "open");
         ("html_url", PStr "https://github.com/octo/app/issues/7");
         ("user", PDict [("login", PStr "bob")]);
         ("labels", PList (map (fun n => PDict [("name", PStr n)]) labels));
         ("assignees",
          PList (map (fun n => PDict [("login", PStr n)]) assignees));
         ("created_at", PStr "2024-05-01T12:30:00Z");
         ("updated_at", PStr "2024-05-02T08:00:00Z");
         ("closed_at", PNone)].

Definition event (action : string) (issue : pyval) : pyval :=
  PDict [("action", PStr action); ("issue", issue)].

Definition tagged_issue : pyval :=
  issue (PInt 42) "Crash on start" ["bug"; "P1"] ["alice"].

Definition bare_issue : pyval := issue (PInt 42) "Crash on start" [] [].

Definition tagged_fields : list (string * pyval) :=
  Eval vm_compute in
    match @Feishu.build_fields Reference.builtins "Issue ID" tagged_issue
            (PStr "opened") with
    | Ok fields => fields
    | _ => []
    end.

(** The labels and assignees columns the MySQL script writes for an
    issue. *)
Definition mysql_names (issue : pyval)
  : res (option (MySQL.sqlval Reference.datetime
                 * MySQL.sqlval Reference.datetime)) :=
  rbind (@MySQL.extract Reference.builtins (event "opened" issue)) (fun x =>
    rbind (MySQL.insert_params x) (fun p =>
      Ok ((fun kr => (MySQL.labels kr.2, MySQL.assignees kr.2))
            <$> MySQL.values p 0))).

(** A Feishu configuration and a world holding one event file. *)
Definition feishu_env : gmap string string :=
  list_to_map
    [("GITHUB_EVENT_PATH", "/github/workflow/event.json");
     ("FEISHU_APP_ID", "cli_a1b2");
     ("FEISHU_APP_SECRET", "s3cret");
     ("FEISHU_APP_TOKEN", "bascn1");
     ("FEISHU_TABLE_ID", "tbl1")].

Definition feishu_world {Srv : Type} (env : gmap string string)
    (event : pyval) (srv : Srv) : Feishu.World Srv :=
  {| Feishu.environ := env;
     Feishu.files := {[ "/github/workflow/event.json" := Json event ]};
     Feishu.remote := srv;
     Feishu.wire := [] |}.

Definition empty_table : Bitable.Service :=
  {| Bitable.base := "https://open.feishu.cn"; Bitable.app := "bascn1";
     Bitable.table := "tbl1"; Bitable.rows := [] |}.

Definition edited_issue : pyval :=
  issue (PInt 42) "Crash on start (Windows)" ["bug"] [].

Definition edited_fields : list (string * pyval) :=
  Eval vm_compute in
    match @Feishu.build_fields Reference.builtins "Issue ID" edited_issue
            (PStr "edited") with
    | Ok fields => fields
    | _ => []
    end.

(** Two deliveries for issue 42 through [main], one after the other. *)
Definition first_delivery : res unit * Feishu.World Bitable.Service :=
  @Feishu.main Reference.builtins _ Bitable.serve
    (feishu_world feishu_env (event "opened" tagged_issue) empty_table).

Definition second_delivery : res unit * Feishu.World Bitable.Service :=
  @Feishu.main Reference.builtins _ Bitable.serve
    (feishu_world feishu_env (event "edited" edited_issue)
       (Feishu.remote first_delivery.2)).

(** A service that issues tokens and refuses everything else. *)
Definition refusing (rq : Feishu.Request) (s : unit) : Feishu.Reply * unit :=
  if bool_decide (Feishu.url rq = Feishu.token_url "https://open.feishu.cn")
  then (Feishu.Body
          (Some (PDict [("code", PInt 0);
                        ("tenant_access_token", PStr "t-1")])), s)
  else (Feishu.Body
          (Some (PDict [("code", PInt 1254302); ("msg", PStr "denied")])), s).

Definition refused_delivery : res unit * Feishu.World unit :=
  @Feishu.main Reference.builtins _ refusing
    (feishu_world feishu_env (event "opened" tagged_issue) tt).

(** A MySQL configuration, a server that takes everything, and a world
    holding one event file. *)
Definition mysql_env : gmap string string :=
  list_to_map
    [("GITHUB_EVENT_PATH", "/github/workflow/event.json");
     ("MYSQL_HOST", "db.internal");
     ("MYSQL_USER", "sync");
     ("MYSQL_PASSWORD", "s3cret");
     ("MYSQL_DATABASE", "github")].

Definition willing : MySQL.Server Reference.datetime :=
  {| MySQL.admits := fun _ _ _ _ _ => true;
     MySQL.cursor_ok := true;
     MySQL.ddl_ok := true;
     MySQL.accepts := fun _ _ => true;
     MySQL.commit_ok := true |}.

Definition mysql_world (env : gmap string string) (event : pyval)
    (clock : Z) (rows : gmap Z (MySQL.Row Reference.datetime))
  : MySQL.World Reference.datetime :=
  {| MySQL.environ := env;
     MySQL.files := {[ "/github/workflow/event.json" := Json event ]};
     MySQL.server := willing;
     MySQL.now := clock;
     MySQL.github_issues := rows;
     MySQL.session := None;
     MySQL.calls := [] |}.

Definition first_insert : MySQL.World Reference.datetime :=
  mysql_world mysql_env (event "opened" tagged_issue) 1714566600 ∅.

Definition second_insert : MySQL.World Reference.datetime :=
  mysql_world mysql_env (event "edited" edited_issue) 1714636800
    (MySQL.github_issues (@MySQL.main Reference.builtins first_insert).2).

(** The first event delivered again, a minute later. *)
Definition redelivered : MySQL.World Reference.datetime :=
  mysql_world mysql_env (event "opened" tagged_issue) 1714566660
    (MySQL.github_issues (@MySQL.main Reference.builtins first_insert).2).

End Sample.

(** * Properties *)

(** ** Strings *)

Section Strings.
Import Py.


Lemma str_app_cons (c : ascii) (a b : string) :
  String c a +:+ b = String c (a +:+ b).
Proof. reflexivity. Qed.

Lemma str_length_app (a b : string) :
  String.length (a +:+ b) = (String.length a + String.length b)%nat.
Proof.
  induction a as [|c a IH]; [reflexivity |].
  rewrite str_app_cons. simpl. now rewrite IH.
Qed.

Lemma length_str_take (n : nat) (s : string) :
  (n <= String.length s)%nat -> String.length (str_take n s) = n.
Proof.
  revert s. induction n as [|n IH]; intros s Hn; [reflexivity |].
  destruct s as [|c s]; simpl in *; [lia |]. rewrite IH; lia.
Qed.

Lemma str_take_app (a b : string) : str_take (String.length a) (a +:+ b) = a.
Proof.
  induction a as [|c a IH]; [now destruct b |].
  rewrite str_app_cons. simpl. now rewrite IH.
Qed.

Lemma str_drop_app (a b : string) : str_drop (String.length a) (a +:+ b) = b.
Proof.
  induction a as [|c a IH]; [reflexivity |]. rewrite str_app_cons. exact IH.
Qed.

Lemma str_take_all (n : nat) (s : string) :
  (String.length s <= n)%nat -> str_take n s = s.
Proof.
  revert s. induction n as [|n IH]; intros [|c s] Hn; simpl in *;
    try reflexivity; try lia.
  rewrite IH; [reflexivity | lia].
Qed.

Lemma str_app_empty_r (s : string) : s +:+ "" = s.
Proof.
  induction s as [|c s IH]; [reflexivity |]. now rewrite str_app_cons, IH.
Qed.

Lemma str_app_assoc (a b c : string) : (a +:+ b) +:+ c = a +:+ (b +:+ c).
Proof.
  induction a as [|x a IH]; [reflexivity |]. now rewrite !str_app_cons, IH.
Qed.

End Strings.

(** ** Truncation of the issue body *)

Section Truncate.
Import Py Feishu.

(** The general shape, for any budget that leaves room for the marker. *)
Lemma _truncate_long (s : string) (limit : Z) :
  3 <= limit -> limit < len s ->
  exists t,
    _truncate (PStr s) limit = Ok (PStr t)
    /\ len t = limit
    /\ slice_from t (limit - 3) = "..."
    /\ slice_to t (limit - 3) = slice_to s (limit - 3).
Proof.
  intros Hlimit Hlong. unfold _truncate.
  destruct (Z.leb_spec (len s) limit) as [Hle|_]; [lia |].
  eexists; split; [reflexivity |].
  unfold slice_to, slice_from, len in *.
  destruct (Z.ltb_spec (limit - 3) 0) as [Hneg|_]; [lia |].
  set (k := Z.to_nat (limit - 3)).
  assert (Hk : String.length (str_take k s) = k)
    by (apply length_str_take; subst k; lia).
  repeat split.
  - rewrite str_length_app, Hk. subst k. simpl. lia.
  - rewrite <- Hk at 1. apply str_drop_app.
  - rewrite <- Hk at 1. now rewrite str_take_app.
Qed.

(** C3: a body longer than the Feishu budget of 5000 characters comes back
    exactly 5000 characters long, ending in the marker "..." after the first
    4997 characters of the input; a body within the budget is returned as it
    is, and [None] stays [None]. *)
Theorem truncate_body (s : string) :
  body_limit = 5000
  /\ _truncate PNone body_limit = Ok PNone
  /\ (len s <= body_limit -> _truncate (PStr s) body_limit = Ok (PStr s))
  /\ (body_limit < len s ->
      exists t,
        _truncate (PStr s) body_limit = Ok (PStr t)
        /\ len t = body_limit
        /\ slice_from t (body_limit - 3) = "..."
        /\ slice_to t (body_limit - 3) = slice_to s (body_limit - 3)).
Proof.
  split; [reflexivity |]. split; [reflexivity |]. split.
  - intros Hshort. unfold _truncate.
    destruct (Z.leb_spec (len s) body_limit); [reflexivity | lia].
  - intros Hlong. apply _truncate_long; [unfold body_limit; lia | exact Hlong].
Qed.

Lemma truncate_body_witness :
  body_limit < len Sample.long_body
  /\ exists t,
       _truncate (PStr Sample.long_body) body_limit = Ok (PStr t)
       /\ len t = body_limit
       /\ slice_from t (body_limit - 3) = "..."
       /\ slice_to t (body_limit - 3)
          = slice_to Sample.long_body (body_limit - 3).
Proof.
  assert (Hlong : body_limit < len Sample.long_body)
    by (vm_compute; reflexivity).
  split; [exact Hlong |].
  exact (proj2 (proj2 (proj2 (truncate_body Sample.long_body))) Hlong).
Defined.

End Truncate.

(** ** Required environment variables *)

Section Env.
Import Py.

Lemma feishu_env_nonempty (env : gmap string string) (name : string)
    (dflt : option string) (v : string) :
  Feishu._env env name dflt = Ok v -> v <> "".
Proof.
  unfold Feishu._env. destruct (Feishu.getenv env name dflt) as [value|];
    [| discriminate].
  destruct (decide (value = "")) as [|Hne]; [discriminate |].
  intros [= <-]. exact Hne.
Qed.

Lemma mysql_env_nonempty (env : gmap string string) (name : string)
    (dflt : option string) (v : string) :
  MySQL._env env name dflt = Ok v -> v <> "".
Proof.
  unfold MySQL._env. destruct (MySQL.getenv env name dflt) as [value|];
    [| discriminate].
  destruct (decide (value = "")) as [|Hne]; [discriminate |].
  intros [= <-]. exact Hne.
Qed.

Lemma feishu_env_missing (env : gmap string string) (name : string) :
  env !! name = None \/ env !! name = Some "" ->
  Feishu._env env name None
  = SystemExit ("Missing required env var: " +:+ name).
Proof.
  unfold Feishu._env, Feishu.getenv. intros [-> | ->]; reflexivity.
Qed.

Lemma mysql_env_missing (env : gmap string string) (name : string) :
  env !! name = None \/ env !! name = Some "" ->
  MySQL._env env name None
  = SystemExit ("Missing required env var: " +:+ name).
Proof.
  unfold MySQL._env, MySQL.getenv. intros [-> | ->]; reflexivity.
Qed.

End Env.

(** ** Timestamps *)

Section Timestamps.
Import Py.
Context `{Builtins}.










Lemma truthy_str (s : string) : s <> "" -> truthy (PStr s) = true.
Proof. intros Hs. simpl. now apply negb_true_iff, bool_decide_eq_false. Qed.


End Timestamps.

(** *** The reference [datetime] has the two laws *)

Section ReferenceLaws.
Import Py.











(** A timestamp of a payload, a string that is no timestamp, and an instant
    that leaves the calendar when it is moved to UTC. *)
Example parse_github_timestamp_samples :
  @Feishu._parse_github_timestamp Reference.builtins
    (PStr "2024-05-01T12:30:00Z")
  = Ok (PStr "2024-05-01T12:30:00+00:00")
  /\ Iso.render {| Iso.year := 2024; Iso.month := 5; Iso.day := 1;
                   Iso.hour := 12; Iso.minute := 30; Iso.second := 0 |}
     = "2024-05-01T12:30:00"
  /\ @Feishu._parse_github_timestamp Reference.builtins (PStr "yesterday")
     = Raise ValueError
  /\ @MySQL._parse_github_timestamp Reference.builtins
       (PStr "0001-01-01T00:00:00+05:00")
     = Raise OverflowError.
Proof. repeat split. Qed.


End ReferenceLaws.

(** ** Labels and assignees *)

Ltac rinv H :=
  repeat match type of H with
    | Py.rbind ?r _ = Py.Ok _ =>
        let E := fresh "E" in
        destruct r eqn:E; cbn [Py.rbind] in H;
        [| discriminate H | discriminate H]
    end.

Section Dicts.
Import Py.

Lemma dict_get_set_eq (k : string) (v : pyval) (d : list (string * pyval)) :
  dict_get k (dict_set k v d) = Some v.
Proof.
  induction d as [|[k' v'] d IH]; simpl.
  - now rewrite decide_True.
  - destruct (decide (k' = k)) as [->|Hne]; simpl.
    + now rewrite decide_True.
    + now rewrite decide_False.
Qed.

Lemma dict_get_set_ne (k k' : string) (v : pyval) (d : list (string * pyval)) :
  k' <> k -> dict_get k (dict_set k' v d) = dict_get k d.
Proof.
  intros Hne. induction d as [|[k0 v0] d IH]; simpl.
  - now rewrite decide_False.
  - destruct (decide (k0 = k')) as [->|Hne0]; simpl.
    + now rewrite !decide_False.
    + destruct (decide (k0 = k)); [reflexivity | exact IH].
Qed.

End Dicts.

Section Names.
Import Py.
Context `{Builtins}.

Lemma pluck_truthy (key : string) (xs names : list pyval) :
  pluck key xs = Ok names -> Forall (fun n => truthy n = true) names.
Proof.
  revert names. induction xs as [|x xs IH]; intros names Hp; simpl in Hp.
  - injection Hp as <-. constructor.
  - rinv Hp. destruct (truthy a) eqn:Ht; [| now apply IH].
    rinv Hp. injection Hp as <-. constructor; [exact Ht | now apply IH].
Qed.

Lemma names_of_truthy (issue : pyval) (key sub : string) (names : list pyval) :
  names_of issue key sub = Ok names -> Forall (fun n => truthy n = true) names.
Proof.
  unfold names_of. intros Hn. rinv Hn. eapply pluck_truthy, Hn.
Qed.

Lemma strs_of_map (names : list pyval) (l : list string) :
  Feishu.strs_of names = Some l -> names = PStr <$> l.
Proof.
  revert l. induction names as [|n names IH]; intros l Hs; simpl in Hs.
  - injection Hs as <-. reflexivity.
  - destruct n; try discriminate.
    destruct (Feishu.strs_of names) as [l'|] eqn:E; [| discriminate].
    injection Hs as <-. simpl. f_equal. now apply IH.
Qed.

Lemma str_join_nonempty (sep s : string) (rest : list string) :
  s <> "" -> str_join sep (s :: rest) <> "".
Proof.
  intros Hs. destruct rest as [|r rest]; [exact Hs |].
  cbn [str_join]. destruct s; [congruence | discriminate].
Qed.

(** What [", ".join(names) if names else None] is on names that passed the
    filter of the comprehension. *)
Lemma joined_inv (names : list pyval) (v : pyval) :
  Forall (fun n => truthy n = true) names ->
  Feishu.joined names = Ok v ->
  exists l : list string,
    names = PStr <$> l
    /\ v = match l with [] => PNone | _ :: _ => PStr (str_join ", " l) end
    /\ v <> PStr "".
Proof.
  intros Htruthy Hj. destruct names as [|n names].
  - injection Hj as <-. exists []. repeat split. discriminate.
  - unfold Feishu.joined in Hj.
    destruct (Feishu.strs_of (n :: names)) as [l|] eqn:E; [| discriminate].
    injection Hj as <-. exists l. pose proof (strs_of_map _ _ E) as Hl.
    split; [exact Hl |]. destruct l as [|s l]; [discriminate |].
    split; [reflexivity |]. intros [= Hempty].
    revert Hempty. apply str_join_nonempty.
    injection Hl as -> _. apply Forall_cons in Htruthy as [Hs _].
    simpl in Hs. apply negb_true_iff, bool_decide_eq_false in Hs. exact Hs.
Qed.

Lemma build_fields_names (f : string) (issue action : pyval)
    (fields : list (string * pyval)) :
  Feishu.build_fields f issue action = Ok fields ->
  exists labels assignees labels_field assignees_field,
    names_of issue "labels" "name" = Ok labels
    /\ names_of issue "assignees" "login" = Ok assignees
    /\ Feishu.joined labels = Ok labels_field
    /\ Feishu.joined assignees = Ok assignees_field
    /\ dict_get "Labels" fields = Some labels_field
    /\ dict_get "Assignees" fields = Some assignees_field.
Proof.
  unfold Feishu.build_fields. intros Hb. rinv Hb. injection Hb as <-.
  eexists _, _, _, _. repeat (split; [eassumption || reflexivity |]).
  unfold dict_of. cbn [fold_left fst snd].
  split.
  - rewrite !(dict_get_set_ne "Labels") by discriminate.
    apply dict_get_set_eq.
  - rewrite !(dict_get_set_ne "Assignees") by discriminate.
    apply dict_get_set_eq.
Qed.

(** C8, as the code has it.  Feishu: when the field extraction succeeds, the
    label names and the assignee logins that passed the filter are strings,
    the "Labels" and "Assignees" fields are their ", "-joins, [None] when
    the list is empty, and never the empty string.  MySQL: the two columns
    hold [json.dumps] of the two lists, a string also for an empty list. *)
Theorem joined_names :
  (forall f issue action fields,
     Feishu.build_fields f issue action = Ok fields ->
     exists labels assignees : list string,
       names_of issue "labels" "name" = Ok (PStr <$> labels)
       /\ names_of issue "assignees" "login" = Ok (PStr <$> assignees)
       /\ dict_get "Labels" fields
          = Some (match labels with
                  | [] => PNone
                  | _ :: _ => PStr (str_join ", " labels)
                  end)
       /\ dict_get "Assignees" fields
          = Some (match assignees with
                  | [] => PNone
                  | _ :: _ => PStr (str_join ", " assignees)
                  end)
       /\ dict_get "Labels" fields <> Some (PStr "")
       /\ dict_get "Assignees" fields <> Some (PStr ""))
  /\ (forall event x p now id row,
        MySQL.extract event = Ok x ->
        MySQL.insert_params x = Ok p ->
        MySQL.values p now = Some (id, row) ->
        exists labels assignees,
          names_of (MySQL.issue x) "labels" "name" = Ok labels
          /\ names_of (MySQL.issue x) "assignees" "login" = Ok assignees
          /\ MySQL.labels row = MySQL.SqlStr (json_dumps (PList labels))
          /\ MySQL.assignees row = MySQL.SqlStr (json_dumps (PList assignees))).
Proof.
  split.
  - intros f issue action fields Hb.
    destruct (build_fields_names _ _ _ _ Hb)
      as (labels & assignees & lf & af & Hl & Ha & Hjl & Hja & Hgl & Hga).
    destruct (joined_inv _ _ (names_of_truthy _ _ _ _ Hl) Hjl)
      as (ls & -> & -> & Hlne).
    destruct (joined_inv _ _ (names_of_truthy _ _ _ _ Ha) Hja)
      as (la & -> & -> & Hane).
    exists ls, la. rewrite Hgl, Hga.
    repeat split; try assumption; congruence.
  - intros event x p now id row Hx Hp Hv.
    unfold MySQL.extract in Hx. rinv Hx.
    destruct (negb a); [discriminate |]. rinv Hx. injection Hx as <-.
    unfold MySQL.insert_params in Hp. cbn [MySQL.issue] in *. rinv Hp.
    injection Hp as <-. unfold MySQL.values in Hv. cbn in Hv.
    repeat match type of Hv with
           | match ?o with _ => _ end = Some _ =>
               destruct o; try discriminate Hv
           end.
    injection Hv as _ <-. cbn. exists a2, a3. repeat split; assumption.
Qed.

End Names.

Section NamesExamples.
Import Py.

Lemma joined_names_witness :
  @Feishu.build_fields Reference.builtins "Issue ID" Sample.tagged_issue
    (PStr "opened") = Ok Sample.tagged_fields
  /\ exists labels assignees : list string,
       names_of Sample.tagged_issue "labels" "name" = Ok (PStr <$> labels)
       /\ names_of Sample.tagged_issue "assignees" "login"
          = Ok (PStr <$> assignees)
       /\ dict_get "Labels" Sample.tagged_fields
          = Some (match labels with
                  | [] => PNone
                  | _ :: _ => PStr (str_join ", " labels)
                  end)
       /\ dict_get "Assignees" Sample.tagged_fields
          = Some (match assignees with
                  | [] => PNone
                  | _ :: _ => PStr (str_join ", " assignees)
                  end)
       /\ dict_get "Labels" Sample.tagged_fields <> Some (PStr "")
       /\ dict_get "Assignees" Sample.tagged_fields <> Some (PStr "").
Proof.
  assert (Hb : @Feishu.build_fields Reference.builtins "Issue ID"
                 Sample.tagged_issue (PStr "opened") = Ok Sample.tagged_fields)
    by (vm_compute; reflexivity).
  split; [exact Hb |].
  exact (proj1 (@joined_names Reference.builtins) _ _ _ _ Hb).
Defined.

(** The payload of the specification: labels bug and P1, assignee alice. *)
Example joined_names_sample :
  dict_get "Labels" Sample.tagged_fields = Some (PStr "bug, P1")
  /\ dict_get "Assignees" Sample.tagged_fields = Some (PStr "alice")
  /\ (forall fields,
        @Feishu.build_fields Reference.builtins "Issue ID" Sample.bare_issue
          (PStr "opened") = Ok fields ->
        dict_get "Labels" fields = Some PNone
        /\ dict_get "Assignees" fields = Some PNone).
Proof.
  split; [reflexivity |]. split; [reflexivity |].
  intros fields Hb. vm_compute in Hb. injection Hb as <-.
  split; reflexivity.
Qed.

(** In the MySQL sink the same empty lists are the text of an empty JSON
    array, not NULL, and nothing is joined with ", ". *)
Lemma mysql_names_are_json_text :
  Sample.mysql_names Sample.bare_issue
  = Ok (Some (MySQL.SqlStr "[]", MySQL.SqlStr "[]"))
  /\ Sample.mysql_names Sample.bare_issue
     <> Ok (Some (MySQL.SqlNull, MySQL.SqlNull))
  /\ Sample.mysql_names Sample.tagged_issue
     = Ok (Some (MySQL.SqlStr
                   (Reference.json_dumps (PList [PStr "bug"; PStr "P1"])),
                 MySQL.SqlStr (Reference.json_dumps (PList [PStr "alice"]))))
  /\ Sample.mysql_names Sample.tagged_issue
     <> Ok (Some (MySQL.SqlStr "bug, P1", MySQL.SqlStr "alice")).
Proof.
  split; [vm_compute; reflexivity |].
  split; [vm_compute; discriminate |].
  split; [vm_compute; reflexivity |].
  vm_compute; discriminate.
Qed.

End NamesExamples.

(** ** Failures before the first external call *)

Ltac in_list :=
  repeat first [apply list_elem_of_here | apply list_elem_of_further].

Section Prefix.
Import Py.
Context `{Builtins}.

Lemma feishu_env_cases (env : gmap string string) (name : string) :
  (exists v,
     env !! name = Some v /\ v <> "" /\ Feishu._env env name None = Ok v)
  \/ ((env !! name = None \/ env !! name = Some "")
      /\ Feishu._env env name None
         = SystemExit ("Missing required env var: " +:+ name)).
Proof.
  unfold Feishu._env, Feishu.getenv. destruct (env !! name) as [v|].
  - destruct (decide (v = "")) as [->|Hne]; [right | left]; eauto.
  - right. eauto.
Qed.

Lemma mysql_env_cases (env : gmap string string) (name : string) :
  (exists v,
     env !! name = Some v /\ v <> "" /\ MySQL._env env name None = Ok v)
  \/ ((env !! name = None \/ env !! name = Some "")
      /\ MySQL._env env name None
         = SystemExit ("Missing required env var: " +:+ name)).
Proof.
  unfold MySQL._env, MySQL.getenv. destruct (env !! name) as [v|].
  - destruct (decide (v = "")) as [->|Hne]; [right | left]; eauto.
  - right. eauto.
Qed.

(** [read_config] either finds every required variable set and not empty,
    or stops at the first one that is not. *)
Lemma read_config_cases (env : gmap string string) :
  (exists cfg,
     Feishu.read_config env = Ok cfg
     /\ Feishu._env env "GITHUB_EVENT_PATH" None = Ok (Feishu.event_path cfg)
     /\ forall name, name ∈ Feishu.required_env ->
                     exists v, env !! name = Some v /\ v <> "")
  \/ (exists first,
        first ∈ Feishu.required_env
        /\ (env !! first = None \/ env !! first = Some "")
        /\ Feishu.read_config env
           = SystemExit ("Missing required env var: " +:+ first)).
Proof.
  unfold Feishu.read_config, Feishu.required_env.
  destruct (feishu_env_cases env "GITHUB_EVENT_PATH")
    as [(v1 & L1 & N1 & ->)|[Hmiss ->]];
    [| right; exists "GITHUB_EVENT_PATH"; split; [in_list | now split]].
  cbn [rbind].
  destruct (feishu_env_cases env "FEISHU_APP_ID")
    as [(v2 & L2 & N2 & ->)|[Hmiss ->]];
    [| right; exists "FEISHU_APP_ID"; split; [in_list | now split]].
  cbn [rbind].
  destruct (feishu_env_cases env "FEISHU_APP_SECRET")
    as [(v3 & L3 & N3 & ->)|[Hmiss ->]];
    [| right; exists "FEISHU_APP_SECRET"; split; [in_list | now split]].
  cbn [rbind].
  destruct (feishu_env_cases env "FEISHU_APP_TOKEN")
    as [(v4 & L4 & N4 & ->)|[Hmiss ->]];
    [| right; exists "FEISHU_APP_TOKEN"; split; [in_list | now split]].
  cbn [rbind].
  destruct (feishu_env_cases env "FEISHU_TABLE_ID")
    as [(v5 & L5 & N5 & ->)|[Hmiss ->]];
    [| right; exists "FEISHU_TABLE_ID"; split; [in_list | now split]].
  cbn [rbind]. left. eexists. split; [reflexivity |]. split; [reflexivity |].
  intros name Hin. repeat (apply elem_of_cons in Hin as [-> | Hin]; [eauto |]).
  now apply elem_of_nil in Hin.
Qed.

Lemma get_not_exit (v : pyval) (k : string) (d : pyval) (msg : string) :
  get v k d <> SystemExit msg.
Proof. destruct v; discriminate. Qed.

Lemma pluck_not_exit (key : string) (xs : list pyval) (msg : string) :
  pluck key xs <> SystemExit msg.
Proof.
  induction xs as [|x xs IH]; simpl; [discriminate |].
  destruct (get x key PNone) as [n| |] eqn:E; cbn [rbind];
    [| now apply get_not_exit in E | discriminate].
  destruct (truthy n); [| exact IH].
  destruct (pluck key xs); cbn [rbind];
    [discriminate | exact IH | discriminate].
Qed.

Lemma names_of_not_exit (issue : pyval) (key sub : string) (msg : string) :
  names_of issue key sub <> SystemExit msg.
Proof.
  unfold names_of. destruct (get issue key (PList [])) as [raw| |] eqn:E;
    cbn [rbind]; [| now apply get_not_exit in E | discriminate].
  destruct (iterate raw) as [xs| |] eqn:E'; cbn [rbind];
    [apply pluck_not_exit | destruct raw; discriminate | discriminate].
Qed.

Lemma mysql_parse_not_exit (v : pyval) (msg : string) :
  MySQL._parse_github_timestamp v <> SystemExit msg.
Proof.
  unfold MySQL._parse_github_timestamp.
  destruct (negb (truthy v)); [discriminate |].
  destruct v; try discriminate.
  destruct (fromisoformat _) as [d|]; [| discriminate].
  destruct (astimezone_utc d); discriminate.
Qed.

(** The only [SystemExit] of the extraction is the missing issue. *)
Lemma extract_exit (event : pyval) (msg : string) :
  MySQL.extract event = SystemExit msg ->
  msg = "Event payload missing 'issue'".
Proof.
  unfold MySQL.extract. intros Hx.
  destruct (contains "issue" event) as [has| |] eqn:E; cbn [rbind] in Hx;
    [| destruct event; discriminate | discriminate].
  destruct (negb has); [now injection Hx |].
  repeat match type of Hx with
         | rbind ?r _ = SystemExit _ =>
             let E := fresh "E" in
             destruct r eqn:E; cbn [rbind] in Hx; [| exfalso | discriminate]
         end;
    try discriminate;
    try (eapply get_not_exit; eassumption);
    try (eapply names_of_not_exit; eassumption);
    try (eapply mysql_parse_not_exit; eassumption).
  unfold subscript in *. destruct event; try discriminate.
  destruct (dict_get _ _); discriminate.
Qed.

End Prefix.

Section EarlyExit.
Import Py.
Context `{Builtins}.

(** The MySQL script reads GITHUB_EVENT_PATH, loads and extracts the event,
    and then reads its connection settings in the order host, port, user,
    password, database.  With a required variable absent it stops at the
    first of these steps that fails, and the world is as it was. *)
Lemma mysql_missing_env (w : MySQL.World datetime) (name : string) :
  name ∈ MySQL.required_env ->
  MySQL.environ w !! name = None ->
  exists r,
    MySQL.main w = (r, w)
    /\ match MySQL.environ w !! "GITHUB_EVENT_PATH" with
       | None | Some "" =>
           r = SystemExit "Missing required env var: GITHUB_EVENT_PATH"
       | Some path =>
           match MySQL.files w !! path with
           | None => r = Raise OSError
           | Some NotJson => r = Raise JSONDecodeError
           | Some (Json event) =>
               match MySQL.extract event with
               | SystemExit _ => r = SystemExit "Event payload missing 'issue'"
               | Raise e => r = Raise e
               | Ok _ =>
                   (exists first,
                      first ∈ ["MYSQL_HOST"; "MYSQL_USER"; "MYSQL_PASSWORD";
                               "MYSQL_DATABASE"]
                      /\ (MySQL.environ w !! first = None
                          \/ MySQL.environ w !! first = Some "")
                      /\ r = SystemExit
                               ("Missing required env var: " +:+ first))
                   \/ (r = Raise ValueError
                       /\ (exists host,
                             MySQL.environ w !! "MYSQL_HOST" = Some host
                             /\ host <> "")
                       /\ int_of_str
                            (default "3306" (MySQL.environ w !! "MYSQL_PORT"))
                          = None)
               end
           end
       end.
Proof.
  intros Hin Hnone. unfold MySQL.main, bind, lift.
  destruct (mysql_env_cases (MySQL.environ w) "GITHUB_EVENT_PATH")
    as [(path & L0 & N0 & ->)|[[L0|L0] ->]]; rewrite L0;
    [| eexists; split; reflexivity..].
  destruct path as [|c path]; [congruence |].
  unfold MySQL._load_event.
  destruct (MySQL.files w !! String c path) as [[|event]|];
    [eexists; split; reflexivity | | eexists; split; reflexivity].
  destruct (MySQL.extract event) as [x|msg|e] eqn:Ex;
    [| eexists; split; [reflexivity | now rewrite (extract_exit _ _ Ex)]
     | eexists; split; reflexivity].
  unfold MySQL._connect_mysql, bind.
  destruct (mysql_env_cases (MySQL.environ w) "MYSQL_HOST")
    as [(host & L1 & N1 & ->)|[Hmiss ->]].
  2:{ eexists; split; [reflexivity |]. left. exists "MYSQL_HOST".
      split; [in_list | now split]. }
  assert (Hport : default "3306"
                    (MySQL.getenv (MySQL.environ w) "MYSQL_PORT" (Some "3306"))
                  = default "3306" (MySQL.environ w !! "MYSQL_PORT")).
  { unfold MySQL.getenv. now destruct (MySQL.environ w !! "MYSQL_PORT"). }
  rewrite Hport.
  destruct (int_of_str _) as [port|] eqn:Hint.
  2:{ eexists; split; [reflexivity |]. right. split; [reflexivity |].
      split; [now exists host | reflexivity]. }
  destruct (mysql_env_cases (MySQL.environ w) "MYSQL_USER")
    as [(user & L2 & N2 & ->)|[Hmiss ->]].
  2:{ eexists; split; [reflexivity |]. left. exists "MYSQL_USER".
      split; [in_list | now split]. }
  destruct (mysql_env_cases (MySQL.environ w) "MYSQL_PASSWORD")
    as [(password & L3 & N3 & ->)|[Hmiss ->]].
  2:{ eexists; split; [reflexivity |]. left. exists "MYSQL_PASSWORD".
      split; [in_list | now split]. }
  destruct (mysql_env_cases (MySQL.environ w) "MYSQL_DATABASE")
    as [(database & L4 & N4 & ->)|[Hmiss ->]].
  2:{ eexists; split; [reflexivity |]. left. exists "MYSQL_DATABASE".
      split; [in_list | now split]. }
  exfalso. unfold MySQL.required_env in Hin.
  repeat (apply elem_of_cons in Hin as [-> | Hin]; [congruence |]).
  now apply elem_of_nil in Hin.
Qed.

(** C7: when a required variable is absent, the Feishu script ends with the
    "Missing required env var" message of the first variable that is absent
    or empty.  The MySQL script loads and extracts the event before it
    reads its connection settings: it ends with that message for
    GITHUB_EVENT_PATH; with the failure of the event when the file cannot
    be opened, is not JSON or cannot be extracted; and, once the event is
    extracted, with that message for the first connection variable that is
    absent or empty, unless the host is set and MYSQL_PORT is no integer,
    which is the [ValueError] of [int].  Either way the status is non-zero
    and the world is as it was: no HTTP exchange, no database call. *)
Theorem missing_env_var_is_fatal :
  (forall (Srv : Type) (serve : Feishu.Request -> Srv -> Feishu.Reply * Srv)
          (w : Feishu.World Srv) (name : string),
     name ∈ Feishu.required_env ->
     Feishu.environ w !! name = None ->
     exists first,
       first ∈ Feishu.required_env
       /\ (Feishu.environ w !! first = None
           \/ Feishu.environ w !! first = Some "")
       /\ Feishu.main serve w
          = (SystemExit ("Missing required env var: " +:+ first), w))
  /\ (forall (w : MySQL.World datetime) (name : string),
        name ∈ MySQL.required_env ->
        MySQL.environ w !! name = None ->
        exists r,
          MySQL.main w = (r, w)
          /\ exit_status r <> 0
          /\ match MySQL.environ w !! "GITHUB_EVENT_PATH" with
             | None | Some "" =>
                 r = SystemExit "Missing required env var: GITHUB_EVENT_PATH"
             | Some path =>
                 match MySQL.files w !! path with
                 | None => r = Raise OSError
                 | Some NotJson => r = Raise JSONDecodeError
                 | Some (Json event) =>
                     match MySQL.extract event with
                     | SystemExit _ =>
                         r = SystemExit "Event payload missing 'issue'"
                     | Raise e => r = Raise e
                     | Ok _ =>
                         (exists first,
                            first ∈ ["MYSQL_HOST"; "MYSQL_USER";
                                     "MYSQL_PASSWORD"; "MYSQL_DATABASE"]
                            /\ (MySQL.environ w !! first = None
                                \/ MySQL.environ w !! first = Some "")
                            /\ r = SystemExit
                                     ("Missing required env var: " +:+ first))
                         \/ (r = Raise ValueError
                             /\ (exists host,
                                   MySQL.environ w !! "MYSQL_HOST" = Some host
                                   /\ host <> "")
                             /\ int_of_str
                                  (default "3306"
                                     (MySQL.environ w !! "MYSQL_PORT"))
                                = None)
                     end
                 end
             end).
Proof.
  split.
  - intros Srv serve w name Hin Hnone.
    destruct (read_config_cases (Feishu.environ w))
      as [(cfg & _ & _ & Hall)|(first & Hfirst & Hmiss & Hcfg)].
    + destruct (Hall name Hin) as (v & Hv & _). congruence.
    + exists first. split; [exact Hfirst |]. split; [exact Hmiss |].
      unfold Feishu.main, bind. now rewrite Hcfg.
  - intros w name Hin Hnone.
    destruct (mysql_missing_env w name Hin Hnone) as (r & Hmain & Hr).
    exists r. split; [exact Hmain |]. split; [| exact Hr].
    destruct (MySQL.environ w !! "GITHUB_EVENT_PATH") as [[|c path]|];
      try (subst r; discriminate).
    destruct (MySQL.files w !! String c path) as [[|event]|];
      try (subst r; discriminate).
    destruct (MySQL.extract event);
      try (subst r; discriminate).
    destruct Hr as [(first & _ & _ & ->)|(-> & _)]; discriminate.
Qed.

(** C6: when the event file parses to a mapping without an "issue" key,
    both scripts end with a non-zero status and leave the world as it was:
    the Feishu script has made no HTTP exchange (not even for the token) and
    the MySQL script no database call (not even the connection). *)
Theorem missing_issue_is_fatal :
  (forall (Srv : Type) (serve : Feishu.Request -> Srv -> Feishu.Reply * Srv)
          (w : Feishu.World Srv) (path : string)
          (members : list (string * pyval)),
     Feishu._env (Feishu.environ w) "GITHUB_EVENT_PATH" None = Ok path ->
     Feishu.files w !! path = Some (Json (PDict members)) ->
     dict_get "issue" members = None ->
     exists msg,
       Feishu.main serve w = (SystemExit msg, w)
       /\ exit_status (@SystemExit unit msg) <> 0
       /\ (is_ok (Feishu.read_config (Feishu.environ w)) = true ->
           msg = "Event payload missing 'issue'"))
  /\ (forall (w : MySQL.World datetime) (path : string)
             (members : list (string * pyval)),
        MySQL._env (MySQL.environ w) "GITHUB_EVENT_PATH" None = Ok path ->
        MySQL.files w !! path = Some (Json (PDict members)) ->
        dict_get "issue" members = None ->
        MySQL.main w = (SystemExit "Event payload missing 'issue'", w)
        /\ exit_status (MySQL.main w).1 <> 0).
Proof.
  split.
  - intros Srv serve w path members Henv Hfile Hno.
    unfold Feishu.main, bind.
    destruct (read_config_cases (Feishu.environ w))
      as [(cfg & -> & Hpath & _)|(first & _ & _ & ->)].
    + rewrite Henv in Hpath. injection Hpath as <-.
      unfold Feishu._load_event. rewrite Hfile. cbn. rewrite Hno. cbn.
      eexists. split; [reflexivity |]. split; [discriminate | reflexivity].
    + eexists. split; [reflexivity |]. split; discriminate.
  - intros w path members Henv Hfile Hno.
    assert (Hmain : MySQL.main w
                    = (SystemExit "Event payload missing 'issue'", w)).
    { unfold MySQL.main, bind. rewrite Henv.
      unfold MySQL._load_event. rewrite Hfile.
      unfold lift, MySQL.extract. cbn. rewrite Hno. reflexivity. }
    rewrite Hmain. split; [reflexivity | discriminate].
Qed.

End EarlyExit.

(** ** Remote failures *)

Section RemoteFailures.
Import Py Feishu Wire.
Context `{Builtins}.
Context {Srv : Type} (serve : Request -> Srv -> Reply * Srv).

Lemma check_code_exit (what : string) (response : pyval) (msg : string) :
  check_code what response = SystemExit msg ->
  msg = what +:+ ": " +:+ str response.
Proof.
  unfold check_code. destruct response; try discriminate. cbn [get rbind].
  destruct (negb _); [| discriminate]. now intros [= <-].
Qed.

Lemma check_code_failed (what : string) (response : pyval) :
  failed (Body (Some response)) ->
  check_code what response = SystemExit (what +:+ ": " +:+ str response).
Proof.
  destruct response; try contradiction. cbn [failed].
  unfold check_code. cbn [get rbind]. now intros ->.
Qed.

Lemma fail_stop_silent {A} (m : M (World Srv) A) :
  (forall w, (m w).2 = w) -> fail_stop m.
Proof.
  intros Hm w. exists []. rewrite Hm, app_nil_r. split; [reflexivity |].
  intros i request reply Hi. now rewrite lookup_nil in Hi.
Qed.

Lemma fail_stop_lift {A} (r : res A) : fail_stop (Srv := Srv) (lift r).
Proof. now apply fail_stop_silent. Qed.

Lemma fail_stop_bind {A B} (m : M (World Srv) A) (k : A -> M (World Srv) B) :
  fail_stop m -> (forall a, fail_stop (k a)) -> fail_stop (bind m k).
Proof.
  intros Hm Hk w. destruct (Hm w) as (new1 & Hw1 & H1).
  unfold bind. destruct (m w) as [[a|msg|e] w1]; cbn [fst snd] in *.
  - destruct (Hk a w1) as (new2 & Hw2 & H2). exists (new1 ++ new2).
    split; [now rewrite Hw2, Hw1, <- (assoc_L (++)) |].
    intros i request reply Hi Hfailed.
    apply lookup_app_Some in Hi as [Hi | [Hge Hi]].
    + destruct (H1 _ _ _ Hi Hfailed) as (_ & msg & Hmsg & _). discriminate.
    + destruct (H2 _ _ _ Hi Hfailed) as (Hlen & Hmsg).
      split; [| exact Hmsg]. rewrite length_app. lia.
  - exists new1. split; [exact Hw1 |].
    intros i request reply Hi Hfailed.
    destruct (H1 _ _ _ Hi Hfailed) as (Hlen & msg' & [= <-] & Hrep).
    split; [exact Hlen |]. now exists msg.
  - exists new1. split; [exact Hw1 |].
    intros i request reply Hi Hfailed.
    destruct (H1 _ _ _ Hi Hfailed) as (_ & msg' & Hmsg & _). discriminate.
Qed.

(** One request and the check of its reply. *)
Lemma fail_stop_request {A} (what method url : string)
    (headers : list (string * string)) (payload : pyval)
    (g : pyval -> M (World Srv) A) :
  (forall response,
     match check_code what response with
     | Ok _ => fail_stop (g response)
     | SystemExit msg => forall w, g response w = (SystemExit msg, w)
     | Raise e => forall w, g response w = (Raise e, w)
     end) ->
  fail_stop (bind (_request_json serve method url headers payload) g).
Proof.
  intros Hg w. unfold bind, _request_json.
  set (request := {| method := method; url := url; headers := headers;
                     payload := payload |}).
  destruct (serve request (remote w)) as [reply srv].
  set (w' := {| environ := environ w; files := files w; remote := srv;
                wire := wire w ++ [(request, reply)] |}).
  destruct reply as [[response|]|code reason detail|].
  - specialize (Hg response).
    destruct (check_code what response) as [u|msg|e] eqn:Hcheck.
    + destruct (Hg w') as (new & Hw & Hnew).
      exists ((request, Body (Some response)) :: new).
      split; [now rewrite Hw; cbn; rewrite <- (assoc_L (++)) |].
      intros [|i] rq rp Hi Hfailed.
      * injection Hi as <- <-.
        rewrite (check_code_failed what _ Hfailed) in Hcheck. discriminate.
      * destruct (Hnew _ _ _ Hi Hfailed) as (Hlen & Hmsg).
        split; [cbn; now rewrite Hlen | exact Hmsg].
    + rewrite Hg. exists [(request, Body (Some response))].
      split; [reflexivity |].
      intros [|i] rq rp Hi Hfailed; [| discriminate Hi].
      injection Hi as <- <-. split; [reflexivity |].
      exists msg. split; [reflexivity |]. exists what.
      now apply check_code_exit.
    + rewrite Hg. exists [(request, Body (Some response))].
      split; [reflexivity |].
      intros [|i] rq rp Hi Hfailed; [| discriminate Hi].
      injection Hi as <- <-.
      rewrite (check_code_failed what _ Hfailed) in Hcheck. discriminate.
  - exists [(request, Body None)]. split; [reflexivity |].
    intros [|i] rq rp Hi Hfailed; [| discriminate Hi].
    injection Hi as <- <-. contradiction.
  - exists [(request, HTTPError code reason detail)]. split; [reflexivity |].
    intros [|i] rq rp Hi Hfailed; [| discriminate Hi].
    injection Hi as <- <-. split; [reflexivity |].
    eexists. split; reflexivity.
  - exists [(request, Unreachable)]. split; [reflexivity |].
    intros [|i] rq rp Hi Hfailed; [| discriminate Hi].
    injection Hi as <- <-. contradiction.
Qed.

Lemma fail_stop_checked {A} (what method url : string)
    (headers : list (string * string)) (payload : pyval)
    (k : pyval -> unit -> M (World Srv) A) :
  (forall response u, fail_stop (k response u)) ->
  fail_stop
    (bind (_request_json serve method url headers payload)
       (fun response =>
          bind (lift (check_code what response)) (k response))).
Proof.
  intros Hk. apply fail_stop_request with (what := what). intros response.
  unfold bind, lift. destruct (check_code what response); [apply Hk | |];
    reflexivity.
Qed.

Lemma fail_stop_checked_last (what method url : string)
    (headers : list (string * string)) (payload : pyval) :
  fail_stop
    (bind (_request_json serve method url headers payload)
       (fun response => lift (check_code what response))).
Proof.
  apply fail_stop_request with (what := what). intros response.
  destruct (check_code what response);
    [apply fail_stop_lift | reflexivity | reflexivity].
Qed.

Lemma fail_stop_token (base_url app_id app_secret : string) :
  fail_stop (_get_tenant_token serve base_url app_id app_secret).
Proof.
  unfold _get_tenant_token. apply fail_stop_checked.
  intros response u. apply fail_stop_lift.
Qed.

Lemma fail_stop_search (base_url : string) (token : pyval)
    (app_token table_id : string) (issue_id : pyval) (field_name : string) :
  fail_stop
    (_bitable_search serve base_url token app_token table_id issue_id
       field_name).
Proof.
  unfold _bitable_search. apply fail_stop_checked. intros response u.
  apply fail_stop_bind; [apply fail_stop_lift | intros data].
  apply fail_stop_bind; [apply fail_stop_lift | intros items].
  destruct (negb (truthy items)); [now apply fail_stop_silent |].
  apply fail_stop_bind; [apply fail_stop_lift | intros first].
  apply fail_stop_lift.
Qed.

Lemma fail_stop_upsert (base_url : string) (token : pyval)
    (app_token table_id : string) (issue_id : pyval) (field_name : string)
    (fields : list (string * pyval)) :
  fail_stop
    (_bitable_upsert serve base_url token app_token table_id issue_id
       field_name fields).
Proof.
  unfold _bitable_upsert.
  apply fail_stop_bind; [apply fail_stop_search | intros record_id].
  apply fail_stop_checked_last.
Qed.

Lemma fail_stop_create (base_url : string) (token : pyval)
    (app_token table_id : string) (fields : list (string * pyval)) :
  fail_stop (_bitable_create serve base_url token app_token table_id fields).
Proof. unfold _bitable_create. apply fail_stop_checked_last. Qed.

Lemma fail_stop_main : fail_stop (main serve).
Proof.
  unfold main.
  apply fail_stop_bind; [now apply fail_stop_silent | intros cfg].
  apply fail_stop_bind; [| intros event].
  { apply fail_stop_silent. intros w. unfold _load_event.
    destruct (files w !! event_path cfg) as [[|v]|]; reflexivity. }
  apply fail_stop_bind; [apply fail_stop_lift | intros has_issue].
  destruct (negb has_issue); [apply fail_stop_lift |].
  apply fail_stop_bind; [apply fail_stop_lift | intros issue].
  apply fail_stop_bind; [apply fail_stop_lift | intros action].
  apply fail_stop_bind; [apply fail_stop_lift | intros fields].
  apply fail_stop_bind; [apply fail_stop_token | intros token].
  destruct (upsert cfg).
  - apply fail_stop_bind; [apply fail_stop_lift | intros issue_id].
    apply fail_stop_upsert.
  - apply fail_stop_create.
Qed.

(** C4: in a run of the Feishu script against any service, an exchange
    whose reply is an HTTP error status or a JSON object with a non-zero
    "code" is the last exchange of the run, and the run ends in a
    [SystemExit] whose message carries the detail of that reply: nothing of
    the token, search and write sequence follows it, and nothing is
    retried. *)
Theorem remote_failure_is_fatal (w : World Srv) :
  exists new,
    wire (main serve w).2 = wire w ++ new
    /\ forall i request reply,
         new !! i = Some (request, reply) ->
         failed reply ->
         length new = S i
         /\ exit_status (main serve w).1 <> 0
         /\ exists msg,
              (main serve w).1 = SystemExit msg /\ reported reply msg.
Proof.
  destruct (fail_stop_main w) as (new & Hw & Hnew).
  exists new. split; [exact Hw |].
  intros i request reply Hi Hfailed.
  destruct (Hnew _ _ _ Hi Hfailed) as (Hlen & msg & Hmsg & Hrep).
  split; [exact Hlen |]. split; [now rewrite Hmsg |]. eauto.
Qed.

End RemoteFailures.

(** ** The MySQL transaction *)

Section Transaction.
Import Py MySQL.
Context `{Builtins}.

(** Up to the call of [mysql.connector.connect] the script changes nothing:
    it fails there, or it reaches the database part with the extracted event
    and the connection arguments. *)
Lemma main_cases (w : World datetime) :
  (exists r, main w = (r, w) /\ is_ok r = false)
  \/ (exists x host port user password database,
        main w
        = bind (connect host port user password database)
            (fun _ =>
               try_finally
                 (bind cursor (fun _ =>
                  bind _ensure_schema (fun _ =>
                  bind (lift (insert_params x)) (fun p =>
                  bind (execute_upsert p) (fun _ => commit)))))
                 close) w).
Proof.
  unfold main, _connect_mysql, _load_event. unfold bind, lift.
  destruct (_env (environ w) "GITHUB_EVENT_PATH" None) as [path| |];
    [| left; eauto | left; eauto].
  destruct (files w !! path) as [[|event]|]; [left; eauto | | left; eauto].
  destruct (extract event) as [x| |]; [| left; eauto | left; eauto].
  destruct (_env (environ w) "MYSQL_HOST" None) as [host| |];
    [| left; eauto | left; eauto].
  destruct (int_of_str _) as [port|]; [| left; eauto].
  destruct (_env (environ w) "MYSQL_USER" None) as [user| |];
    [| left; eauto | left; eauto].
  destruct (_env (environ w) "MYSQL_PASSWORD" None) as [password| |];
    [| left; eauto | left; eauto].
  destruct (_env (environ w) "MYSQL_DATABASE" None) as [database| |];
    [| left; eauto | left; eauto].
  right. exists x, host, port, user, password, database. reflexivity.
Qed.

Ltac not_in_calls H :=
  repeat (apply elem_of_cons in H as [H | H]; [discriminate H |]);
  apply elem_of_nil in H; contradiction.

Ltac calls_log := rewrite <- ?(assoc_L (++)); reflexivity.

Ltac calls_leaf :=
  repeat split; intros;
  repeat match goal with
    | H : exists _, _ |- _ => destruct H
    | H : _ /\ _ |- _ => destruct H
    end;
  try discriminate; try congruence;
  try (match goal with H : _ ∈ _ |- _ => solve [not_in_calls H] end);
  try (eexists; in_list); try in_list; try reflexivity.

(** C5: [connection.commit()] is called exactly when the CREATE TABLE and
    the INSERT have both succeeded; when the run does not end well, the
    committed rows are what they were before it; and once a connection has
    been opened, the last database call is [close()], so no connection is
    left open. *)
Theorem commit_only_after_success (w : World datetime) :
  exists new,
    calls (main w).2 = calls w ++ new
    /\ ((exists ok, (Commit, ok) ∈ new)
        <-> ((CreateTable, true) ∈ new /\ exists p, (Upsert p, true) ∈ new))
    /\ ((main w).1 <> Ok tt -> github_issues (main w).2 = github_issues w)
    /\ ((main w).1 = Ok tt -> (Commit, true) ∈ new)
    /\ ((exists host port user password database,
           (Connect host port user password database, true) ∈ new) ->
        last new = Some (Close, true) /\ session (main w).2 = None)
    /\ (session w = None -> session (main w).2 = None).
Proof.
  destruct (main_cases w)
    as [(r & -> & Hr)|(x & host & port & user & password & database & ->)].
  - exists []. cbn [fst snd]. rewrite app_nil_r. split; [reflexivity |].
    destruct r; [discriminate Hr | |]; calls_leaf.
  - unfold bind, connect, try_finally, cursor, _ensure_schema, execute_upsert,
      commit, close, lift.
    destruct (admits (server w) host port user password database); cbn;
      [| eexists; split; [reflexivity | calls_leaf]].
    destruct (cursor_ok (server w)); cbn;
      [| eexists; split; [calls_log | calls_leaf]].
    destruct (ddl_ok (server w)); cbn;
      [| eexists; split; [calls_log | calls_leaf]].
    destruct (insert_params x) as [p|msg|e]; cbn;
      [| eexists; split; [calls_log | calls_leaf]
       | eexists; split; [calls_log | calls_leaf]].
    destruct (insert_on_duplicate p (server w) (now w) (github_issues w))
      as [t'|]; cbn;
      [| eexists; split; [calls_log | calls_leaf]].
    destruct (commit_ok (server w)); cbn;
      eexists; (split; [calls_log | calls_leaf]).
Qed.

End Transaction.

(** ** Running the MySQL script twice *)

Section Rerun.
Import Py MySQL Fields Columns.
Context `{Builtins}.

(** What a run that ends well has done. *)
Lemma main_ok (w : World datetime) :
  (main w).1 = Ok tt ->
  exists event x p t',
    event_of w = Ok event
    /\ extract event = Ok x
    /\ insert_params x = Ok p
    /\ insert_on_duplicate p (server w) (now w) (github_issues w) = Some t'
    /\ github_issues (main w).2 = t'.
Proof.
  unfold event_of, main, _connect_mysql, _load_event. unfold bind, lift.
  destruct (_env (environ w) "GITHUB_EVENT_PATH" None) as [path| |];
    [| discriminate | discriminate].
  cbn [rbind].
  destruct (files w !! path) as [[|event]|]; [discriminate | | discriminate].
  destruct (extract event) as [x| |] eqn:Hx; [| discriminate | discriminate].
  destruct (_env (environ w) "MYSQL_HOST" None) as [host| |];
    [| discriminate | discriminate].
  destruct (int_of_str _) as [port|]; [| discriminate].
  destruct (_env (environ w) "MYSQL_USER" None) as [user| |];
    [| discriminate | discriminate].
  destruct (_env (environ w) "MYSQL_PASSWORD" None) as [password| |];
    [| discriminate | discriminate].
  destruct (_env (environ w) "MYSQL_DATABASE" None) as [database| |];
    [| discriminate | discriminate].
  unfold connect, try_finally, cursor, _ensure_schema, execute_upsert, commit,
    close.
  destruct (admits (server w) host port user password database); cbn;
    [| discriminate].
  destruct (cursor_ok (server w)); cbn; [| discriminate].
  destruct (ddl_ok (server w)); cbn; [| discriminate].
  destruct (insert_params x) as [p| |] eqn:Hp; cbn;
    [| discriminate | discriminate].
  destruct (insert_on_duplicate p (server w) (now w) (github_issues w))
    as [t'|] eqn:Hu; cbn; [| discriminate].
  destruct (commit_ok (server w)); cbn; [| discriminate].
  intros _. exists event, x, p, t'. repeat split; assumption.
Qed.

Lemma values_received (p : Params datetime) (t : Z) (k : Z)
    (row : Row datetime) :
  values p t = Some (k, row) ->
  @to_mysql datetime (p_id p) = Some (SqlInt k)
  /\ event_received_at row = t.
Proof.
  unfold values. intros Hv.
  destruct (@to_mysql datetime (p_id p)) as [[|id| |]|];
    try discriminate Hv.
  repeat match type of Hv with
         | match ?o with _ => _ end = Some _ =>
             destruct o; try discriminate Hv
         end.
  injection Hv as -> <-. split; reflexivity.
Qed.

(** On a duplicate key every column is overwritten, so the statement leaves
    the VALUES row under the key whether the key was there or not. *)
Lemma insert_on_duplicate_spec (p : Params datetime) (srv : Server datetime)
    (t : Z) (rows rows' : gmap Z (Row datetime)) :
  insert_on_duplicate p srv t rows = Some rows' ->
  exists k row, values p t = Some (k, row) /\ rows' = <[k := row]> rows.
Proof.
  unfold insert_on_duplicate. intros Hi.
  destruct (values p t) as [[k row]|] eqn:Hv; [| discriminate].
  destruct (accepts srv k row); [| discriminate].
  exists k, row. split; [reflexivity |].
  destruct (rows !! k) as [old|]; injection Hi as <-; [| reflexivity].
  f_equal. destruct (values_received _ _ _ _ Hv) as [_ Ht].
  destruct row. cbn in *. now subst.
Qed.

(** What the comprehension and the timestamp parser of the script return,
    read off the payload. *)
Lemma pluck_dicts (sub : string) (items : list pyval) :
  forallb is_dict items = true ->
  pluck sub items = Ok (List.filter truthy (map (name_of sub) items)).
Proof.
  induction items as [|x items IH]; intros Hd; [reflexivity |].
  cbn [forallb] in Hd. apply andb_true_iff in Hd as [Hx Hd].
  destruct x; try discriminate Hx.
  cbn [pluck get rbind map name_of List.filter]. rewrite (IH Hd).
  now destruct (truthy _).
Qed.

Lemma pluck_not_dicts (sub : string) (items : list pyval) :
  forallb is_dict items = false -> pluck sub items = Raise AttributeError.
Proof.
  induction items as [|x items IH]; intros Hd; [discriminate |].
  cbn [forallb] in Hd. destruct x; try reflexivity.
  cbn [is_dict andb] in Hd. cbn [pluck get rbind]. rewrite (IH Hd).
  now destruct (truthy _).
Qed.

Lemma names_of_items (issue : pyval) (key sub : string)
    (names : list pyval) :
  names_of issue key sub = Ok names ->
  exists raw items,
    get issue key (PList []) = Ok raw
    /\ iterate raw = Ok items
    /\ forallb is_dict items = true
    /\ names = List.filter truthy (map (name_of sub) items).
Proof.
  unfold names_of. intros Hn. rinv Hn. exists a, a0.
  split; [reflexivity |]. split; [assumption |].
  destruct (forallb is_dict a0) eqn:Hd.
  - split; [reflexivity |]. rewrite (pluck_dicts sub a0 Hd) in Hn.
    now injection Hn.
  - rewrite (pluck_not_dicts sub a0 Hd) in Hn. discriminate Hn.
Qed.

Lemma parse_time_column (issue : pyval) (key : string) (raw : pyval)
    (t : option datetime) :
  get issue key PNone = Ok raw ->
  _parse_github_timestamp raw = Ok t ->
  time_column issue key (time_to_mysql t).
Proof.
  intros Hget Hparse. exists raw. split; [exact Hget |].
  unfold _parse_github_timestamp in Hparse.
  destruct raw as [|b|n|s|l|d];
    try (destruct (negb (truthy _)) eqn:Ht; [| discriminate Hparse];
         injection Hparse as <-; split; [| reflexivity];
         now apply negb_true_iff in Ht).
  destruct (decide (s = "")) as [->|Hne].
  - now injection Hparse as <-.
  - rewrite (truthy_str s Hne) in Hparse. cbn [negb] in Hparse.
    destruct (fromisoformat _) as [parsed|] eqn:Hread; [| discriminate].
    destruct (astimezone_utc parsed) as [utc|] eqn:Hutc; [| discriminate].
    injection Hparse as <-. now exists parsed, utc.
Qed.

Lemma values_reflects (event : pyval) (x : Extract) (p : Params datetime)
    (t k : Z) (row : Row datetime) :
  extract event = Ok x ->
  insert_params x = Ok p ->
  values p t = Some (k, row) ->
  reflects event row
  /\ exists issue id,
       subscript event "issue" = Ok issue
       /\ get issue "id" PNone = Ok id
       /\ @to_mysql datetime id = Some (SqlInt k).
Proof.
  intros Hx Hp Hv. unfold extract in Hx. rinv Hx.
  destruct (negb a); [discriminate |]. rinv Hx. injection Hx as <-.
  unfold insert_params in Hp. cbn [issue action payload_json labels_json
    assignees_json created updated closed] in Hp.
  rinv Hp. injection Hp as <-. unfold values in Hv. cbn in Hv.
  repeat match type of Hv with
         | match ?o with _ => _ end = Some _ =>
             let E := fresh "C" in destruct o eqn:E; try discriminate Hv
         end.
  injection Hv as -> <-. unfold reflects, column, names_column.
  cbn [number title body state created_at updated_at closed_at url
       user_login labels assignees event_action payload].
  split; [| eauto 10].
  eexists. split; [eassumption |].
  repeat (split;
          [first [ solve [eauto 10]
                 | solve [eapply parse_time_column; eassumption]
                 | match goal with
                   | E : names_of _ ?key ?sub = Ok _
                     |- exists raw items, get _ ?key _ = _ /\ _ =>
                       destruct (names_of_items _ _ _ _ E)
                         as (raw & items & ? & ? & ? & ->);
                       exists raw, items; now repeat split
                   end ] |]).
  reflexivity.
Qed.

(** C2: two runs of the MySQL script that end well, on events with the same
    issue id [k]: after the second run the table has a row under [k], it is
    the table of the first run with that one row replaced (no row is added),
    the row's [event_received_at] is the CURRENT_TIMESTAMP of the second run
    and every other column is what the second event says. *)
Theorem rerun_one_row (w1 w2 : World datetime) (k : Z)
    (event1 event2 issue1 issue2 : pyval) :
  event_of w1 = Ok event1 ->
  subscript event1 "issue" = Ok issue1 ->
  get issue1 "id" PNone = Ok (PInt k) ->
  event_of w2 = Ok event2 ->
  subscript event2 "issue" = Ok issue2 ->
  get issue2 "id" PNone = Ok (PInt k) ->
  (main w1).1 = Ok tt ->
  github_issues w2 = github_issues (main w1).2 ->
  (main w2).1 = Ok tt ->
  exists row,
    github_issues (main w2).2 = <[k := row]> (github_issues (main w1).2)
    /\ is_Some (github_issues (main w1).2 !! k)
    /\ github_issues (main w2).2 !! k = Some row
    /\ size (github_issues (main w2).2) = size (github_issues (main w1).2)
    /\ event_received_at row = now w2
    /\ reflects event2 row.
Proof.
  intros He1 Hi1 Hid1 He2 Hi2 Hid2 Hok1 Hdb Hok2.
  destruct (main_ok w1 Hok1)
    as (e1 & x1 & p1 & t1 & He1' & Hx1 & Hp1 & Hu1 & Ht1).
  destruct (main_ok w2 Hok2)
    as (e2 & x2 & p2 & t2 & He2' & Hx2 & Hp2 & Hu2 & Ht2).
  rewrite He1 in He1'. injection He1' as <-.
  rewrite He2 in He2'. injection He2' as <-.
  destruct (insert_on_duplicate_spec _ _ _ _ _ Hu1) as (k1 & row1 & Hv1 & Hr1).
  destruct (insert_on_duplicate_spec _ _ _ _ _ Hu2) as (k2 & row2 & Hv2 & Hr2).
  destruct (values_reflects _ _ _ _ _ _ Hx1 Hp1 Hv1)
    as (_ & i1 & id1 & Hi1' & Hid1' & Hk1).
  destruct (values_reflects _ _ _ _ _ _ Hx2 Hp2 Hv2)
    as (Hrefl & i2 & id2 & Hi2' & Hid2' & Hk2).
  rewrite Hi1 in Hi1'. injection Hi1' as <-.
  rewrite Hid1 in Hid1'. injection Hid1' as <-.
  rewrite Hi2 in Hi2'. injection Hi2' as <-.
  rewrite Hid2 in Hid2'. injection Hid2' as <-.
  injection Hk1 as <-. injection Hk2 as <-.
  assert (Hthere : github_issues (main w1).2 !! k = Some row1)
    by (rewrite Ht1, Hr1; apply lookup_insert_eq).
  exists row2. rewrite Ht2, Hr2, Hdb.
  split; [reflexivity |]. split; [now rewrite Hthere |].
  split; [apply lookup_insert_eq |].
  split; [apply map_size_insert_Some; now rewrite Hthere |].
  split; [eapply values_received, Hv2 | exact Hrefl].
Qed.

End Rerun.

(** ** Running the Feishu upsert twice *)

Section Table.
Import Py Feishu Bitable.

Lemma search_from_head (n : nat) (field value : string)
    (rows : list (list (string * pyval))) (j : nat) (r : list (string * pyval))
    (rest : list (nat * list (string * pyval))) :
  search_from n field value rows = (j, r) :: rest ->
  (n <= j)%nat /\ rows !! (j - n)%nat = Some r /\ matches field value r = true.
Proof.
  revert n. induction rows as [|r0 rows IH]; intros n Hs; [discriminate |].
  cbn [search_from] in Hs. destruct (matches field value r0) eqn:Hm.
  - injection Hs as <- <- _. rewrite Nat.sub_diag. auto.
  - destruct (IH _ Hs) as (Hle & Hlook & Hmatch).
    split; [lia |]. split; [| exact Hmatch].
    replace (j - n)%nat with (S (j - S n)) by lia. exact Hlook.
Qed.

Lemma count_app (n : nat) (field value : string)
    (rows : list (list (string * pyval))) (r : list (string * pyval)) :
  length (search_from n field value (rows ++ [r]))
  = (length (search_from n field value rows)
     + (if matches field value r then 1 else 0))%nat.
Proof.
  revert n. induction rows as [|r0 rows IH]; intros n; simpl.
  - destruct (matches field value r); reflexivity.
  - destruct (matches field value r0); simpl; now rewrite IH.
Qed.

Lemma count_alter (n j : nat) (field value : string)
    (g : list (string * pyval) -> list (string * pyval))
    (rows : list (list (string * pyval))) (r : list (string * pyval)) :
  rows !! j = Some r ->
  matches field value r = true ->
  matches field value (g r) = true ->
  length (search_from n field value (alter g j rows))
  = length (search_from n field value rows).
Proof.
  revert n j. induction rows as [|r0 rows IH]; intros n j Hj Hm Hg;
    [discriminate |].
  destruct j as [|j]; cbn [alter list_alter search_from].
  - injection Hj as ->. now rewrite Hm, Hg.
  - destruct (matches field value r0); cbn [length];
      now rewrite (IH _ _ Hj Hm Hg).
Qed.

Lemma matches_merge (field value : string)
    (fields old : list (string * pyval)) :
  dict_get field fields = Some (PStr value) ->
  matches field value (merge fields old) = true.
Proof.
  unfold matches. induction fields as [|[k x] fields IH]; [discriminate |].
  cbn [dict_get merge fold_right fst snd].
  destruct (decide (k = field)) as [->|Hne].
  - intros [= ->]. rewrite dict_get_set_eq. now apply bool_decide_eq_true.
  - intros Hget. rewrite dict_get_set_ne by exact Hne. now apply IH.
Qed.

Lemma matches_fields (field value : string) (fields : list (string * pyval)) :
  dict_get field fields = Some (PStr value) ->
  matches field value fields = true.
Proof. unfold matches. intros ->. now apply bool_decide_eq_true. Qed.

Lemma find_seq (P : nat -> bool) (a n j : nat) :
  (a <= j < a + n)%nat ->
  P j = true ->
  (forall i, P i = true -> i = j) ->
  List.find P (seq a n) = Some j.
Proof.
  revert a. induction n as [|n IH]; intros a Hj Hp Huniq; [lia |].
  cbn [seq List.find]. destruct (P a) eqn:Ha.
  - f_equal. now apply Huniq.
  - apply IH; [| exact Hp | exact Huniq].
    assert (a <> j) by (intros ->; congruence). lia.
Qed.

Lemma record_url_inj (s : Service) (i j : nat) :
  record_url s i = record_url s j -> i = j.
Proof.
  unfold record_url, record_id. intros Heq.
  apply (inj (String.app _)) in Heq. apply (inj (String.app _)) in Heq.
  apply (inj (String.app _)) in Heq. now apply (inj pretty) in Heq.
Qed.

Lemma index_of_record (s : Service) (j : nat) :
  (j < length (rows s))%nat -> index_of s (record_url s j) = Some j.
Proof.
  intros Hj. unfold index_of. apply find_seq; [lia | |].
  - now apply bool_decide_eq_true.
  - intros i Hi. apply bool_decide_eq_true in Hi.
    now apply (record_url_inj s).
Qed.

(** The four kinds of URL the service tells apart are distinct. *)
Lemma search_not_token (base app table : string) :
  records_url base app table +:+ "/search" <> token_url base.
Proof.
  unfold records_url, token_url. rewrite str_app_assoc. intros Heq.
  apply (inj (String.app _)) in Heq. discriminate Heq.
Qed.

Lemma records_not_token (base app table : string) :
  records_url base app table <> token_url base.
Proof.
  unfold records_url, token_url. intros Heq.
  apply (inj (String.app _)) in Heq. discriminate Heq.
Qed.

Lemma records_not_search (base app table : string) :
  records_url base app table <> records_url base app table +:+ "/search".
Proof.
  intros Heq.
  rewrite <- (str_app_empty_r (records_url base app table)) in Heq at 1.
  apply (inj (String.app _)) in Heq. discriminate Heq.
Qed.

Lemma record_not_token (s : Service) (j : nat) :
  record_url s j <> token_url (base s).
Proof.
  unfold record_url, records_url, token_url. rewrite str_app_assoc.
  intros Heq. apply (inj (String.app _)) in Heq. discriminate Heq.
Qed.

Lemma record_not_search (s : Service) (j : nat) :
  record_url s j <> records_url (base s) (app s) (table s) +:+ "/search".
Proof.
  unfold record_url, record_id. intros Heq.
  apply (inj (String.app _)) in Heq. discriminate Heq.
Qed.

Lemma record_not_records (s : Service) (j : nat) :
  record_url s j <> records_url (base s) (app s) (table s).
Proof.
  unfold record_url. intros Heq.
  rewrite <- (str_app_empty_r (records_url _ _ _)) in Heq at 2.
  apply (inj (String.app _)) in Heq. discriminate Heq.
Qed.

End Table.

Section Rerecord.
Import Py Feishu Bitable.
Context `{Builtins}.

Lemma serve_search (s : Service) (hdrs : list (string * string))
    (issue_id : pyval) (field_name : string) :
  serve {| method := "POST";
           url := records_url (base s) (app s) (table s) +:+ "/search";
           headers := hdrs;
           payload := search_payload issue_id field_name |} s
  = (success
       (PDict [("items",
                PList (map item
                         (take 1 (search field_name (str issue_id) (rows s)))));
               ("total",
                PInt (Z.of_nat
                        (length (search field_name (str issue_id) (rows s)))))]),
     s).
Proof.
  unfold serve. cbn [url payload method].
  rewrite bool_decide_eq_false_2 by apply search_not_token.
  rewrite bool_decide_eq_true_2 by reflexivity. reflexivity.
Qed.

Lemma serve_create (s : Service) (hdrs : list (string * string))
    (fields : list (string * pyval)) :
  serve {| method := "POST";
           url := records_url (base s) (app s) (table s);
           headers := hdrs;
           payload := PDict [("fields", PDict fields)] |} s
  = (success (PDict [("record", item (length (rows s), fields))]),
     with_rows s (rows s ++ [fields])).
Proof.
  unfold serve. cbn [url payload method].
  rewrite bool_decide_eq_false_2 by apply records_not_token.
  rewrite bool_decide_eq_false_2 by apply records_not_search.
  rewrite bool_decide_eq_true_2 by reflexivity. reflexivity.
Qed.

Lemma serve_update (s : Service) (hdrs : list (string * string))
    (fields : list (string * pyval)) (j : nat) :
  (j < length (rows s))%nat ->
  serve {| method := "PUT";
           url := record_url s j;
           headers := hdrs;
           payload := PDict [("fields", PDict fields)] |} s
  = (success (PDict [("record",
                      item (j, merge fields (default [] (rows s !! j))))]),
     with_rows s (alter (merge fields) j (rows s))).
Proof.
  intros Hj. unfold serve. cbn [url payload method].
  rewrite bool_decide_eq_false_2 by apply record_not_token.
  rewrite bool_decide_eq_false_2 by apply record_not_search.
  rewrite bool_decide_eq_false_2 by apply record_not_records.
  rewrite (index_of_record s j Hj). reflexivity.
Qed.

Lemma check_code_success (what : string) (data : pyval) :
  check_code what
    (PDict [("code", PInt 0); ("msg", PStr "success"); ("data", data)])
  = Ok tt.
Proof. reflexivity. Qed.

Lemma get_data (data dflt : pyval) :
  get (PDict [("code", PInt 0); ("msg", PStr "success"); ("data", data)])
    "data" dflt
  = Ok data.
Proof. reflexivity. Qed.

Lemma get_items (items total dflt : pyval) :
  get (PDict [("items", items); ("total", total)]) "items" dflt = Ok items.
Proof. reflexivity. Qed.

Lemma get_record_id (ir : nat * list (string * pyval)) (dflt : pyval) :
  get (item ir) "record_id" dflt = Ok (PStr (record_id ir.1)).
Proof. reflexivity. Qed.

Lemma truthy_record_id (j : nat) : truthy (PStr (record_id j)) = true.
Proof. reflexivity. Qed.

(** What the search of the script finds in the table: the id of the first
    record that meets the condition. *)
Lemma search_run (s : Service) (w : World Service) (token issue_id : pyval)
    (field_name : string) :
  remote w = s ->
  exists request reply,
    _bitable_search serve (base s) token (app s) (table s) issue_id
      field_name w
    = (Ok match search field_name (str issue_id) (rows s) with
          | [] => PNone
          | (j, _) :: _ => PStr (record_id j)
          end,
       {| environ := environ w; files := files w; remote := s;
          wire := wire w ++ [(request, reply)] |}).
Proof.
  intros Hs. unfold _bitable_search, bind, _request_json.
  rewrite Hs, serve_search. unfold success, lift.
  rewrite check_code_success, get_data, get_items.
  destruct (search field_name (str issue_id) (rows s)) as [|[j r] rest].
  - eexists _, _. reflexivity.
  - cbn [take map truthy negb first_item]. rewrite get_record_id.
    eexists _, _. reflexivity.
Qed.

(** One run of the upsert against the table: two exchanges, the second an
    update of the first record the search reports, or a creation when it
    reports none. *)
Lemma upsert_run (s : Service) (w : World Service) (token issue_id : pyval)
    (field_name : string) (fields : list (string * pyval)) :
  remote w = s ->
  exists rq1 rp1 rq2 rp2,
    _bitable_upsert serve (base s) token (app s) (table s) issue_id
      field_name fields w
    = (Ok tt,
       {| environ := environ w; files := files w;
          remote :=
            with_rows s
              match search field_name (str issue_id) (rows s) with
              | [] => rows s ++ [fields]
              | (j, _) :: _ => alter (merge fields) j (rows s)
              end;
          wire := wire w ++ [(rq1, rp1); (rq2, rp2)] |})
    /\ method rq2 = match search field_name (str issue_id) (rows s) with
                    | [] => "POST"
                    | _ :: _ => "PUT"
                    end
    /\ url rq2 = match search field_name (str issue_id) (rows s) with
                 | [] => records_url (base s) (app s) (table s)
                 | (j, _) :: _ => record_url s j
                 end.
Proof.
  intros Hs.
  destruct (search_run s w token issue_id field_name Hs)
    as (rq1 & rp1 & Hsearch).
  exists rq1, rp1. unfold _bitable_upsert, bind at 1. rewrite Hsearch.
  unfold bind, _request_json. cbn [remote].
  destruct (search field_name (str issue_id) (rows s))
    as [|[j r] rest] eqn:Hfound.
  - cbn [truthy fst snd]. rewrite serve_create. unfold success, lift.
    rewrite check_code_success. cbn [environ files remote wire].
    rewrite <- (assoc_L (++)). eexists _, _. repeat split; reflexivity.
  - rewrite truthy_record_id. cbn [fst snd str].
    destruct (search_from_head _ _ _ _ _ _ _ Hfound) as (_ & Hlook & _).
    rewrite Nat.sub_0_r in Hlook. apply lookup_lt_Some in Hlook.
    change (records_url (base s) (app s) (table s) +:+ "/" +:+ record_id j)
      with (record_url s j).
    rewrite (serve_update s _ _ j Hlook). unfold success, lift.
    rewrite check_code_success. cbn [environ files remote wire].
    rewrite <- (assoc_L (++)). eexists _, _. repeat split; reflexivity.
Qed.

(** The table after one run holds a record for the id, and no more of them
    than before unless there was none. *)
Lemma count_after_upsert (s : Service) (field value : string)
    (fields : list (string * pyval)) :
  dict_get field fields = Some (PStr value) ->
  count_for field value
    (with_rows s
       match search field value (rows s) with
       | [] => rows s ++ [fields]
       | (j, _) :: _ => alter (merge fields) j (rows s)
       end)
  = Nat.max 1 (count_for field value s).
Proof.
  intros Hfield. unfold count_for, search. cbn [rows with_rows].
  destruct (search_from 0 field value (rows s)) as [|[j r] rest] eqn:Hfound.
  - rewrite count_app, Hfound, (matches_fields _ _ _ Hfield). reflexivity.
  - destruct (search_from_head _ _ _ _ _ _ _ Hfound) as (_ & Hlook & Hmatch).
    rewrite Nat.sub_0_r in Hlook.
    rewrite (count_alter _ _ _ _ _ _ _ Hlook Hmatch)
      by (now apply matches_merge).
    rewrite Hfound. cbn [length]. lia.
Qed.

(** C1: two runs of the upsert in sequence for the same issue id, against a
    table that holds at most one record for it, where the fields written
    carry the id under the searched field (so that the search reports the
    record the first run left): both runs succeed, the table then holds
    exactly one record for the id, and the second run has added none: its
    write is a PUT on the existing record. *)
Theorem rerun_one_record (s : Service) (w1 w2 : World Service)
    (token1 token2 issue_id : pyval) (field_name : string)
    (fields1 fields2 : list (string * pyval)) :
  remote w1 = s ->
  (count_for field_name (str issue_id) s <= 1)%nat ->
  dict_get field_name fields1 = Some (PStr (str issue_id)) ->
  dict_get field_name fields2 = Some (PStr (str issue_id)) ->
  let run1 :=
    _bitable_upsert serve (base s) token1 (app s) (table s) issue_id
      field_name fields1 w1 in
  remote w2 = remote run1.2 ->
  let run2 :=
    _bitable_upsert serve (base s) token2 (app s) (table s) issue_id
      field_name fields2 w2 in
  run1.1 = Ok tt
  /\ run2.1 = Ok tt
  /\ count_for field_name (str issue_id) (remote run1.2) = 1%nat
  /\ count_for field_name (str issue_id) (remote run2.2) = 1%nat
  /\ length (rows (remote run2.2)) = length (rows (remote run1.2))
  /\ exists request reply,
       last (wire run2.2) = Some (request, reply) /\ method request = "PUT".
Proof.
  intros Hs Hcount Hf1 Hf2 run1 Hw2 run2.
  destruct (upsert_run s w1 token1 issue_id field_name fields1 Hs)
    as (rq1 & rp1 & rq2 & rp2 & Hrun1 & _ & _).
  fold run1 in Hrun1.
  set (s1 := remote run1.2) in *.
  assert (Hs1 : s1 = with_rows s
                       match search field_name (str issue_id) (rows s) with
                       | [] => rows s ++ [fields1]
                       | (j, _) :: _ => alter (merge fields1) j (rows s)
                       end)
    by (subst s1; now rewrite Hrun1).
  assert (Hcount1 : count_for field_name (str issue_id) s1 = 1%nat)
    by (rewrite Hs1, (count_after_upsert _ _ _ _ Hf1); lia).
  destruct (upsert_run s1 w2 token2 issue_id field_name fields2 Hw2)
    as (rq3 & rp3 & rq4 & rp4 & Hrun2 & Hmethod & _).
  replace (base s1) with (base s) in Hrun2 by now rewrite Hs1.
  replace (app s1) with (app s) in Hrun2 by now rewrite Hs1.
  replace (table s1) with (table s) in Hrun2 by now rewrite Hs1.
  fold run2 in Hrun2.
  split; [now rewrite Hrun1 |]. split; [now rewrite Hrun2 |].
  split; [exact Hcount1 |]. rewrite Hrun2. cbn [snd remote wire].
  split; [rewrite (count_after_upsert _ _ _ _ Hf2); lia |].
  unfold count_for in Hcount1.
  destruct (search field_name (str issue_id) (rows s1)) as [|[j r] rest];
    [discriminate |].
  split; [cbn [rows with_rows]; apply length_alter |].
  exists rq4, rp4. rewrite last_app. now split.
Qed.

(** The fields [main] builds carry the issue id under the configured field
    name, unless that name is the name of one of the other columns, which
    then overwrites it. *)
Lemma build_fields_issue_id (f : string) (issue action id : pyval)
    (fields : list (string * pyval)) :
  build_fields f issue action = Ok fields ->
  get issue "id" PNone = Ok id ->
  f ∉ ["Issue Number"; "Title"; "State"; "URL"; "User"; "Labels"; "Assignees";
       "Action"; "Created At"; "Updated At"; "Closed At"; "Body"] ->
  dict_get f fields = Some (PStr (str id)).
Proof.
  unfold build_fields. intros Hb Hid Hother. rinv Hb. injection Hb as <-.
  injection Hid as <-.
  unfold dict_of. cbn [fold_left fst snd].
  rewrite !dict_get_set_ne
    by (intros <-; apply Hother; repeat constructor).
  apply dict_get_set_eq.
Qed.

End Rerecord.


(** ** The upsert as [main] reaches it *)

Section Deliveries.
Import Py Feishu Bitable.
Context `{Builtins}.

Lemma token_run (s : Service) (w : World Service) (app_id app_secret : string) :
  remote w = s ->
  exists request reply,
    _get_tenant_token serve (base s) app_id app_secret w
    = (Ok (PStr "t-tenant"),
       {| environ := environ w; files := files w; remote := s;
          wire := wire w ++ [(request, reply)] |}).
Proof.
  intros Hs. unfold _get_tenant_token, bind, _request_json, lift.
  rewrite Hs. unfold serve at 1. cbn [url method].
  rewrite !bool_decide_eq_true_2 by reflexivity.
  eexists _, _. reflexivity.
Qed.

(** A delivery whose configuration points at the table and whose event
    yields the fields: [main] is the upsert of those fields, after the token
    exchange. *)
Lemma main_is_upsert (s : Service) (w : World Service) (cfg : Config)
    (members : list (string * pyval)) (issue id : pyval)
    (fields : list (string * pyval)) :
  remote w = s ->
  read_config (environ w) = Ok cfg ->
  upsert cfg = true ->
  base_url cfg = base s -> app_token cfg = app s -> table_id cfg = table s ->
  files w !! event_path cfg = Some (Json (PDict members)) ->
  dict_get "issue" members = Some issue ->
  get issue "id" PNone = Ok id ->
  build_fields (issue_id_field cfg) issue
    (default (PStr "unknown") (dict_get "action" members)) = Ok fields ->
  exists w',
    remote w' = s
    /\ main serve w
       = _bitable_upsert serve (base s) (PStr "t-tenant") (app s) (table s) id
           (issue_id_field cfg) fields w'.
Proof.
  intros Hs Hcfg Hupsert Hbase Happ Htable Hfile Hissue Hid Hfields.
  destruct (token_run s w (app_id cfg) (app_secret cfg) Hs)
    as (request & reply & Htoken).
  eexists. split; [| unfold main, bind, _load_event, lift].
  2:{ rewrite Hcfg, Hfile. cbn [contains subscript get]. rewrite Hissue.
      rewrite bool_decide_eq_true_2 by eauto. cbn [negb].
      rewrite Hfields, Hbase, Htoken, Hupsert, Hid, Happ, Htable.
      reflexivity. }
  reflexivity.
Qed.

End Deliveries.

(** ** A variable set to the empty string *)

Section EmptyAbsent.
Import Py.
Context `{Builtins}.

Lemma feishu_env_other (env : gmap string string) (name n : string)
    (v : string) :
  name <> n ->
  Feishu._env (<[name := v]> env) n None = Feishu._env env n None
  /\ Feishu._env (delete name env) n None = Feishu._env env n None.
Proof.
  intros Hne. unfold Feishu._env, Feishu.getenv.
  now rewrite lookup_insert_ne, lookup_delete_ne.
Qed.

Lemma feishu_getenv_other (env : gmap string string) (name n : string)
    (v : string) (dflt : option string) :
  name <> n ->
  Feishu.getenv (<[name := v]> env) n dflt = Feishu.getenv env n dflt
  /\ Feishu.getenv (delete name env) n dflt = Feishu.getenv env n dflt.
Proof.
  intros Hne. unfold Feishu.getenv.
  now rewrite lookup_insert_ne, lookup_delete_ne.
Qed.

Lemma mysql_env_other (env : gmap string string) (name n : string)
    (v : string) :
  name <> n ->
  MySQL._env (<[name := v]> env) n None = MySQL._env env n None
  /\ MySQL._env (delete name env) n None = MySQL._env env n None.
Proof.
  intros Hne. unfold MySQL._env, MySQL.getenv.
  now rewrite lookup_insert_ne, lookup_delete_ne.
Qed.

Lemma mysql_getenv_other (env : gmap string string) (name n : string)
    (v : string) (dflt : option string) :
  name <> n ->
  MySQL.getenv (<[name := v]> env) n dflt = MySQL.getenv env n dflt
  /\ MySQL.getenv (delete name env) n dflt = MySQL.getenv env n dflt.
Proof.
  intros Hne. unfold MySQL.getenv.
  now rewrite lookup_insert_ne, lookup_delete_ne.
Qed.

Ltac other_env :=
  repeat match goal with
    | |- context [Feishu._env (<[?name := ?v]> ?env) ?n None] =>
        rewrite (proj1 (feishu_env_other env name n v ltac:(discriminate)))
    | |- context [Feishu._env (delete ?name ?env) ?n None] =>
        rewrite (proj2 (feishu_env_other env name n "" ltac:(discriminate)))
    | |- context [Feishu.getenv (<[?name := ?v]> ?env) ?n ?d] =>
        rewrite (proj1 (feishu_getenv_other env name n v d ltac:(discriminate)))
    | |- context [Feishu.getenv (delete ?name ?env) ?n ?d] =>
        rewrite (proj2 (feishu_getenv_other env name n "" d
                          ltac:(discriminate)))
    | |- context [MySQL._env (<[?name := ?v]> ?env) ?n None] =>
        rewrite (proj1 (mysql_env_other env name n v ltac:(discriminate)))
    | |- context [MySQL._env (delete ?name ?env) ?n None] =>
        rewrite (proj2 (mysql_env_other env name n "" ltac:(discriminate)))
    | |- context [MySQL.getenv (<[?name := ?v]> ?env) ?n ?d] =>
        rewrite (proj1 (mysql_getenv_other env name n v d ltac:(discriminate)))
    | |- context [MySQL.getenv (delete ?name ?env) ?n ?d] =>
        rewrite (proj2 (mysql_getenv_other env name n "" d
                          ltac:(discriminate)))
    end.

Lemma feishu_read_config_empty (env : gmap string string) (name : string) :
  name ∈ Feishu.required_env ->
  Feishu.read_config (<[name := ""]> env)
  = Feishu.read_config (delete name env).
Proof.
  intros Hin. unfold Feishu.required_env in Hin.
  repeat (apply elem_of_cons in Hin as [-> | Hin]);
    try (now apply elem_of_nil in Hin);
    unfold Feishu.read_config; other_env;
    rewrite (feishu_env_missing (<[_ := ""]> env) _)
      by (right; apply lookup_insert_eq);
    rewrite (feishu_env_missing (delete _ env) _)
      by (left; apply lookup_delete_eq);
    reflexivity.
Qed.

Lemma feishu_main_empty {Srv : Type}
    (serve : Feishu.Request -> Srv -> Feishu.Reply * Srv)
    (w1 w2 : Feishu.World Srv) (env : gmap string string) (name : string) :
  name ∈ Feishu.required_env ->
  Feishu.environ w1 = <[name := ""]> env ->
  Feishu.environ w2 = delete name env ->
  (Feishu.main serve w1).1 = (Feishu.main serve w2).1.
Proof.
  intros Hin He1 He2. unfold Feishu.main, bind.
  rewrite He1, He2, (feishu_read_config_empty env name Hin).
  destruct (read_config_cases (delete name env))
    as [(cfg & _ & _ & Hall)|(first & _ & _ & ->)]; [| reflexivity].
  destruct (Hall name Hin) as (v & Hv & _).
  rewrite lookup_delete_eq in Hv. discriminate.
Qed.

Lemma main_before_connect (w : MySQL.World datetime) :
  MySQL.main w
  = match Columns.before_connect (MySQL.environ w) (MySQL.files w) with
    | Ok (x, (host, port, user, password, database)) =>
        bind (MySQL.connect host port user password database)
          (fun _ =>
             try_finally
               (bind MySQL.cursor (fun _ =>
                bind MySQL._ensure_schema (fun _ =>
                bind (lift (MySQL.insert_params x)) (fun p =>
                bind (MySQL.execute_upsert p) (fun _ => MySQL.commit)))))
               MySQL.close) w
    | SystemExit msg => (SystemExit msg, w)
    | Raise e => (Raise e, w)
    end.
Proof.
  unfold MySQL.main, Columns.before_connect, MySQL._connect_mysql,
    MySQL._load_event.
  unfold bind, lift.
  destruct (MySQL._env (MySQL.environ w) "GITHUB_EVENT_PATH" None)
    as [path| |]; [| reflexivity | reflexivity].
  cbn [rbind]. destruct (MySQL.files w !! path) as [[|event]|];
    [reflexivity | | reflexivity].
  cbn [rbind]. destruct (MySQL.extract event) as [x| |];
    [| reflexivity | reflexivity].
  cbn [rbind]. destruct (MySQL._env (MySQL.environ w) "MYSQL_HOST" None)
    as [host| |]; [| reflexivity | reflexivity].
  cbn [rbind]. destruct (int_of_str _) as [port|]; [| reflexivity].
  cbn [rbind]. destruct (MySQL._env (MySQL.environ w) "MYSQL_USER" None)
    as [user| |]; [| reflexivity | reflexivity].
  cbn [rbind]. destruct (MySQL._env (MySQL.environ w) "MYSQL_PASSWORD" None)
    as [password| |]; [| reflexivity | reflexivity].
  cbn [rbind]. destruct (MySQL._env (MySQL.environ w) "MYSQL_DATABASE" None)
    as [database| |]; reflexivity.
Qed.

Lemma before_connect_empty (env : gmap string string)
    (files : gmap string file) (name : string) :
  name ∈ MySQL.required_env ->
  Columns.before_connect (<[name := ""]> env) files
  = Columns.before_connect (delete name env) files
  /\ is_ok (Columns.before_connect (delete name env) files) = false.
Proof.
  intros Hin. unfold MySQL.required_env in Hin.
  repeat (apply elem_of_cons in Hin as [-> | Hin]);
    try (now apply elem_of_nil in Hin);
    unfold Columns.before_connect; other_env;
    rewrite (mysql_env_missing (<[_ := ""]> env) _)
      by (right; apply lookup_insert_eq);
    rewrite (mysql_env_missing (delete _ env) _)
      by (left; apply lookup_delete_eq);
    (split; [reflexivity |]);
    repeat first
      [ reflexivity
      | progress cbn [rbind is_ok]
      | match goal with
        | |- is_ok (rbind ?r _) = false => destruct r
        end ].
Qed.

Lemma mysql_main_empty (w1 w2 : MySQL.World datetime)
    (env : gmap string string) (name : string) :
  name ∈ MySQL.required_env ->
  MySQL.environ w1 = <[name := ""]> env ->
  MySQL.environ w2 = delete name env ->
  MySQL.files w1 = MySQL.files w2 ->
  (MySQL.main w1).1 = (MySQL.main w2).1.
Proof.
  intros Hin He1 He2 Hf. rewrite !main_before_connect, He1, He2, Hf.
  destruct (before_connect_empty env (MySQL.files w2) name Hin) as [-> Hbad].
  destruct (Columns.before_connect (delete name env) (MySQL.files w2));
    [discriminate Hbad | reflexivity | reflexivity].
Qed.

(** C10, as the code has it: for every variable read through [_env], which
    both scripts call without a default, a variable set to the empty string
    is treated exactly like an absent one: either way the lookup ends the
    process with the same "Missing required env var" message, a value [_env]
    returns is never the empty string, and for each of the required
    variables the run of the script ends the same way whether the variable
    is empty or absent.  The optional variables are read with [os.getenv]
    and are not part of the statement. *)
Theorem env_empty_like_absent (env : gmap string string) (name : string) :
  Feishu._env (<[name := ""]> env) name None
  = SystemExit ("Missing required env var: " +:+ name)
  /\ Feishu._env (delete name env) name None
     = SystemExit ("Missing required env var: " +:+ name)
  /\ MySQL._env (<[name := ""]> env) name None
     = SystemExit ("Missing required env var: " +:+ name)
  /\ MySQL._env (delete name env) name None
     = SystemExit ("Missing required env var: " +:+ name)
  /\ (forall dflt v, Feishu._env env name dflt = Ok v -> v <> "")
  /\ (forall dflt v, MySQL._env env name dflt = Ok v -> v <> "")
  /\ (name ∈ Feishu.required_env ->
      forall (Srv : Type) (serve : Feishu.Request -> Srv -> Feishu.Reply * Srv)
             (w1 w2 : Feishu.World Srv),
        Feishu.environ w1 = <[name := ""]> env ->
        Feishu.environ w2 = delete name env ->
        (Feishu.main serve w1).1 = (Feishu.main serve w2).1)
  /\ (name ∈ MySQL.required_env ->
      forall w1 w2 : MySQL.World datetime,
        MySQL.environ w1 = <[name := ""]> env ->
        MySQL.environ w2 = delete name env ->
        MySQL.files w1 = MySQL.files w2 ->
        (MySQL.main w1).1 = (MySQL.main w2).1).
Proof.
  split; [apply feishu_env_missing; right; apply lookup_insert_eq |].
  split; [apply feishu_env_missing; left; apply lookup_delete_eq |].
  split; [apply mysql_env_missing; right; apply lookup_insert_eq |].
  split; [apply mysql_env_missing; left; apply lookup_delete_eq |].
  split; [intros dflt v; apply feishu_env_nonempty |].
  split; [intros dflt v; apply mysql_env_nonempty |].
  split.
  - intros Hin Srv serve w1 w2. now apply feishu_main_empty.
  - intros Hin w1 w2. now apply mysql_main_empty.
Qed.

End EmptyAbsent.

(** ** The properties on the sample inputs *)

Section Witnesses.
Import Py.

Lemma rerun_one_record_witness :
  let run1 :=
    @Feishu._bitable_upsert Reference.builtins _ Bitable.serve
      "https://open.feishu.cn" (PStr "t-tenant") "bascn1" "tbl1" (PInt 42)
      "Issue ID" Sample.tagged_fields
      (Sample.feishu_world Sample.feishu_env PNone Sample.empty_table) in
  let run2 :=
    @Feishu._bitable_upsert Reference.builtins _ Bitable.serve
      "https://open.feishu.cn" (PStr "t-tenant") "bascn1" "tbl1" (PInt 42)
      "Issue ID" Sample.edited_fields run1.2 in
  run1.1 = Ok tt
  /\ run2.1 = Ok tt
  /\ Bitable.count_for "Issue ID" "42" (Feishu.remote run1.2) = 1%nat
  /\ Bitable.count_for "Issue ID" "42" (Feishu.remote run2.2) = 1%nat
  /\ length (Bitable.rows (Feishu.remote run2.2))
     = length (Bitable.rows (Feishu.remote run1.2))
  /\ exists request reply,
       last (Feishu.wire run2.2) = Some (request, reply)
       /\ Feishu.method request = "PUT".
Proof.
  refine (@rerun_one_record Reference.builtins Sample.empty_table
            (Sample.feishu_world Sample.feishu_env PNone Sample.empty_table)
            _ (PStr "t-tenant") (PStr "t-tenant") (PInt 42) "Issue ID"
            Sample.tagged_fields Sample.edited_fields
            eq_refl _ _ _ eq_refl).
  - vm_compute. lia.
  - vm_compute. reflexivity.
  - vm_compute. reflexivity.
Defined.

(** Through [main]: the first delivery creates the record, the second one
    updates it. *)
Example two_deliveries_one_record :
  Sample.first_delivery.1 = Ok tt
  /\ Sample.second_delivery.1 = Ok tt
  /\ map (fun x => Feishu.method x.1) (Feishu.wire Sample.first_delivery.2)
     = ["POST"; "POST"; "POST"]
  /\ map (fun x => Feishu.method x.1) (Feishu.wire Sample.second_delivery.2)
     = ["POST"; "POST"; "PUT"]
  /\ (dict_get "Title"
        <$> Bitable.rows (Feishu.remote Sample.second_delivery.2))
     = [Some (PStr "Crash on start (Windows)")].
Proof. vm_compute. repeat split. Qed.

Lemma rerun_one_row_witness :
  exists row,
    MySQL.github_issues (@MySQL.main Reference.builtins Sample.second_insert).2
    = <[42 := row]>
        (MySQL.github_issues
           (@MySQL.main Reference.builtins Sample.first_insert).2)
    /\ is_Some
         (MySQL.github_issues
            (@MySQL.main Reference.builtins Sample.first_insert).2 !! 42)
    /\ MySQL.github_issues
         (@MySQL.main Reference.builtins Sample.second_insert).2 !! 42
       = Some row
    /\ size (MySQL.github_issues
               (@MySQL.main Reference.builtins Sample.second_insert).2)
       = size (MySQL.github_issues
                 (@MySQL.main Reference.builtins Sample.first_insert).2)
    /\ MySQL.event_received_at row = 1714636800
    /\ @Columns.reflects Reference.builtins
         (Sample.event "edited" Sample.edited_issue) row.
Proof.
  refine (@rerun_one_row Reference.builtins Sample.first_insert
            Sample.second_insert 42
            (Sample.event "opened" Sample.tagged_issue)
            (Sample.event "edited" Sample.edited_issue)
            Sample.tagged_issue Sample.edited_issue
            _ _ _ _ _ _ _ eq_refl _);
    vm_compute; reflexivity.
Defined.

(** The row of issue 42 after the second run, as it computes. *)
Example second_insert_row :
  let row :=
    MySQL.github_issues (@MySQL.main Reference.builtins Sample.second_insert).2
      !! 42 in
  MySQL.title <$> row = Some (MySQL.SqlStr "Crash on start (Windows)")
  /\ MySQL.created_at <$> row
     = Some (MySQL.SqlTime
               {| Reference.year := 2024; Reference.month := 5;
                  Reference.day := 1; Reference.hour := 12;
                  Reference.minute := 30; Reference.second := 0;
                  Reference.utcoffset := Some 0 |})
  /\ MySQL.updated_at <$> row
     = Some (MySQL.SqlTime
               {| Reference.year := 2024; Reference.month := 5;
                  Reference.day := 2; Reference.hour := 8;
                  Reference.minute := 0; Reference.second := 0;
                  Reference.utcoffset := Some 0 |})
  /\ MySQL.closed_at <$> row = Some MySQL.SqlNull
  /\ MySQL.labels <$> row
     = Some (MySQL.SqlStr (Reference.json_dumps (PList [PStr "bug"])))
  /\ MySQL.assignees <$> row = Some (MySQL.SqlStr "[]")
  /\ MySQL.event_action <$> row = Some (MySQL.SqlStr "edited")
  /\ MySQL.event_received_at <$> row = Some 1714636800.
Proof. vm_compute. repeat split. Qed.

Lemma remote_failure_is_fatal_witness :
  length (Feishu.wire Sample.refused_delivery.2) = 2%nat
  /\ exit_status Sample.refused_delivery.1 <> 0
  /\ exists msg,
       Sample.refused_delivery.1 = SystemExit msg
       /\ @Wire.reported Reference.builtins
            (Feishu.Body
               (Some (PDict [("code", PInt 1254302); ("msg", PStr "denied")])))
            msg.
Proof.
  destruct (@remote_failure_is_fatal Reference.builtins _ Sample.refusing
              (Sample.feishu_world Sample.feishu_env
                 (Sample.event "opened" Sample.tagged_issue) tt))
    as (new & Hwire & Hnew).
  change (Feishu.main Sample.refusing _) with Sample.refused_delivery in *.
  assert (Hlog : exists rq, new = [rq; (Feishu.Build_Request "POST"
             "https://open.feishu.cn/open-apis/bitable/v1/apps/bascn1/tables/tbl1/records/search"
             (@Feishu.bearer_headers Reference.builtins (PStr "t-1"))
             (@Feishu.search_payload Reference.builtins (PInt 42) "Issue ID"),
           Feishu.Body
             (Some (PDict [("code", PInt 1254302); ("msg", PStr "denied")])))]).
  { eexists. symmetry. exact Hwire. }
  destruct Hlog as (rq & ->).
  destruct (Hnew 1%nat _ _ eq_refl eq_refl) as (Hlen & Hstatus & Hmsg).
  split; [rewrite Hwire; exact Hlen |]. split; [exact Hstatus | exact Hmsg].
Defined.

(** The run against the refusing service, as it computes. *)
Example refused_delivery_run :
  Sample.refused_delivery.1
  = SystemExit
      "Failed to search bitable records: {'code': 1254302, 'msg': 'denied'}"
  /\ map (fun x => Feishu.url x.1) (Feishu.wire Sample.refused_delivery.2)
     = ["https://open.feishu.cn/open-apis/auth/v3/tenant_access_token/internal";
        "https://open.feishu.cn/open-apis/bitable/v1/apps/bascn1/tables/tbl1/records/search"].
Proof. vm_compute. split; reflexivity. Qed.

Lemma commit_only_after_success_witness :
  exists new,
    MySQL.calls (@MySQL.main Reference.builtins Sample.first_insert).2
    = [] ++ new
    /\ (MySQL.Commit, true) ∈ new
    /\ last new = Some (MySQL.Close, true)
    /\ MySQL.session (@MySQL.main Reference.builtins Sample.first_insert).2
       = None.
Proof.
  destruct (@commit_only_after_success Reference.builtins Sample.first_insert)
    as (new & Hcalls & _ & _ & Hok & Hclosed & _).
  exists new. split; [exact Hcalls |].
  split; [apply Hok; vm_compute; reflexivity |].
  apply Hclosed. exists "db.internal", 3306, "sync", "s3cret", "github".
  assert (Hnew : exists rest,
             new = (MySQL.Connect "db.internal" 3306 "sync" "s3cret" "github",
                    true) :: rest)
    by (eexists; symmetry; exact Hcalls).
  destruct Hnew as (rest & ->). apply list_elem_of_here.
Defined.

(** A server that rejects the INSERT: no commit, the table as it was, the
    connection closed. *)
Example rejected_insert_run :
  let w :=
    {| MySQL.environ := Sample.mysql_env;
       MySQL.files := MySQL.files Sample.first_insert;
       MySQL.server :=
         {| MySQL.admits := fun _ _ _ _ _ => true; MySQL.cursor_ok := true;
            MySQL.ddl_ok := true; MySQL.accepts := fun _ _ => false;
            MySQL.commit_ok := true |};
       MySQL.now := 0;
       MySQL.github_issues := ∅;
       MySQL.session := None;
       MySQL.calls := [] |} in
  (@MySQL.main Reference.builtins w).1 = Raise DatabaseError
  /\ MySQL.github_issues (@MySQL.main Reference.builtins w).2 = ∅
  /\ MySQL.session (@MySQL.main Reference.builtins w).2 = None
  /\ map snd (MySQL.calls (@MySQL.main Reference.builtins w).2)
     = [true; true; true; false; true].
Proof. vm_compute. repeat split. Qed.

Lemma missing_issue_is_fatal_witness :
  (exists msg,
     @Feishu.main Reference.builtins _ Bitable.serve
       (Sample.feishu_world Sample.feishu_env
          (PDict [("action", PStr "ping")]) Sample.empty_table)
     = (SystemExit msg,
        Sample.feishu_world Sample.feishu_env
          (PDict [("action", PStr "ping")]) Sample.empty_table)
     /\ exit_status (@SystemExit unit msg) <> 0
     /\ (is_ok (Feishu.read_config Sample.feishu_env) = true ->
         msg = "Event payload missing 'issue'"))
  /\ @MySQL.main Reference.builtins
       (Sample.mysql_world Sample.mysql_env (PDict [("action", PStr "ping")])
          0 ∅)
     = (SystemExit "Event payload missing 'issue'",
        Sample.mysql_world Sample.mysql_env (PDict [("action", PStr "ping")])
          0 ∅).
Proof.
  split.
  - exact (proj1 (@missing_issue_is_fatal Reference.builtins) _ Bitable.serve
             (Sample.feishu_world Sample.feishu_env
                (PDict [("action", PStr "ping")]) Sample.empty_table)
             "/github/workflow/event.json" [("action", PStr "ping")]
             eq_refl eq_refl eq_refl).
  - exact (proj1 (proj2 (@missing_issue_is_fatal Reference.builtins)
                    (Sample.mysql_world Sample.mysql_env
                       (PDict [("action", PStr "ping")]) 0 ∅)
                    "/github/workflow/event.json" [("action", PStr "ping")]
                    eq_refl eq_refl eq_refl)).
Defined.

Lemma missing_env_var_is_fatal_witness :
  (exists first,
     first ∈ Feishu.required_env
     /\ (delete "FEISHU_APP_SECRET" Sample.feishu_env !! first = None
         \/ delete "FEISHU_APP_SECRET" Sample.feishu_env !! first = Some "")
     /\ @Feishu.main Reference.builtins _ Bitable.serve
          (Sample.feishu_world (delete "FEISHU_APP_SECRET" Sample.feishu_env)
             (Sample.event "opened" Sample.tagged_issue) Sample.empty_table)
        = (SystemExit ("Missing required env var: " +:+ first),
           Sample.feishu_world (delete "FEISHU_APP_SECRET" Sample.feishu_env)
             (Sample.event "opened" Sample.tagged_issue) Sample.empty_table))
  /\ exists r,
       @MySQL.main Reference.builtins
         (Sample.mysql_world (delete "MYSQL_PASSWORD" Sample.mysql_env)
            (Sample.event "opened" Sample.tagged_issue) 0 ∅)
       = (r, Sample.mysql_world (delete "MYSQL_PASSWORD" Sample.mysql_env)
               (Sample.event "opened" Sample.tagged_issue) 0 ∅)
       /\ exit_status r <> 0
       /\ r = SystemExit "Missing required env var: MYSQL_PASSWORD".
Proof.
  split.
  - refine (proj1 (@missing_env_var_is_fatal Reference.builtins) _
              Bitable.serve
              (Sample.feishu_world
                 (delete "FEISHU_APP_SECRET" Sample.feishu_env)
                 (Sample.event "opened" Sample.tagged_issue)
                 Sample.empty_table)
              "FEISHU_APP_SECRET" _ _).
    + unfold Feishu.required_env. in_list.
    + vm_compute. reflexivity.
  - destruct (proj2 (@missing_env_var_is_fatal Reference.builtins)
                (Sample.mysql_world (delete "MYSQL_PASSWORD" Sample.mysql_env)
                   (Sample.event "opened" Sample.tagged_issue) 0 ∅)
                "MYSQL_PASSWORD")
      as (r & Hmain & Hstatus & _).
    + unfold MySQL.required_env. in_list.
    + vm_compute. reflexivity.
    + exists r. split; [exact Hmain |]. split; [exact Hstatus |].
      assert (Hrun : (@MySQL.main Reference.builtins
                        (Sample.mysql_world
                           (delete "MYSQL_PASSWORD" Sample.mysql_env)
                           (Sample.event "opened" Sample.tagged_issue) 0 ∅)).1
                     = SystemExit "Missing required env var: MYSQL_PASSWORD")
        by (vm_compute; reflexivity).
      rewrite Hmain in Hrun. exact Hrun.
Defined.

(** The runs with a variable removed, as they compute. *)
Example missing_env_var_runs :
  (@Feishu.main Reference.builtins _ Bitable.serve
     (Sample.feishu_world (delete "FEISHU_APP_SECRET" Sample.feishu_env)
        (Sample.event "opened" Sample.tagged_issue) Sample.empty_table)).1
  = SystemExit "Missing required env var: FEISHU_APP_SECRET"
  /\ (@MySQL.main Reference.builtins
        (Sample.mysql_world (delete "MYSQL_PASSWORD" Sample.mysql_env)
           (Sample.event "opened" Sample.tagged_issue) 0 ∅)).1
     = SystemExit "Missing required env var: MYSQL_PASSWORD"
  /\ (@MySQL.main Reference.builtins
        (Sample.mysql_world (<["MYSQL_HOST" := ""]> Sample.mysql_env)
           (Sample.event "opened" Sample.tagged_issue) 0 ∅)).1
     = SystemExit "Missing required env var: MYSQL_HOST".
Proof. vm_compute. repeat split. Qed.

(** The optional variables do not go through [_env].  An empty
    FEISHU_FIELD_ISSUE_ID is taken as the name of the issue-id field and the
    record is written under it, where an absent one gives "Issue ID"; an
    empty MYSQL_PORT is a [ValueError] of [int], where an absent one gives
    3306 and the run ends well. *)
Lemma empty_optional_variable_is_used :
  let event := Sample.event "opened" Sample.tagged_issue in
  let feishu env :=
    @Feishu.main Reference.builtins _ Bitable.serve
      (Sample.feishu_world env event Sample.empty_table) in
  let mysql env :=
    @MySQL.main Reference.builtins (Sample.mysql_world env event 0 ∅) in
  (feishu (<["FEISHU_FIELD_ISSUE_ID" := ""]> Sample.feishu_env)).1 = Ok tt
  /\ (dict_get ""
        <$> Bitable.rows
              (Feishu.remote
                 (feishu (<["FEISHU_FIELD_ISSUE_ID" := ""]>
                            Sample.feishu_env)).2))
     = [Some (PStr "42")]
  /\ (dict_get "Issue ID"
        <$> Bitable.rows
              (Feishu.remote
                 (feishu (<["FEISHU_FIELD_ISSUE_ID" := ""]>
                            Sample.feishu_env)).2))
     = [None]
  /\ (dict_get "Issue ID"
        <$> Bitable.rows
              (Feishu.remote
                 (feishu (delete "FEISHU_FIELD_ISSUE_ID"
                            Sample.feishu_env)).2))
     = [Some (PStr "42")]
  /\ (mysql (<["MYSQL_PORT" := ""]> Sample.mysql_env)).1 = Raise ValueError
  /\ (mysql (delete "MYSQL_PORT" Sample.mysql_env)).1 = Ok tt.
Proof. vm_compute. repeat split. Qed.

End Witnesses.

(** * The rest of the scripts *)

(** ** Budgets of [_truncate] *)

Section Budget.
Import Py Feishu.

(** X1: for every budget of at least 3 characters [_truncate] returns a
    str that is as long as the shorter of the input and the budget, it is
    the input exactly when the input fits, and truncating it again changes
    nothing. *)
Theorem truncate_within_budget (s : string) (limit : Z) :
  3 <= limit ->
  exists t,
    _truncate (PStr s) limit = Ok (PStr t)
    /\ len t = Z.min (len s) limit
    /\ (t = s <-> len s <= limit)
    /\ _truncate (PStr t) limit = Ok (PStr t).
Proof.
  intros Hlimit. destruct (Z.leb_spec (len s) limit) as [Hle|Hlong].
  - assert (Hs : _truncate (PStr s) limit = Ok (PStr s)).
    { unfold _truncate.
      destruct (Z.leb_spec (len s) limit); [reflexivity | lia]. }
    exists s. split; [exact Hs |]. split; [lia |]. split; [tauto | exact Hs].
  - destruct (_truncate_long s limit Hlimit Hlong) as (t & Ht & Hlen & _).
    exists t. split; [exact Ht |]. split; [lia |]. split.
    + split; [intros ->; lia | lia].
    + unfold _truncate.
      destruct (Z.leb_spec (len t) limit); [reflexivity | lia].
Qed.


End Budget.

(** ** The configuration of the Feishu script *)

Section Configuration.
Import Py Feishu.

(** X3: the configuration of the Feishu script is read exactly when each of
    the five required variables is set and not empty; the required values
    are the environment's, the base URL is FEISHU_BASE_URL unless that is
    absent or empty, and is never empty, upsert is on exactly when
    FEISHU_UPSERT is absent or is the text 1, and the id field is
    FEISHU_FIELD_ISSUE_ID when it is set, also to the empty string. *)
Theorem read_config_spec (env : gmap string string) :
  (is_ok (read_config env) = true
   <-> forall name, name ∈ required_env ->
                    exists v, env !! name = Some v /\ v <> "")
  /\ forall cfg,
       read_config env = Ok cfg ->
       env !! "GITHUB_EVENT_PATH" = Some (event_path cfg)
       /\ env !! "FEISHU_APP_ID" = Some (app_id cfg)
       /\ env !! "FEISHU_APP_SECRET" = Some (app_secret cfg)
       /\ env !! "FEISHU_APP_TOKEN" = Some (app_token cfg)
       /\ env !! "FEISHU_TABLE_ID" = Some (table_id cfg)
       /\ base_url cfg
          = match env !! "FEISHU_BASE_URL" with
            | Some "" | None => "https://open.feishu.cn"
            | Some v => v
            end
       /\ base_url cfg <> ""
       /\ (upsert cfg = true
           <-> env !! "FEISHU_UPSERT" = None
               \/ env !! "FEISHU_UPSERT" = Some "1")
       /\ issue_id_field cfg
          = default "Issue ID" (env !! "FEISHU_FIELD_ISSUE_ID").
Proof.
  split.
  - destruct (read_config_cases env)
      as [(cfg & -> & _ & Hall)|(first & Hin & Hmiss & ->)].
    + split; [intros _; exact Hall | reflexivity].
    + split; [discriminate |]. intros Hall.
      destruct (Hall first Hin) as (v & Hv & Hne).
      destruct Hmiss as [Hm|Hm]; rewrite Hm in Hv; congruence.
  - intros cfg. unfold read_config.
    destruct (feishu_env_cases env "GITHUB_EVENT_PATH")
      as [(v1 & L1 & N1 & ->)|[_ ->]]; [| discriminate].
    cbn [rbind].
    destruct (feishu_env_cases env "FEISHU_APP_ID")
      as [(v2 & L2 & N2 & ->)|[_ ->]]; [| discriminate].
    cbn [rbind].
    destruct (feishu_env_cases env "FEISHU_APP_SECRET")
      as [(v3 & L3 & N3 & ->)|[_ ->]]; [| discriminate].
    cbn [rbind].
    destruct (feishu_env_cases env "FEISHU_APP_TOKEN")
      as [(v4 & L4 & N4 & ->)|[_ ->]]; [| discriminate].
    cbn [rbind].
    destruct (feishu_env_cases env "FEISHU_TABLE_ID")
      as [(v5 & L5 & N5 & ->)|[_ ->]]; [| discriminate].
    cbn [rbind]. intros [= <-].
    cbn [event_path app_id app_secret app_token table_id base_url upsert
         issue_id_field].
    do 5 (split; [assumption |]). unfold getenv.
    split; [| split; [| split]].
    + destruct (env !! "FEISHU_BASE_URL") as [v|]; [| reflexivity].
      destruct (decide (v = "")) as [->|Hne]; [reflexivity |].
      destruct v; [congruence | reflexivity].
    + destruct (env !! "FEISHU_BASE_URL") as [v|]; [| discriminate].
      destruct (decide (v = "")); [discriminate | assumption].
    + destruct (env !! "FEISHU_UPSERT") as [v|].
      * rewrite bool_decide_eq_true. split; [intros [= ->]; now right |].
        intros [Hn|Hs]; congruence.
      * rewrite bool_decide_eq_true. split; [now left | reflexivity].
    + now destruct (env !! "FEISHU_FIELD_ISSUE_ID").
Qed.

End Configuration.

(** ** The fields display *)

Section Display.
Import Py Feishu Fields.
Context `{Builtins}.

(** In a dict display a key that comes again keeps its place and takes the
    later value. *)
Lemma dict_get_fold (k : string) (items acc : list (string * pyval)) :
  dict_get k (fold_left (fun d kv => dict_set kv.1 kv.2 d) items acc)
  = match dict_get k (rev items) with
    | Some v => Some v
    | None => dict_get k acc
    end.
Proof.
  revert acc. induction items as [|[k' v'] items IH] using rev_ind;
    intros acc; [reflexivity |].
  rewrite fold_left_app, rev_unit. cbn [fold_left fst snd dict_get].
  destruct (decide (k' = k)) as [->|Hne].
  - apply dict_get_set_eq.
  - rewrite dict_get_set_ne by exact Hne. apply IH.
Qed.

Lemma dict_get_dict_of (k : string) (items : list (string * pyval)) :
  dict_get k (dict_of items) = dict_get k (rev items).
Proof.
  unfold dict_of. rewrite dict_get_fold. now destruct (dict_get k (rev items)).
Qed.

Lemma dict_set_fresh (k : string) (v : pyval) (d : list (string * pyval)) :
  k ∉ map fst d -> dict_set k v d = d ++ [(k, v)].
Proof.
  induction d as [|[k' v'] d IH]; intros Hk; [reflexivity |].
  cbn [dict_set app]. cbn [map fst] in Hk.
  apply not_elem_of_cons in Hk as [Hne Hk].
  rewrite decide_False by congruence. now rewrite IH.
Qed.

Lemma dict_of_distinct (items : list (string * pyval)) :
  NoDup (map fst items) -> dict_of items = items.
Proof.
  unfold dict_of. intros Hnd.
  enough (Hgen : forall acc,
             NoDup (map fst (acc ++ items)) ->
             fold_left (fun d kv => dict_set kv.1 kv.2 d) items acc
             = acc ++ items) by (apply (Hgen []); exact Hnd).
  clear Hnd. induction items as [|[k v] items IH]; intros acc Hnd.
  - now rewrite app_nil_r.
  - cbn [fold_left fst snd]. rewrite dict_set_fresh.
    + rewrite IH; rewrite <- (assoc_L (++)); [reflexivity | exact Hnd].
    + rewrite map_app in Hnd. apply NoDup_app in Hnd as (_ & Hdis & _).
      intros Hin. apply (Hdis k Hin). cbn [map fst]. apply list_elem_of_here.
Qed.

(** X4: the fields the Feishu script writes.  Each of the twelve fixed
    columns is present, with a value that does not depend on the configured
    name of the id field.  When that name is none of the twelve, the keys
    are the name and then the twelve in the order of the display, and the
    name holds [str(issue.get("id"))]; when it is one of the twelve, the
    dict has twelve keys, that column first with the column's own value. *)
Theorem fields_columns (f : string) (issue action : pyval)
    (fields : list (string * pyval)) :
  build_fields f issue action = Ok fields ->
  (forall c, c ∈ fixed_columns ->
     exists v,
       dict_get c fields = Some v
       /\ forall g fields',
            build_fields g issue action = Ok fields' ->
            dict_get c fields' = Some v)
  /\ (f ∉ fixed_columns ->
      map fst fields = f :: fixed_columns
      /\ exists id,
           get issue "id" PNone = Ok id
           /\ dict_get f fields = Some (PStr (str id)))
  /\ (f ∈ fixed_columns ->
      map fst fields = f :: filter (fun c => c <> f) fixed_columns).
Proof.
  intros Hb. unfold build_fields in Hb. rinv Hb. injection Hb as <-.
  split; [| split].
  - intros c Hc. unfold fixed_columns in Hc.
    repeat (apply elem_of_cons in Hc as [-> | Hc];
            [eexists; split;
             [rewrite dict_get_dict_of; reflexivity |];
             intros g fields' Hb'; unfold build_fields in Hb';
             repeat match type of Hb' with
               | rbind ?r _ = Ok _ =>
                   match goal with
                   | E : r = Ok _ |- _ => rewrite E in Hb'; cbn [rbind] in Hb'
                   end
               end;
             injection Hb' as <-; rewrite dict_get_dict_of; reflexivity |]).
    now apply elem_of_nil in Hc.
  - intros Hf. rewrite dict_of_distinct.
    + split; [reflexivity |]. eexists. split; [reflexivity |].
      cbn [dict_get]. now rewrite decide_True.
    + cbn [map fst]. apply NoDup_cons. split; [exact Hf |].
      apply (bool_decide_unpack _). vm_compute. exact I.
  - intros Hf. unfold fixed_columns in Hf.
    repeat (apply elem_of_cons in Hf as [-> | Hf]; [vm_compute; reflexivity |]).
    now apply elem_of_nil in Hf.
Qed.

End Display.

(** ** The comprehensions *)

Section Comprehension.
Import Py Fields.

(** X5: the comprehension [[x.get(sub) for x in issue.get(key, []) if
    x.get(sub)]] on an issue that is a dict: no names when the key is
    absent, a [TypeError] when the key holds null, and on a list the names
    of the entries in their order without the falsy ones, or an
    [AttributeError] when an entry is not a dict. *)
Theorem names_of_spec (d : list (string * pyval)) (key sub : string) :
  (dict_get key d = None -> names_of (PDict d) key sub = Ok [])
  /\ (dict_get key d = Some PNone ->
      names_of (PDict d) key sub = Raise TypeError)
  /\ forall items,
       dict_get key d = Some (PList items) ->
       names_of (PDict d) key sub
       = if forallb is_dict items
         then Ok (List.filter truthy (map (name_of sub) items))
         else Raise AttributeError.
Proof.
  unfold names_of. cbn [get rbind].
  split; [intros ->; reflexivity |].
  split; [intros ->; reflexivity |].
  intros items ->. cbn [default iterate rbind].
  destruct (forallb is_dict items) eqn:Hd;
    [now apply pluck_dicts | now apply pluck_not_dicts].
Qed.

End Comprehension.

(** ** The two scripts on one event *)

Section Sinks.
Import Py Fields.
Context `{Builtins}.

Lemma parse_agree (v : pyval) :
  Feishu._parse_github_timestamp v
  = rbind (MySQL._parse_github_timestamp v) (fun t =>
      Ok match t with
         | Some d => PStr (isoformat d)
         | None => PNone
         end).
Proof.
  unfold Feishu._parse_github_timestamp, MySQL._parse_github_timestamp.
  destruct (negb (truthy v)); [reflexivity |].
  destruct v; try reflexivity.
  destruct (fromisoformat _) as [d|]; [| reflexivity].
  now destruct (astimezone_utc d).
Qed.

(** X6: the two scripts agree on an event.  When the Feishu script builds
    its fields, the MySQL script extracts the event and builds its
    parameters, and column by column they hold the same values: number,
    title, state, URL, user and action as they are, each timestamp as the
    [isoformat] text of the MySQL [datetime], the body up to the truncation
    to 5000 characters, labels and assignees as the join and the JSON text
    of the same lists, and the id as its [str]. *)
Theorem sinks_agree (f : string) (event issue action : pyval)
    (fields : list (string * pyval)) :
  subscript event "issue" = Ok issue ->
  get event "action" (PStr "unknown") = Ok action ->
  Feishu.build_fields f issue action = Ok fields ->
  exists x p,
    MySQL.extract event = Ok x
    /\ MySQL.insert_params x = Ok p
    /\ dict_get "Issue Number" fields = Some (MySQL.p_number p)
    /\ dict_get "Title" fields = Some (MySQL.p_title p)
    /\ dict_get "State" fields = Some (MySQL.p_state p)
    /\ dict_get "URL" fields = Some (MySQL.p_url p)
    /\ dict_get "User" fields = Some (MySQL.p_user_login p)
    /\ dict_get "Action" fields = Some (MySQL.p_event_action p)
    /\ dict_get "Created At" fields = Some (shown (MySQL.p_created_at p))
    /\ dict_get "Updated At" fields = Some (shown (MySQL.p_updated_at p))
    /\ dict_get "Closed At" fields = Some (shown (MySQL.p_closed_at p))
    /\ (exists body,
          Feishu._truncate (MySQL.p_body p) Feishu.body_limit = Ok body
          /\ dict_get "Body" fields = Some body)
    /\ (exists labels assignees labels_field assignees_field,
          MySQL.p_labels p = json_dumps (PList labels)
          /\ MySQL.p_assignees p = json_dumps (PList assignees)
          /\ Feishu.joined labels = Ok labels_field
          /\ Feishu.joined assignees = Ok assignees_field
          /\ dict_get "Labels" fields = Some labels_field
          /\ dict_get "Assignees" fields = Some assignees_field)
    /\ (f ∉ fixed_columns ->
        dict_get f fields = Some (PStr (str (MySQL.p_id p)))).
Proof.
  intros Hissue Haction Hb. unfold Feishu.build_fields in Hb. rinv Hb.
  injection Hb as <-.
  rewrite !parse_agree in *.
  repeat match goal with
         | E : rbind (MySQL._parse_github_timestamp ?v) _ = Ok _ |- _ =>
             let P := fresh "P" in
             destruct (MySQL._parse_github_timestamp v) eqn:P;
             cbn [rbind] in E; [injection E as <- | discriminate | discriminate]
         end.
  unfold MySQL.extract.
  assert (Hhas : contains "issue" event = Ok true).
  { unfold subscript in Hissue. destruct event; try discriminate Hissue.
    cbn [contains]. destruct (dict_get "issue" members); [| discriminate].
    reflexivity. }
  rewrite Hhas. cbn [rbind negb]. rewrite Hissue, Haction. cbn [rbind].
  repeat match goal with
         | E : ?r = Ok _ |- context [rbind ?r _] =>
             rewrite E; cbn [rbind]
         end.
  eexists _, _. split; [reflexivity |].
  unfold MySQL.insert_params. cbn [MySQL.issue MySQL.action MySQL.created
    MySQL.updated MySQL.closed MySQL.payload_json MySQL.labels_json
    MySQL.assignees_json].
  repeat match goal with
         | E : ?r = Ok _ |- context [rbind ?r _] =>
             rewrite E; cbn [rbind]
         end.
  split; [reflexivity |].
  cbn [MySQL.p_number MySQL.p_title MySQL.p_state MySQL.p_url
       MySQL.p_user_login MySQL.p_event_action MySQL.p_created_at
       MySQL.p_updated_at MySQL.p_closed_at MySQL.p_body MySQL.p_id
       MySQL.p_labels MySQL.p_assignees].
  rewrite !dict_get_dict_of.
  do 9 (split; [reflexivity |]).
  split; [eexists; split; [eassumption | reflexivity] |].
  split; [eexists _, _, _, _;
          do 2 (split; [reflexivity |]);
          do 2 (split; [eassumption |]); split; reflexivity |].
  intros Hf. rewrite <- dict_get_dict_of, dict_of_distinct.
  - cbn [dict_get]. now rewrite decide_True.
  - cbn [map fst]. apply NoDup_cons. split; [exact Hf |].
    apply (bool_decide_unpack _). vm_compute. exact I.
Qed.

End Sinks.

(** ** The requests of the Feishu script *)

Section Requests.
Import Py Feishu Trace.
Context `{Builtins}.
Context {Srv : Type} (serve : Request -> Srv -> Reply * Srv).


Lemma request_json_answer (method url : string)
    (headers : list (string * string)) (payload : pyval) (w : World Srv) :
  let request := {| Feishu.method := method; Feishu.url := url;
                    Feishu.headers := headers; Feishu.payload := payload |} in
  _request_json serve method url headers payload w
  = (answer (serve request (remote w)).1,
     sent request (serve request (remote w)).1
       (serve request (remote w)).2 w).
Proof.
  unfold _request_json, sent. cbn zeta.
  destruct (serve _ (remote w)) as [reply srv].
  destruct reply as [[v|]| |]; reflexivity.
Qed.

Lemma token_answer (cfg : Config) (w : World Srv) :
  _get_tenant_token serve (base_url cfg) (app_id cfg) (app_secret cfg) w
  = (token_of (serve (token_request cfg) (remote w)).1,
     sent (token_request cfg) (serve (token_request cfg) (remote w)).1
       (serve (token_request cfg) (remote w)).2 w).
Proof.
  unfold _get_tenant_token, bind, lift. rewrite request_json_answer.
  fold (token_request cfg). unfold token_of.
  destruct (answer _) as [a| |]; cbn [rbind]; [| reflexivity..].
  destruct (check_code _ a); cbn [rbind]; [| reflexivity..].
  destruct (subscript a _); reflexivity.
Qed.

Lemma search_answer (cfg : Config) (token id : pyval) (w : World Srv) :
  let request := search_request cfg token id in
  _bitable_search serve (base_url cfg) token (app_token cfg) (table_id cfg) id
    (issue_id_field cfg) w
  = (record_of (serve request (remote w)).1,
     sent request (serve request (remote w)).1
       (serve request (remote w)).2 w).
Proof.
  cbn zeta. unfold _bitable_search, bind, lift, ret.
  rewrite request_json_answer.
  fold (search_request cfg token id). unfold record_of.
  destruct (answer _) as [a| |]; cbn [rbind]; [| reflexivity..].
  destruct (check_code _ a); cbn [rbind]; [| reflexivity..].
  destruct (get a "data" _) as [data| |]; cbn [rbind]; [| reflexivity..].
  destruct (get data "items" _) as [items| |]; cbn [rbind]; [| reflexivity..].
  destruct (negb (truthy items)); [reflexivity |].
  destruct (first_item items) as [item| |]; cbn [rbind]; [| reflexivity..].
  destruct (get item "record_id" PNone); reflexivity.
Qed.

Lemma create_answer (cfg : Config) (token : pyval)
    (fields : list (string * pyval)) (w : World Srv) :
  let request := create_request cfg token fields in
  _bitable_create serve (base_url cfg) token (app_token cfg) (table_id cfg)
    fields w
  = (written "Failed to create bitable record" (serve request (remote w)).1,
     sent request (serve request (remote w)).1
       (serve request (remote w)).2 w).
Proof.
  cbn zeta. unfold _bitable_create, bind, lift. rewrite request_json_answer.
  fold (create_request cfg token fields). unfold written.
  destruct (answer _) as [a| |]; cbn [rbind]; [| reflexivity..].
  destruct (check_code _ a); reflexivity.
Qed.

Lemma upsert_answer (cfg : Config) (token id : pyval)
    (fields : list (string * pyval)) (w : World Srv) :
  let search := search_request cfg token id in
  let w1 := sent search (serve search (remote w)).1
              (serve search (remote w)).2 w in
  _bitable_upsert serve (base_url cfg) token (app_token cfg) (table_id cfg) id
    (issue_id_field cfg) fields w
  = match record_of (serve search (remote w)).1 with
    | Ok record_id =>
        let request := write_request cfg token record_id fields in
        (written "Failed to upsert bitable record"
           (serve request (remote w1)).1,
         sent request (serve request (remote w1)).1
           (serve request (remote w1)).2 w1)
    | SystemExit msg => (SystemExit msg, w1)
    | Raise e => (Raise e, w1)
    end.
Proof.
  cbn zeta. unfold _bitable_upsert, bind. rewrite search_answer.
  destruct (record_of _) as [record_id| |]; [| reflexivity..].
  unfold lift. rewrite request_json_answer. unfold write_request, written.
  destruct (truthy record_id); cbn [fst snd];
    (destruct (answer _) as [a| |]; cbn [rbind]; [| reflexivity..]);
    destruct (check_code _ a); reflexivity.
Qed.

Lemma build_fields_id (f : string) (issue action : pyval)
    (fields : list (string * pyval)) :
  build_fields f issue action = Ok fields ->
  exists id, get issue "id" PNone = Ok id.
Proof.
  unfold build_fields. intros Hb.
  destruct (names_of issue "labels" "name"); [| discriminate | discriminate].
  cbn [rbind] in Hb.
  destruct (names_of issue "assignees" "login");
    [| discriminate | discriminate].
  cbn [rbind] in Hb.
  destruct (get issue "id" PNone) as [id| |]; [eauto | discriminate..].
Qed.

Lemma main_trace (w : World Srv) :
  (exists r, main serve w = (r, w) /\ is_ok r = false)
  \/ exists cfg event issue action fields id new,
       read_config (environ w) = Ok cfg
       /\ files w !! event_path cfg = Some (Json event)
       /\ subscript event "issue" = Ok issue
       /\ get event "action" (PStr "unknown") = Ok action
       /\ build_fields (issue_id_field cfg) issue action = Ok fields
       /\ get issue "id" PNone = Ok id
       /\ environ (main serve w).2 = environ w
       /\ files (main serve w).2 = files w
       /\ wire (main serve w).2 = wire w ++ new
       /\ shape cfg id fields new (main serve w).1.
Proof.
  unfold main, bind, _load_event, lift.
  destruct (read_config (environ w)) as [cfg| |] eqn:Hcfg;
    [| left; eauto | left; eauto].
  destruct (files w !! event_path cfg) as [[|event]|] eqn:Hfile;
    [left; eauto | | left; eauto].
  destruct (contains "issue" event) as [has| |]; [| left; eauto | left; eauto].
  destruct has; cbn [negb]; [| left; eauto].
  destruct (subscript event "issue") as [issue| |] eqn:Hissue;
    [| left; eauto | left; eauto].
  destruct (get event "action" (PStr "unknown")) as [action| |] eqn:Haction;
    [| left; eauto | left; eauto].
  destruct (build_fields (issue_id_field cfg) issue action)
    as [fields| |] eqn:Hfields; [| left; eauto | left; eauto].
  destruct (build_fields_id _ _ _ _ Hfields) as (id & Hid).
  right. exists cfg, event, issue, action, fields, id.
  rewrite token_answer.
  set (reply0 := (serve (token_request cfg) (remote w)).1).
  set (s0 := (serve (token_request cfg) (remote w)).2).
  destruct (token_of reply0) as [token| |] eqn:Htoken.
  2,3: exists [(token_request cfg, reply0)];
       repeat (split; [first [eassumption | reflexivity] |]);
       pose proof (No_token cfg id fields reply0) as Hs;
       rewrite Htoken in Hs; apply Hs; reflexivity.
  destruct (upsert cfg) eqn:Hupsert.
  - rewrite Hid, upsert_answer. cbn zeta.
    set (w1 := sent (token_request cfg) reply0 s0 w).
    set (reply1 := (serve (search_request cfg token id) (remote w1)).1).
    set (s1 := (serve (search_request cfg token id) (remote w1)).2).
    destruct (record_of reply1) as [record_id| |] eqn:Hrecord.
    + eexists. repeat (split; [first [eassumption | reflexivity] |]).
      cbn [snd fst sent wire].
      split; [subst w1; cbn [sent wire]; rewrite <- !(assoc_L (++));
              reflexivity |].
      now apply Upserted with (record_id := record_id).
    + exists [(token_request cfg, reply0);
              (search_request cfg token id, reply1)].
      repeat (split; [first [eassumption | reflexivity] |]).
      cbn [snd fst sent wire].
      split; [subst w1; cbn [sent wire]; rewrite <- !(assoc_L (++));
              reflexivity |].
      pose proof (No_search cfg id fields reply0 reply1 token Hupsert Htoken)
        as Hs.
      rewrite Hrecord in Hs. apply Hs; reflexivity.
    + exists [(token_request cfg, reply0);
              (search_request cfg token id, reply1)].
      repeat (split; [first [eassumption | reflexivity] |]).
      cbn [snd fst sent wire].
      split; [subst w1; cbn [sent wire]; rewrite <- !(assoc_L (++));
              reflexivity |].
      pose proof (No_search cfg id fields reply0 reply1 token Hupsert Htoken)
        as Hs.
      rewrite Hrecord in Hs. apply Hs; reflexivity.
  - rewrite create_answer. cbn zeta.
    eexists. repeat (split; [first [eassumption | reflexivity] |]).
    cbn [snd fst sent wire].
    split; [cbn [sent wire]; rewrite <- !(assoc_L (++)); reflexivity |].
    now apply Created.
Qed.


Lemma token_of_ok (reply : Reply) (token : pyval) :
  token_of reply = Ok token ->
  exists response,
    reply = Body (Some response)
    /\ check_code "Failed to get tenant token" response = Ok tt
    /\ subscript response "tenant_access_token" = Ok token.
Proof.
  unfold token_of. intros Ht.
  destruct reply as [[response|]| |]; try discriminate Ht.
  cbn [answer rbind] in Ht. exists response. split; [reflexivity |].
  destruct (check_code _ response) as [[]| |]; try discriminate Ht.
  now split.
Qed.

Lemma written_ok (what : string) (reply : Reply) :
  written what reply = Ok tt ->
  exists response code,
    reply = Body (Some response)
    /\ get response "code" PNone = Ok code
    /\ eq_int code 0 = true.
Proof.
  unfold written. intros Hw.
  destruct reply as [[response|]| |]; try discriminate Hw.
  cbn [answer rbind] in Hw. exists response. unfold check_code in Hw.
  destruct (get response "code" PNone) as [code| |]; try discriminate Hw.
  cbn [rbind] in Hw. exists code. split; [reflexivity |].
  split; [reflexivity |]. now destruct (eq_int code 0).
Qed.

(** X7: the Feishu script makes no request before it has read its
    configuration, loaded the event and built every field: a run either
    leaves the world as it was and does not end well, or all of these have
    succeeded and its first request is the token request with the app
    credentials. *)
Theorem no_request_before_projection (w : World Srv) :
  ((main serve w).2 = w /\ is_ok (main serve w).1 = false)
  \/ exists cfg event issue action fields reply rest,
       read_config (environ w) = Ok cfg
       /\ files w !! event_path cfg = Some (Json event)
       /\ subscript event "issue" = Ok issue
       /\ get event "action" (PStr "unknown") = Ok action
       /\ build_fields (issue_id_field cfg) issue action = Ok fields
       /\ wire (main serve w).2
          = wire w ++ (token_request cfg, reply) :: rest.
Proof.
  destruct (main_trace w)
    as [(r & -> & Hr)
       |(cfg & event & issue & action & fields & id & new & Hcfg & Hfile
         & Hissue & Haction & Hfields & _ & _ & _ & Hwire & Hshape)].
  - left. now split.
  - right. exists cfg, event, issue, action, fields.
    destruct Hshape; eexists; eexists;
      (repeat (split; [eassumption |])); exact Hwire.
Qed.

(** X8: a run of the Feishu script makes at most three requests and leaves
    the environment and the files alone; with upsert off it makes at most
    two, each a POST and none to the search URL. *)
Theorem request_budget (w : World Srv) :
  exists new,
    wire (main serve w).2 = wire w ++ new
    /\ environ (main serve w).2 = environ w
    /\ files (main serve w).2 = files w
    /\ (length new <= 3)%nat
    /\ forall cfg,
         read_config (environ w) = Ok cfg ->
         upsert cfg = false ->
         (length new <= 2)%nat
         /\ forall request reply,
              (request, reply) ∈ new ->
              method request = "POST"
              /\ url request
                 <> records_url (base_url cfg) (app_token cfg) (table_id cfg)
                      +:+ "/search".
Proof.
  destruct (main_trace w)
    as [(r & Hmain & Hr)
       |(cfg & event & issue & action & fields & id & new & Hcfg & Hfile
         & Hissue & Haction & Hfields & _ & Henv & Hfiles & Hwire & Hshape)].
  - exists []. rewrite Hmain, app_nil_r. cbn [fst snd length].
    do 4 (split; [first [reflexivity | lia] |]).
    intros cfg _ _. split; [lia |]. intros request reply Hin.
    now apply elem_of_nil in Hin.
  - exists new. do 3 (split; [assumption |]).
    split; [destruct Hshape; cbn [length]; lia |].
    intros cfg' Hcfg' Hoff. rewrite Hcfg in Hcfg'. injection Hcfg' as <-.
    destruct Hshape as [reply0 Hno|reply0 reply1 token Hup Htoken
                       |reply0 reply1 token Hup
                       |reply0 reply1 reply2 token rid Hup];
      try congruence; (split; [cbn [length]; lia |]);
      intros request reply Hin;
      repeat (apply elem_of_cons in Hin as [Hin | Hin];
              [injection Hin as -> ->; cbn [method url token_request
                                             create_request];
               split; [reflexivity |];
               first [ intros Heq; symmetry in Heq;
                       now apply search_not_token in Heq
                     | apply records_not_search ] |]);
      now apply elem_of_nil in Hin.
Qed.

(** X9: every request after the first carries, as its bearer token, the
    "tenant_access_token" of the reply to the first. *)
Theorem token_is_presented (w : World Srv) :
  exists new,
    wire (main serve w).2 = wire w ++ new
    /\ forall i request reply,
         new !! S i = Some (request, reply) ->
         exists request0 response token,
           new !! 0%nat = Some (request0, Body (Some response))
           /\ subscript response "tenant_access_token" = Ok token
           /\ headers request
              = json_headers ++ [("Authorization", "Bearer " +:+ str token)].
Proof.
  destruct (main_trace w)
    as [(r & Hmain & Hr)
       |(cfg & event & issue & action & fields & id & new & _ & _ & _ & _ & _
         & _ & _ & _ & Hwire & Hshape)].
  - exists []. rewrite Hmain, app_nil_r. split; [reflexivity |].
    intros i request reply Hi. discriminate Hi.
  - exists new. split; [exact Hwire |]. intros i request reply Hi.
    destruct Hshape as [reply0 Hno|reply0 reply1 token Hup Htoken
                       |reply0 reply1 token Hup Htoken Hrec
                       |reply0 reply1 reply2 token rid Hup Htoken Hrec];
      [discriminate Hi | | |];
      destruct (token_of_ok _ _ Htoken) as (response & -> & _ & Hsub);
      exists (token_request cfg), response, token;
      (split; [reflexivity |]); (split; [exact Hsub |]);
      destruct i as [|[|i]]; try discriminate Hi;
      injection Hi as <- <-; reflexivity.
Qed.


(** X11: a run that ends well has made exactly three requests with upsert
    on and two with it off; the last one is the write, a PUT or a POST to
    the records URL with a "fields" payload, and its reply is a JSON object
    whose "code" equals 0. *)
Theorem success_means_written (w : World Srv) :
  (main serve w).1 = Ok tt ->
  exists new cfg request response code fields,
    wire (main serve w).2 = wire w ++ new
    /\ read_config (environ w) = Ok cfg
    /\ length new = (if upsert cfg then 3 else 2)%nat
    /\ last new = Some (request, Body (Some response))
    /\ payload request = PDict [("fields", PDict fields)]
    /\ (method request = "PUT"
        \/ (method request = "POST"
            /\ url request
               = records_url (base_url cfg) (app_token cfg) (table_id cfg)))
    /\ get response "code" PNone = Ok code
    /\ eq_int code 0 = true.
Proof.
  intros Hok.
  destruct (main_trace w)
    as [(r & Hmain & Hr)
       |(cfg & event & issue & action & fields & id & new & Hcfg & _ & _ & _
         & Hfields & _ & _ & _ & Hwire & Hshape)].
  - rewrite Hmain in Hok. cbn in Hok. subst r. discriminate Hr.
  - rewrite Hok in Hshape. exists new, cfg.
    inversion Hshape as [reply0 Hno Hnew Hres
                        |reply0 reply1 token Hup Htoken Hnew Hres
                        |reply0 reply1 token Hup Htoken Hrec Hnew Hres
                        |reply0 reply1 reply2 token rid Hup Htoken Hrec Hnew
                           Hres];
      subst new.
    + destruct (token_of reply0); discriminate.
    + destruct (written_ok _ _ Hres) as (response & code & -> & Hc & Hz).
      exists (create_request cfg token fields), response, code, fields.
      rewrite Hup. repeat (split; [first [assumption | reflexivity] |]).
      split; [right; now split |]. now split.
    + destruct (record_of reply1); discriminate.
    + destruct (written_ok _ _ Hres) as (response & code & -> & Hc & Hz).
      exists (write_request cfg token rid fields), response, code, fields.
      rewrite Hup. repeat (split; [first [assumption | reflexivity] |]).
      unfold write_request. cbn [url method].
      split; [| now split].
      destruct (truthy rid); [left | right]; now repeat split.
Qed.

(** X12: only an [HTTPError] is caught.  When the service cannot be
    reached the run stops there with the uncaught [URLError], and when a
    body is not JSON it stops there with the uncaught [JSONDecodeError]. *)
Theorem unreadable_reply_is_uncaught (w : World Srv) :
  exists new,
    wire (main serve w).2 = wire w ++ new
    /\ forall i request reply,
         new !! i = Some (request, reply) ->
         (reply = Unreachable ->
          length new = S i /\ (main serve w).1 = Raise URLError)
         /\ (reply = Body None ->
             length new = S i /\ (main serve w).1 = Raise JSONDecodeError).
Proof.
  destruct (main_trace w)
    as [(r & Hmain & Hr)
       |(cfg & event & issue & action & fields & id & new & _ & _ & _ & _ & _
         & _ & _ & _ & Hwire & Hshape)].
  - exists []. rewrite Hmain, app_nil_r. split; [reflexivity |].
    intros i request reply Hi. discriminate Hi.
  - exists new. split; [exact Hwire |]. intros i request reply Hi.
    destruct Hshape as [reply0 Hno|reply0 reply1 token Hup Htoken
                       |reply0 reply1 token Hup Htoken Hrec
                       |reply0 reply1 reply2 token rid Hup Htoken Hrec];
      repeat (destruct i as [|i]; [injection Hi as <- <- |]);
      try discriminate Hi;
      (split; intros ->; try discriminate; split; reflexivity).
Qed.

End Requests.

(** ** Creation without upsert *)

Section Duplicates.
Import Py Feishu Bitable.
Context `{Builtins}.

(** X13: [_bitable_create] does not look for an existing record: against
    the table it makes one POST, ends well and appends the fields as a new
    record, so the table holds one record more for the id than before. *)
Theorem create_adds_a_record (s : Service) (w : World Service)
    (token : pyval) (fields : list (string * pyval)) (field value : string) :
  remote w = s ->
  matches field value fields = true ->
  let run :=
    _bitable_create serve (base s) token (app s) (table s) fields w in
  run.1 = Ok tt
  /\ rows (remote run.2) = rows s ++ [fields]
  /\ count_for field value (remote run.2) = S (count_for field value s)
  /\ exists request reply,
       wire run.2 = wire w ++ [(request, reply)]
       /\ method request = "POST".
Proof.
  intros Hs Hm. cbn zeta. unfold _bitable_create, bind, _request_json, lift.
  rewrite Hs, serve_create. unfold success.
  rewrite check_code_success. cbn [fst snd remote wire with_rows rows].
  split; [reflexivity |]. split; [reflexivity |].
  split.
  - unfold count_for, search. cbn [rows with_rows remote snd].
    rewrite count_app, Hm. lia.
  - eexists _, _. split; reflexivity.
Qed.

End Duplicates.

(** ** One delivery through [main] *)

Section Delivery.
Import Py Feishu Bitable Fields.
Context `{Builtins}.

(** X18: one delivery through [main] with upsert on, against the table the
    configuration points at, when the name of the id field is none of the
    fixed columns: the run ends well, the table then holds a record for the
    issue id, and no more records for it than before unless there was
    none; a record is added only when there was none. *)
Theorem delivery_keeps_one_record (s : Service) (w : World Service)
    (cfg : Config) (members : list (string * pyval)) (issue id : pyval)
    (fields : list (string * pyval)) :
  remote w = s ->
  read_config (environ w) = Ok cfg ->
  upsert cfg = true ->
  base_url cfg = base s -> app_token cfg = app s -> table_id cfg = table s ->
  files w !! event_path cfg = Some (Json (PDict members)) ->
  dict_get "issue" members = Some issue ->
  get issue "id" PNone = Ok id ->
  build_fields (issue_id_field cfg) issue
    (default (PStr "unknown") (dict_get "action" members)) = Ok fields ->
  issue_id_field cfg ∉ fixed_columns ->
  (main serve w).1 = Ok tt
  /\ count_for (issue_id_field cfg) (str id) (remote (main serve w).2)
     = Nat.max 1 (count_for (issue_id_field cfg) (str id) s)
  /\ length (rows (remote (main serve w).2))
     = (length (rows s)
        + match count_for (issue_id_field cfg) (str id) s with
          | O => 1
          | S _ => 0
          end)%nat.
Proof.
  intros Hs Hcfg Hupsert Hbase Happ Htable Hfile Hissue Hid Hfields Hname.
  destruct (main_is_upsert s w cfg members issue id fields Hs Hcfg Hupsert
              Hbase Happ Htable Hfile Hissue Hid Hfields)
    as (w' & Hs' & ->).
  destruct (upsert_run s w' (PStr "t-tenant") id (issue_id_field cfg) fields
              Hs') as (rq1 & rp1 & rq2 & rp2 & -> & _ & _).
  cbn [fst snd remote].
  split; [reflexivity |].
  split.
  - apply count_after_upsert.
    now apply (build_fields_issue_id _ issue
                 (default (PStr "unknown") (dict_get "action" members))).
  - unfold count_for. cbn [rows with_rows].
    destruct (search (issue_id_field cfg) (str id) (rows s))
      as [|[j r] rest]; cbn [length].
    + now rewrite length_app.
    + rewrite length_alter. lia.
Qed.

End Delivery.

(** ** The database calls of the MySQL script *)

Section Calls.
Import Py MySQL Columns CallOrder.
Context `{Builtins}.

Lemma before_connect_ok (env : gmap string string) (files : gmap string file)
    (x : Extract) (host : string) (port : Z) (user password database : string) :
  before_connect env files = Ok (x, (host, port, user, password, database)) ->
  exists path event,
    env !! "GITHUB_EVENT_PATH" = Some path
    /\ files !! path = Some (Json event)
    /\ extract event = Ok x
    /\ env !! "MYSQL_HOST" = Some host
    /\ int_of_str (default "3306" (env !! "MYSQL_PORT")) = Some port
    /\ env !! "MYSQL_USER" = Some user
    /\ env !! "MYSQL_PASSWORD" = Some password
    /\ env !! "MYSQL_DATABASE" = Some database.
Proof.
  unfold before_connect. intros Hb.
  destruct (mysql_env_cases env "GITHUB_EVENT_PATH")
    as [(path & L0 & _ & E0)|[_ E0]]; rewrite E0 in Hb; [| discriminate].
  cbn [rbind] in Hb.
  destruct (files !! path) as [[|event]|] eqn:Hfile; try discriminate Hb.
  cbn [rbind] in Hb.
  destruct (extract event) as [x'| |] eqn:Hx; try discriminate Hb.
  cbn [rbind] in Hb.
  destruct (mysql_env_cases env "MYSQL_HOST")
    as [(host' & L1 & _ & E1)|[_ E1]]; rewrite E1 in Hb; [| discriminate].
  cbn [rbind] in Hb.
  destruct (int_of_str _) as [port'|] eqn:Hport; [| discriminate].
  cbn [rbind] in Hb.
  destruct (mysql_env_cases env "MYSQL_USER")
    as [(user' & L2 & _ & E2)|[_ E2]]; rewrite E2 in Hb; [| discriminate].
  cbn [rbind] in Hb.
  destruct (mysql_env_cases env "MYSQL_PASSWORD")
    as [(password' & L3 & _ & E3)|[_ E3]]; rewrite E3 in Hb; [| discriminate].
  cbn [rbind] in Hb.
  destruct (mysql_env_cases env "MYSQL_DATABASE")
    as [(database' & L4 & _ & E4)|[_ E4]]; rewrite E4 in Hb; [| discriminate].
  cbn [rbind] in Hb. injection Hb as <- <- <- <- <- <-.
  exists path, event. repeat (split; [assumption |]).
  split.
  { unfold getenv in Hport. now destruct (env !! "MYSQL_PORT"). }
  now repeat split.
Qed.

(** X14: the MySQL script makes no database call before it has loaded the
    event, extracted it and read its connection settings: a run either
    leaves the world as it was and does not end well, or its first call is
    [connect] with the host, user, password and database of the environment
    and with [int(MYSQL_PORT)], 3306 when the variable is absent. *)
Theorem connect_after_extraction (w : World datetime) :
  ((main w).2 = w /\ is_ok (main w).1 = false)
  \/ exists path event x host port user password database ok rest,
       environ w !! "GITHUB_EVENT_PATH" = Some path
       /\ files w !! path = Some (Json event)
       /\ extract event = Ok x
       /\ environ w !! "MYSQL_HOST" = Some host
       /\ int_of_str (default "3306" (environ w !! "MYSQL_PORT")) = Some port
       /\ environ w !! "MYSQL_USER" = Some user
       /\ environ w !! "MYSQL_PASSWORD" = Some password
       /\ environ w !! "MYSQL_DATABASE" = Some database
       /\ calls (main w).2
          = calls w ++ (Connect host port user password database, ok) :: rest.
Proof.
  rewrite main_before_connect.
  destruct (before_connect (environ w) (files w))
    as [[x [[[[host port] user] password] database]]| |] eqn:Hb;
    [| left; now split | left; now split].
  right.
  destruct (before_connect_ok _ _ _ _ _ _ _ _ Hb)
    as (path & event & Hpath & Hfile & Hx & Hh & Hp & Hu & Hpw & Hd).
  exists path, event, x, host, port, user, password, database.
  unfold bind, connect, try_finally, cursor, _ensure_schema, execute_upsert,
    commit, close, lift.
  destruct (admits (server w) host port user password database); cbn;
    [| exists false, []; now repeat split].
  exists true.
  destruct (cursor_ok (server w)); cbn;
    [| eexists; repeat (split; [eassumption |]);
       rewrite <- ?(assoc_L (++)); reflexivity].
  destruct (ddl_ok (server w)); cbn;
    [| eexists; repeat (split; [eassumption |]);
       rewrite <- ?(assoc_L (++)); reflexivity].
  destruct (insert_params x) as [p|msg|e]; cbn;
    [| eexists; repeat (split; [eassumption |]);
       rewrite <- ?(assoc_L (++)); reflexivity
     | eexists; repeat (split; [eassumption |]);
       rewrite <- ?(assoc_L (++)); reflexivity].
  destruct (insert_on_duplicate p (server w) (now w) (github_issues w));
    cbn;
    [| eexists; repeat (split; [eassumption |]);
       rewrite <- ?(assoc_L (++)); reflexivity].
  destruct (commit_ok (server w)); cbn;
    eexists; repeat (split; [eassumption |]);
    rewrite <- ?(assoc_L (++)); reflexivity.
Qed.

Ltac not_in_calls H :=
  repeat (apply elem_of_cons in H as [H | H]; [discriminate H |]);
  apply elem_of_nil in H; contradiction.

Ltac calls_log := rewrite <- ?(assoc_L (++)); reflexivity.

Ltac sorted_calls :=
  cbn [map rank fst];
  repeat (apply SSorted_cons; [| repeat (apply Forall_cons_2; [lia |]);
                                  apply Forall_nil_2]);
  try apply SSorted_nil.

Ltac after_failure :=
  let i := fresh "i" in
  let c := fresh "c" in
  let Hi := fresh "Hi" in
  intros i c Hi;
  repeat first
    [ discriminate Hi
    | progress cbn in Hi
    | destruct i as [|i]; [try discriminate Hi; cbn [drop]; auto |] ].

(** X15: the database calls of a run come in the order connect, cursor,
    CREATE TABLE, INSERT, commit, close, each at most once; after a call
    that failed nothing follows but [close()]; and the parameters of the
    INSERT are those built from the event. *)
Theorem database_calls_in_order (w : World datetime) :
  exists new,
    calls (main w).2 = calls w ++ new
    /\ StronglySorted lt (map (fun c => rank c.1) new)
    /\ (forall i c,
          new !! i = Some (c, false) ->
          drop (S i) new = [] \/ drop (S i) new = [(Close, true)])
    /\ (forall p ok,
          (Upsert p, ok) ∈ new ->
          exists event x,
            event_of w = Ok event
            /\ extract event = Ok x
            /\ insert_params x = Ok p).
Proof.
  assert (Hevent : forall x host port user password database,
            before_connect (environ w) (files w)
            = Ok (x, (host, port, user, password, database)) ->
            exists event, event_of w = Ok event /\ extract event = Ok x).
  { intros x host port user password database Hb.
    destruct (before_connect_ok _ _ _ _ _ _ _ _ Hb)
      as (path & event & Hpath & Hfile & Hx & _).
    exists event. split; [| exact Hx]. unfold event_of.
    destruct (mysql_env_cases (environ w) "GITHUB_EVENT_PATH")
      as [(path' & L0 & _ & ->)|[[L0|L0] _]]; try congruence.
    - rewrite Hpath in L0. injection L0 as <-. cbn [rbind]. now rewrite Hfile.
    - rewrite Hpath in L0. injection L0 as ->. unfold before_connect in Hb.
      unfold _env, getenv in Hb. rewrite Hpath in Hb. discriminate Hb. }
  rewrite main_before_connect.
  destruct (before_connect (environ w) (files w))
    as [[x [[[[host port] user] password] database]]| |] eqn:Hb.
  2,3: exists []; cbn [fst snd]; rewrite app_nil_r;
       (split; [reflexivity |]); (split; [apply SSorted_nil |]);
       split; [intros i c Hi; discriminate Hi
              | intros p ok Hin; now apply elem_of_nil in Hin].
  destruct (Hevent _ _ _ _ _ _ eq_refl) as (event & Hev & Hx).
  unfold bind, connect, try_finally, cursor, _ensure_schema, execute_upsert,
    commit, close, lift.
  destruct (admits (server w) host port user password database); cbn.
  2:{ eexists. split; [reflexivity |]. split; [sorted_calls |].
      split; [after_failure | intros p ok Hin; not_in_calls Hin]. }
  destruct (cursor_ok (server w)); cbn.
  2:{ eexists. split; [calls_log |]. cbn [app]. split; [sorted_calls |].
      split; [after_failure | intros p ok Hin; not_in_calls Hin]. }
  destruct (ddl_ok (server w)); cbn.
  2:{ eexists. split; [calls_log |]. cbn [app]. split; [sorted_calls |].
      split; [after_failure | intros p ok Hin; not_in_calls Hin]. }
  destruct (insert_params x) as [p|msg|e] eqn:Hp; cbn.
  2,3: eexists; (split; [calls_log |]); cbn [app]; (split; [sorted_calls |]);
       split; [after_failure | intros p ok Hin; not_in_calls Hin].
  assert (Hparams : forall (new : list (Call datetime * bool)) p' ok,
            (Upsert p', ok) ∈ new ->
            (forall c o, (c, o) ∈ new -> forall q, c = Upsert q -> q = p) ->
            exists event x,
              event_of w = Ok event /\ extract event = Ok x
              /\ insert_params x = Ok p').
  { intros new p' ok Hin Hall. rewrite (Hall _ _ Hin p' eq_refl). eauto. }
  destruct (insert_on_duplicate p (server w) (now w) (github_issues w));
    cbn.
  2:{ eexists. split; [calls_log |]. cbn [app]. split; [sorted_calls |].
      split; [after_failure |]. intros p' ok Hin.
      apply (Hparams _ _ _ Hin). intros c o Hc q ->.
      repeat (apply elem_of_cons in Hc as [Hc | Hc];
              [first [discriminate Hc | now injection Hc] |]).
      now apply elem_of_nil in Hc. }
  destruct (commit_ok (server w)); cbn;
    (eexists; split; [calls_log |]; cbn [app]; split; [sorted_calls |];
     split; [after_failure |]; intros p' ok Hin;
     apply (Hparams _ _ _ Hin); intros c o Hc q ->;
     repeat (apply elem_of_cons in Hc as [Hc | Hc];
             [first [discriminate Hc | now injection Hc] |]);
     now apply elem_of_nil in Hc).
Qed.

(** X16: a run that does not end well leaves the committed rows as they
    were; a run that ends well changes the table at one key, the issue id,
    and the row there has [event_received_at] at the server's
    CURRENT_TIMESTAMP and every other column as the event says. *)
Theorem run_writes_one_row (w : World datetime) :
  ((main w).1 <> Ok tt /\ github_issues (main w).2 = github_issues w)
  \/ ((main w).1 = Ok tt
      /\ exists event issue id k row,
           event_of w = Ok event
           /\ subscript event "issue" = Ok issue
           /\ get issue "id" PNone = Ok id
           /\ @to_mysql datetime id = Some (SqlInt k)
           /\ github_issues (main w).2 = <[k := row]> (github_issues w)
           /\ reflects event row
           /\ event_received_at row = now w).
Proof.
  destruct ((main w).1) as [[]| |] eqn:Hres.
  - right. split; [reflexivity |].
    destruct (main_ok w Hres) as (event & x & p & t' & Hev & Hx & Hp & Hu & Ht).
    destruct (insert_on_duplicate_spec _ _ _ _ _ Hu) as (k & row & Hv & Hr).
    destruct (values_reflects _ _ _ _ _ _ Hx Hp Hv)
      as (Hrefl & issue & id & Hissue & Hid & Hk).
    exists event, issue, id, k, row.
    repeat (split; [assumption |]).
    split; [now rewrite Ht, Hr |].
    split; [exact Hrefl | eapply values_received, Hv].
  - left. split; [discriminate |]. revert Hres.
    destruct (main_cases w)
      as [(r & -> & Hr)|(x & host & port & user & password & database & ->)];
      [reflexivity |].
    unfold bind, connect, try_finally, cursor, _ensure_schema, execute_upsert,
      commit, close, lift.
    destruct (admits (server w) host port user password database); cbn;
      [| reflexivity].
    destruct (cursor_ok (server w)); cbn; [| reflexivity].
    destruct (ddl_ok (server w)); cbn; [| reflexivity].
    destruct (insert_params x) as [p| |]; cbn; [| reflexivity..].
    destruct (insert_on_duplicate p (server w) (now w) (github_issues w));
      cbn; [| reflexivity].
    destruct (commit_ok (server w)); cbn; [discriminate | reflexivity].
  - left. split; [discriminate |]. revert Hres.
    destruct (main_cases w)
      as [(r & -> & Hr)|(x & host & port & user & password & database & ->)];
      [reflexivity |].
    unfold bind, connect, try_finally, cursor, _ensure_schema, execute_upsert,
      commit, close, lift.
    destruct (admits (server w) host port user password database); cbn;
      [| reflexivity].
    destruct (cursor_ok (server w)); cbn; [| reflexivity].
    destruct (ddl_ok (server w)); cbn; [| reflexivity].
    destruct (insert_params x) as [p| |]; cbn; [| reflexivity..].
    destruct (insert_on_duplicate p (server w) (now w) (github_issues w));
      cbn; [| reflexivity].
    destruct (commit_ok (server w)); cbn; [discriminate | reflexivity].
Qed.

End Calls.

(** ** The same event again *)

Section Redelivery.
Import Py MySQL Columns.
Context `{Builtins}.

Lemma values_at (p : Params datetime) (t1 t2 k1 k2 : Z)
    (row1 row2 : Row datetime) :
  values p t1 = Some (k1, row1) ->
  values p t2 = Some (k2, row2) ->
  k2 = k1 /\ row2 = on_duplicate_key_update row1 row1 t2.
Proof.
  unfold values. intros H1 H2.
  destruct (@to_mysql datetime (p_id p)) as [[|id| |]|];
    try discriminate H1.
  repeat match type of H1 with
         | match ?o with _ => _ end = Some _ =>
             destruct o; try discriminate H1
         end.
  injection H1 as <- <-. injection H2 as <- <-. split; reflexivity.
Qed.

(** X17: a second run on the same environment and event file changes
    nothing but [event_received_at] of the issue's row, and nothing at all
    when the server's clock has not moved. *)
Theorem redelivery_restamps (w1 w2 : World datetime) :
  environ w2 = environ w1 ->
  files w2 = files w1 ->
  github_issues w2 = github_issues (main w1).2 ->
  (main w1).1 = Ok tt ->
  (main w2).1 = Ok tt ->
  exists k row,
    github_issues (main w1).2 !! k = Some row
    /\ github_issues (main w2).2
       = <[k := on_duplicate_key_update row row (now w2)]>
           (github_issues (main w1).2)
    /\ (now w2 = now w1 ->
        github_issues (main w2).2 = github_issues (main w1).2).
Proof.
  intros Henv Hfiles Hdb Hok1 Hok2.
  destruct (main_ok w1 Hok1)
    as (e1 & x1 & p1 & t1 & He1 & Hx1 & Hp1 & Hu1 & Ht1).
  destruct (main_ok w2 Hok2)
    as (e2 & x2 & p2 & t2 & He2 & Hx2 & Hp2 & Hu2 & Ht2).
  unfold event_of in He1, He2. rewrite Henv, Hfiles, He1 in He2.
  injection He2 as <-. rewrite Hx1 in Hx2. injection Hx2 as <-.
  rewrite Hp1 in Hp2. injection Hp2 as <-.
  destruct (insert_on_duplicate_spec _ _ _ _ _ Hu1) as (k1 & row1 & Hv1 & Hr1).
  destruct (insert_on_duplicate_spec _ _ _ _ _ Hu2) as (k2 & row2 & Hv2 & Hr2).
  destruct (values_at _ _ _ _ _ _ _ Hv1 Hv2) as [-> ->].
  exists k1, row1. rewrite Ht2, Hr2, Hdb, Ht1, Hr1.
  split; [apply lookup_insert_eq |]. split; [reflexivity |].
  intros Hnow. rewrite insert_insert_eq. f_equal.
  destruct (values_received _ _ _ _ Hv1) as [_ Hrec].
  destruct row1. cbn in *. unfold on_duplicate_key_update. cbn. congruence.
Qed.

End Redelivery.

(** ** The further properties on the sample inputs *)

Section Samples.
Import Py.

Lemma truncate_within_budget_witness :
  exists t,
    Feishu._truncate (PStr "abcdefghij") 5 = Ok (PStr t)
    /\ len t = Z.min (len "abcdefghij") 5
    /\ (t = "abcdefghij" <-> len "abcdefghij" <= 5)
    /\ Feishu._truncate (PStr t) 5 = Ok (PStr t).
Proof. exact (truncate_within_budget "abcdefghij" 5 ltac:(lia)). Defined.


(** With a budget of 2 the six characters come back as eight. *)
Example truncate_below_marker_sample :
  Feishu._truncate (PStr "abcdef") 2 = Ok (PStr "abcde...")
  /\ Feishu._truncate (PStr "abcdef") 5 = Ok (PStr "ab...").
Proof. split; reflexivity. Qed.

Lemma fields_columns_witness :
  (forall c, c ∈ Fields.fixed_columns ->
     exists v,
       dict_get c Sample.tagged_fields = Some v
       /\ forall g fields',
            @Feishu.build_fields Reference.builtins g Sample.tagged_issue
              (PStr "opened") = Ok fields' ->
            dict_get c fields' = Some v)
  /\ ("Issue ID" ∉ Fields.fixed_columns ->
      map fst Sample.tagged_fields = "Issue ID" :: Fields.fixed_columns
      /\ exists id,
           get Sample.tagged_issue "id" PNone = Ok id
           /\ dict_get "Issue ID" Sample.tagged_fields
              = Some (PStr (@str Reference.builtins id)))
  /\ ("Issue ID" ∈ Fields.fixed_columns ->
      map fst Sample.tagged_fields
      = "Issue ID" :: filter (fun c => c <> "Issue ID") Fields.fixed_columns).
Proof.
  exact (@fields_columns Reference.builtins "Issue ID" Sample.tagged_issue
           (PStr "opened") Sample.tagged_fields
           ltac:(vm_compute; reflexivity)).
Defined.

(** With FEISHU_FIELD_ISSUE_ID set to Title the id is not written. *)
Example colliding_field_name :
  forall fields,
    @Feishu.build_fields Reference.builtins "Title" Sample.tagged_issue
      (PStr "opened") = Ok fields ->
    map fst fields
    = ["Title"; "Issue Number"; "State"; "URL"; "User"; "Labels";
       "Assignees"; "Action"; "Created At"; "Updated At"; "Closed At"; "Body"]
    /\ dict_get "Title" fields = Some (PStr "Crash on start").
Proof.
  intros fields Hb. vm_compute in Hb. injection Hb as <-. split; reflexivity.
Qed.

Lemma sinks_agree_witness :
  exists x p,
    @MySQL.extract Reference.builtins
      (Sample.event "opened" Sample.tagged_issue) = Ok x
    /\ MySQL.insert_params x = Ok p
    /\ dict_get "Issue Number" Sample.tagged_fields = Some (MySQL.p_number p)
    /\ dict_get "Title" Sample.tagged_fields = Some (MySQL.p_title p)
    /\ dict_get "State" Sample.tagged_fields = Some (MySQL.p_state p)
    /\ dict_get "URL" Sample.tagged_fields = Some (MySQL.p_url p)
    /\ dict_get "User" Sample.tagged_fields = Some (MySQL.p_user_login p)
    /\ dict_get "Action" Sample.tagged_fields = Some (MySQL.p_event_action p)
    /\ dict_get "Created At" Sample.tagged_fields
       = Some (Fields.shown (MySQL.p_created_at p))
    /\ dict_get "Updated At" Sample.tagged_fields
       = Some (Fields.shown (MySQL.p_updated_at p))
    /\ dict_get "Closed At" Sample.tagged_fields
       = Some (Fields.shown (MySQL.p_closed_at p))
    /\ (exists body,
          Feishu._truncate (MySQL.p_body p) Feishu.body_limit = Ok body
          /\ dict_get "Body" Sample.tagged_fields = Some body)
    /\ (exists labels assignees labels_field assignees_field,
          MySQL.p_labels p = @json_dumps Reference.builtins (PList labels)
          /\ MySQL.p_assignees p
             = @json_dumps Reference.builtins (PList assignees)
          /\ Feishu.joined labels = Ok labels_field
          /\ Feishu.joined assignees = Ok assignees_field
          /\ dict_get "Labels" Sample.tagged_fields = Some labels_field
          /\ dict_get "Assignees" Sample.tagged_fields
             = Some assignees_field)
    /\ ("Issue ID" ∉ Fields.fixed_columns ->
        dict_get "Issue ID" Sample.tagged_fields
        = Some (PStr (@str Reference.builtins (MySQL.p_id p)))).
Proof.
  exact (@sinks_agree Reference.builtins "Issue ID"
           (Sample.event "opened" Sample.tagged_issue) Sample.tagged_issue
           (PStr "opened") Sample.tagged_fields eq_refl eq_refl
           ltac:(vm_compute; reflexivity)).
Defined.

Lemma success_means_written_witness :
  exists new cfg request response code fields,
    Feishu.wire Sample.first_delivery.2 = [] ++ new
    /\ Feishu.read_config Sample.feishu_env = Ok cfg
    /\ length new = (if Feishu.upsert cfg then 3 else 2)%nat
    /\ last new = Some (request, Feishu.Body (Some response))
    /\ Feishu.payload request = PDict [("fields", PDict fields)]
    /\ (Feishu.method request = "PUT"
        \/ (Feishu.method request = "POST"
            /\ Feishu.url request
               = Feishu.records_url (Feishu.base_url cfg)
                   (Feishu.app_token cfg) (Feishu.table_id cfg)))
    /\ get response "code" PNone = Ok code
    /\ eq_int code 0 = true.
Proof.
  exact (@success_means_written Reference.builtins _ Bitable.serve
           (Sample.feishu_world Sample.feishu_env
              (Sample.event "opened" Sample.tagged_issue) Sample.empty_table)
           ltac:(vm_compute; reflexivity)).
Defined.

Lemma create_adds_a_record_witness :
  let run :=
    @Feishu._bitable_create Reference.builtins _ Bitable.serve
      "https://open.feishu.cn" (PStr "t-tenant") "bascn1" "tbl1"
      Sample.tagged_fields
      (Sample.feishu_world Sample.feishu_env PNone Sample.empty_table) in
  run.1 = Ok tt
  /\ Bitable.rows (Feishu.remote run.2)
     = Bitable.rows Sample.empty_table ++ [Sample.tagged_fields]
  /\ Bitable.count_for "Issue ID" "42" (Feishu.remote run.2)
     = S (Bitable.count_for "Issue ID" "42" Sample.empty_table)
  /\ exists request reply,
       Feishu.wire run.2 = [] ++ [(request, reply)]
       /\ Feishu.method request = "POST".
Proof.
  exact (@create_adds_a_record Reference.builtins Sample.empty_table
           (Sample.feishu_world Sample.feishu_env PNone Sample.empty_table)
           (PStr "t-tenant") Sample.tagged_fields "Issue ID" "42" eq_refl
           ltac:(vm_compute; reflexivity)).
Defined.

(** Through [main] with FEISHU_UPSERT set to 0: the same event twice is two
    records, and no search is made. *)
Example two_creates_two_records :
  let env := <["FEISHU_UPSERT" := "0"]> Sample.feishu_env in
  let event := Sample.event "opened" Sample.tagged_issue in
  let run1 :=
    @Feishu.main Reference.builtins _ Bitable.serve
      (Sample.feishu_world env event Sample.empty_table) in
  let run2 :=
    @Feishu.main Reference.builtins _ Bitable.serve
      (Sample.feishu_world env event (Feishu.remote run1.2)) in
  run2.1 = Ok tt
  /\ Bitable.count_for "Issue ID" "42" (Feishu.remote run2.2) = 2%nat
  /\ map (fun x => Feishu.method x.1) (Feishu.wire run2.2) = ["POST"; "POST"].
Proof. vm_compute. repeat split. Qed.

Lemma delivery_keeps_one_record_witness :
  Sample.first_delivery.1 = Ok tt
  /\ Bitable.count_for "Issue ID" "42" (Feishu.remote Sample.first_delivery.2)
     = Nat.max 1 (Bitable.count_for "Issue ID" "42" Sample.empty_table)
  /\ length (Bitable.rows (Feishu.remote Sample.first_delivery.2))
     = (length (Bitable.rows Sample.empty_table)
        + match Bitable.count_for "Issue ID" "42" Sample.empty_table with
          | O => 1
          | S _ => 0
          end)%nat.
Proof.
  refine (@delivery_keeps_one_record Reference.builtins Sample.empty_table
            (Sample.feishu_world Sample.feishu_env
               (Sample.event "opened" Sample.tagged_issue) Sample.empty_table)
            {| Feishu.event_path := "/github/workflow/event.json";
               Feishu.base_url := "https://open.feishu.cn";
               Feishu.app_id := "cli_a1b2";
               Feishu.app_secret := "s3cret";
               Feishu.app_token := "bascn1";
               Feishu.table_id := "tbl1";
               Feishu.upsert := true;
               Feishu.issue_id_field := "Issue ID" |}
            [("action", PStr "opened"); ("issue", Sample.tagged_issue)]
            Sample.tagged_issue (PInt 42) Sample.tagged_fields
            eq_refl _ eq_refl eq_refl eq_refl eq_refl _ eq_refl eq_refl _ _).
  - vm_compute. reflexivity.
  - vm_compute. reflexivity.
  - vm_compute. reflexivity.
  - unfold Fields.fixed_columns. cbn [Feishu.issue_id_field].
    intros Hin.
    repeat (apply elem_of_cons in Hin as [Hin | Hin]; [discriminate Hin |]).
    now apply elem_of_nil in Hin.
Defined.

Lemma redelivery_restamps_witness :
  exists k row,
    MySQL.github_issues (@MySQL.main Reference.builtins Sample.first_insert).2
      !! k = Some row
    /\ MySQL.github_issues
         (@MySQL.main Reference.builtins Sample.redelivered).2
       = <[k := MySQL.on_duplicate_key_update row row
                  (MySQL.now Sample.redelivered)]>
           (MySQL.github_issues
              (@MySQL.main Reference.builtins Sample.first_insert).2)
    /\ (MySQL.now Sample.redelivered = MySQL.now Sample.first_insert ->
        MySQL.github_issues
          (@MySQL.main Reference.builtins Sample.redelivered).2
        = MySQL.github_issues
            (@MySQL.main Reference.builtins Sample.first_insert).2).
Proof.
  exact (@redelivery_restamps Reference.builtins Sample.first_insert
           Sample.redelivered eq_refl eq_refl eq_refl
           ltac:(vm_compute; reflexivity) ltac:(vm_compute; reflexivity)).
Defined.

End Samples.
